(** * Little-star backend: a shallow embedding of the request handlers

    The Express application of [src/app.js] mounts six routers
    ([accounts.js], [attendance.js], [routine.js], [docs.js], [policy.js],
    [marks.js]) and one shared middleware ([middleware.js]).  Every handler
    is a read-modify-write cycle over a JSON array kept in one file.  The
    embedding below turns every handler into a pure function from the
    request and the collections it reads to a response and the collection it
    writes.  Reading or writing a file never fails in this model.

    The operations of the language the handlers call are embedded as
    functions ([parseInt] with its white space, radix prefix and rounding to
    a double; truthiness, [typeof], [===]).  Three libraries are kept
    symbolic: the case mapping of [toLowerCase] is a parameter with two laws
    ([CaseMapping]), [bcryptjs] is the 72-byte key of a password, and
    [jsonwebtoken] is a payload with the key that signed it. *)

From Stdlib Require Import ZArith QArith Lqa List String Ascii Bool Lia.
Import ListNotations.

Local Open Scope string_scope.
Local Open Scope list_scope.
Local Open Scope Z_scope.

Set Warnings "-register-all".

(** ** JavaScript values *)

(** A value found in a parsed JSON request body.  A number is a finite
    double, given by the rational [q] it prints as ([JNum q] is the double
    whose shortest decimal form, the one [JSON.stringify] writes, has the
    value [q]; the integers below 2^53 in magnitude are such, and so are the
    decimals of up to 15 significant digits).  Order and equality of doubles
    are those of the rationals they print as.  [JObj] is a plain object with
    its own properties, each key once (arrays are not modelled).
    [JUndefined] is a field that is absent from the body. *)
Inductive JsVal :=
| JUndefined
| JNull
| JBool (b : bool)
| JNum (q : Q)
| JStr (s : string)
| JObj (fields : list (string * JsVal)).

(** [!v] is [negb (truthy v)]. *)
Definition truthy (v : JsVal) : bool :=
  match v with
  | JUndefined | JNull => false
  | JBool b => b
  | JNum q => negb (Qeq_bool q 0)
  | JStr s => negb (String.eqb s "")
  | JObj _ => true
  end.

Definition typeof (v : JsVal) : string :=
  match v with
  | JUndefined => "undefined"
  | JNull => "object"
  | JBool _ => "boolean"
  | JNum _ => "number"
  | JStr _ => "string"
  | JObj _ => "object"
  end.

(** [a === b].  An object in a request body is never the same reference as
    an object loaded from a file, so two objects are never equal. *)
Definition strict_eq (a b : JsVal) : bool :=
  match a, b with
  | JUndefined, JUndefined => true
  | JNull, JNull => true
  | JBool x, JBool y => Bool.eqb x y
  | JNum x, JNum y => Qeq_bool x y
  | JStr x, JStr y => String.eqb x y
  | _, _ => false
  end.

Definition num (n : Z) : JsVal := JNum (inject_Z n).

(** [Object.keys(o)] and [o[k]] on a plain object. *)
Definition keys (v : JsVal) : list string :=
  match v with
  | JObj fields => map fst fields
  | _ => []
  end.

Fixpoint lookup (k : string) (fields : list (string * JsVal)) : JsVal :=
  match fields with
  | [] => JUndefined
  | (k', v) :: rest => if String.eqb k k' then v else lookup k rest
  end.

Definition property (v : JsVal) (k : string) : JsVal :=
  match v with
  | JObj fields => lookup k fields
  | _ => JUndefined
  end.

(** [l.includes(v)] for a list of strings. *)
Definition includes (l : list string) (v : JsVal) : bool :=
  existsb (fun s => strict_eq (JStr s) v) l.

(** *** Strings *)

(** A string is the sequence of the bytes of its UTF-8 encoding, which is
    how a string literal is read here; [code] is the value of a byte.  The
    ASCII characters are the bytes below 128. *)
Definition code (c : ascii) : Z := Z.of_nat (nat_of_ascii c).

Fixpoint ascii_only (s : string) : bool :=
  match s with
  | EmptyString => true
  | String c rest => (code c <? 128) && ascii_only rest
  end.

(** The letters A to Z in lower case; every other byte is kept. *)
Definition lower (c : ascii) : ascii :=
  let n := nat_of_ascii c in
  if (Nat.leb 65 n && Nat.leb n 90)%bool then ascii_of_nat (n + 32) else c.

Fixpoint fold_ascii (s : string) : string :=
  match s with
  | EmptyString => EmptyString
  | String c rest => String (lower c) (fold_ascii rest)
  end.

(** [String.prototype.toLowerCase] maps every cased letter of Unicode to its
    lower case, by the case mappings of the Unicode Character Database that
    the engine ships.  The handlers only compare its results with each
    other and with ['.pdf'] and ['.docx'], so the mapping is a parameter of
    the embedding, given with the two facts about it that the properties
    use: on a string of ASCII characters it changes the letters A to Z and
    nothing else, and it makes no string empty. *)
Class CaseMapping := {
  toLowerCase : string -> string;
  toLowerCase_ascii :
    forall s, ascii_only s = true -> toLowerCase s = fold_ascii s;
  toLowerCase_nonempty : forall s, toLowerCase s = "" -> s = ""
}.

(** A mapping for the sample requests: the case mapping of the letters of
    Basic Latin and of the Latin-1 Supplement, A to Z and, in two bytes of
    first byte 195, U+00C0 to U+00DE without the multiplication sign
    U+00D7.  It agrees with [toLowerCase] on every string made of
    characters of these two blocks, as those of the sample requests are. *)
Definition capital_latin1 (c1 c2 : ascii) : bool :=
  (code c1 =? 195) && (128 <=? code c2) && (code c2 <=? 158)
  && negb (code c2 =? 151).

Fixpoint fold_latin1 (s : string) : string :=
  match s with
  | EmptyString => EmptyString
  | String c1 rest1 =>
      match rest1 with
      | String c2 rest2 =>
          if capital_latin1 c1 c2
          then String c1
                 (String (ascii_of_nat (nat_of_ascii c2 + 32))
                    (fold_latin1 rest2))
          else String (lower c1) (fold_latin1 rest1)
      | EmptyString => String (lower c1) EmptyString
      end
  end.

Lemma fold_latin1_ascii (s : string) :
  ascii_only s = true -> fold_latin1 s = fold_ascii s.
Proof.
  induction s as [|c1 rest1 IH]; [reflexivity|].
  intros Hs. cbn [ascii_only] in Hs. apply andb_true_iff in Hs.
  destruct Hs as [Hc Hrest]. cbn [fold_latin1 fold_ascii].
  destruct rest1 as [|c2 rest2]; [reflexivity|].
  assert (Hcap : capital_latin1 c1 c2 = false).
  { unfold capital_latin1. apply Z.ltb_lt in Hc.
    destruct (Z.eqb_spec (code c1) 195); [lia|reflexivity]. }
  rewrite Hcap. now rewrite (IH Hrest).
Qed.

Lemma fold_latin1_nonempty (s : string) : fold_latin1 s = "" -> s = "".
Proof.
  destruct s as [|c1 [|c2 rest]]; cbn [fold_latin1];
    [reflexivity|discriminate|].
  destruct (capital_latin1 c1 c2); discriminate.
Qed.

Definition latin1_mapping : CaseMapping :=
  {| toLowerCase := fold_latin1;
     toLowerCase_ascii := fold_latin1_ascii;
     toLowerCase_nonempty := fold_latin1_nonempty |}.

(** *** parseInt *)

(** The white space [parseInt] skips (WhiteSpace and LineTerminator of the
    language): in one byte U+0009 to U+000D and U+0020; in two bytes
    U+00A0; in three bytes U+1680, U+2000 to U+200A, U+2028, U+2029,
    U+202F, U+205F, U+3000 and U+FEFF. *)
Definition is_space (c : ascii) : bool :=
  (code c =? 32) || ((9 <=? code c) && (code c <=? 13)).

Definition is_space2 (c1 c2 : ascii) : bool :=
  (code c1 =? 194) && (code c2 =? 160).

Definition is_space3 (c1 c2 c3 : ascii) : bool :=
  let '(a, b, c) := (code c1, code c2, code c3) in
  ((a =? 225) && (b =? 154) && (c =? 128))
  || ((a =? 226) && (b =? 128)
      && (((128 <=? c) && (c <=? 138))
          || (c =? 168) || (c =? 169) || (c =? 175)))
  || ((a =? 226) && (b =? 129) && (c =? 159))
  || ((a =? 227) && (b =? 128) && (c =? 128))
  || ((a =? 239) && (b =? 187) && (c =? 191)).

Fixpoint trimStart (s : string) : string :=
  match s with
  | String c1 rest1 =>
      if is_space c1 then trimStart rest1
      else
        match rest1 with
        | String c2 rest2 =>
            if is_space2 c1 c2 then trimStart rest2
            else
              match rest2 with
              | String c3 rest3 =>
                  if is_space3 c1 c2 c3 then trimStart rest3 else s
              | EmptyString => s
              end
        | EmptyString => s
        end
  | EmptyString => EmptyString
  end.

Definition digit (radix : Z) (c : ascii) : option Z :=
  let n := code c in
  let d := if (48 <=? n) && (n <=? 57) then n - 48
           else if (97 <=? n) && (n <=? 122) then n - 87
           else if (65 <=? n) && (n <=? 90) then n - 55
           else radix in
  if d <? radix then Some d else None.

(** The longest prefix of digits, read in the radix; [acc] is [None] until
    a first digit is seen. *)
Fixpoint digits (radix : Z) (s : string) (acc : option Z) : option Z :=
  match s with
  | EmptyString => acc
  | String c rest =>
      match digit radix c with
      | None => acc
      | Some d =>
          digits radix rest
            (Some (match acc with Some a => a * radix + d | None => d end))
      end
  end.

(** The Number value of an integer: the integer itself up to 53 bits, and
    beyond them the nearest double, ties to the even significand.  An
    integer that so rounds to 2^1024 or beyond has an infinity for its
    Number value, here [None]. *)
Definition to_double (n : Z) : option Z :=
  let a := Z.abs n in
  let bits := Z.log2 a + 1 in
  if bits <=? 53 then Some n
  else
    let e := bits - 53 in
    let q := Z.shiftr a e in
    let r := a - Z.shiftl q e in
    let half := Z.shiftl 1 (e - 1) in
    let significand :=
      if (half <? r) || ((r =? half) && Z.odd q) then q + 1 else q in
    if Z.shiftl 1 1024 <=? Z.shiftl significand e then None
    else Some (Z.sgn n * Z.shiftl significand e).

(** A result of [parseInt] is a Number with an integer value, [NaN] or an
    infinity.  [None] stands for [NaN] and for the two infinities alike:
    each of them differs from every number read from a file (and [NaN] from
    itself), and [JSON.stringify] writes each of them as [null]. *)
Definition parseInt_string (s : string) : option Z :=
  let s1 := trimStart s in
  let '(sign, s2) :=
    match s1 with
    | String "-"%char rest => (-1, rest)
    | String "+"%char rest => (1, rest)
    | _ => (1, s1)
    end in
  let '(radix, s3) :=
    match s2 with
    | String "0"%char (String "x"%char rest) => (16, rest)
    | String "0"%char (String "X"%char rest) => (16, rest)
    | _ => (10, s2)
    end in
  match digits radix s3 None with
  | Some m => to_double (sign * m)
  | None => None
  end.

(** The first significant decimal digit of [n / d], for [n] and [d]
    positive; the fuel bounds the number of shifts by a power of ten. *)
Fixpoint leading (fuel : nat) (n d : Z) : Z :=
  match fuel with
  | O => 0
  | S fuel' =>
      if n <? d then leading fuel' (10 * n) d
      else if 10 * d <=? n then leading fuel' n (10 * d)
      else n / d
  end.

(** [parseInt] of a number reads its printed form.  A number [JNum q] is
    the double that prints as [q] (the shortest decimal that reads back as
    the double, which is what [JSON.stringify] writes and the usual form of
    a number in a request body).  Zero prints as [0]; a magnitude from 1e-6
    up to 1e21 prints in positional notation, of which the integer part is
    read; any other magnitude prints in exponent notation, as in [1e-7] and
    [1e+21], of which the leading digit is read. *)
Definition parseInt_number (q : Q) : option Z :=
  let n := Z.abs (Qnum q) in
  let d := Zpos (Qden q) in
  if n =? 0 then Some 0
  else if (d <=? n * 10 ^ 6) && (n <? d * 10 ^ 21)
  then to_double (Z.quot (Qnum q) d)
  else
    Some (Z.sgn (Qnum q)
          * leading (Z.to_nat (Z.log2 n + Z.log2 d + 2)) n d).

(** [parseInt(v)] converts [v] to a string first: ["undefined"], ["null"],
    ["true"], ["false"] and ["[object Object]"] start with no digit. *)
Definition parseInt (v : JsVal) : option Z :=
  match v with
  | JNum q => parseInt_number q
  | JStr s => parseInt_string s
  | _ => None
  end.

(** [x === parseInt(..)] for a stored integer [x]. *)
Definition eq_parsed (x : Z) (p : option Z) : bool :=
  match p with
  | Some n => Z.eqb x n
  | None => false
  end.

(** *** Arrays *)

Section Arrays.
Context {A : Type}.

(** [l.findIndex(p)]; [None] stands for -1. *)
Fixpoint findIndex (p : A -> bool) (l : list A) : option nat :=
  match l with
  | [] => None
  | x :: rest => if p x then Some O else option_map S (findIndex p rest)
  end.

(** [l[i] = x] for an index inside the array. *)
Fixpoint assign (i : nat) (x : A) (l : list A) : list A :=
  match l, i with
  | [], _ => []
  | _ :: rest, O => x :: rest
  | y :: rest, S j => y :: assign j x rest
  end.

(** [l.splice(i, 1)]. *)
Fixpoint splice (i : nat) (l : list A) : list A :=
  match l, i with
  | [], _ => []
  | _ :: rest, O => rest
  | y :: rest, S j => y :: splice j rest
  end.

(** [l.push(x)]. *)
Definition push (l : list A) (x : A) : list A := l ++ [x].

(** [l.length], as the number it is in JavaScript. *)
Definition len (l : list A) : Z := Z.of_nat (List.length l).

(** [const e = l.find(p); if (e) e.field = ..]: the first element that
    satisfies [p] is updated where it stands. *)
Fixpoint update_first (p : A -> bool) (f : A -> A) (l : list A)
  : option (list A) :=
  match l with
  | [] => None
  | x :: rest =>
      if p x then Some (f x :: rest)
      else option_map (cons x) (update_first p f rest)
  end.

End Arrays.

(** ** Responses and stored records *)

(** The symbolic model of the two libraries the handlers call for
    cryptography.  [bcryptjs] keys its cipher with 72 bytes: the bytes of
    the password followed by a zero byte, repeated as often as it takes.
    [bcrypt.hash(password, 10)] draws a salt and returns a digest of the
    salt and of that key; [bcrypt.compare] accepts the passwords of the same
    key and no other. *)
Fixpoint key_stream (n : nat) (key rest : string) : string :=
  match n with
  | O => EmptyString
  | S n' =>
      match rest with
      | String c rest' => String c (key_stream n' key rest')
      | EmptyString =>
          match key with
          | String c rest' => String c (key_stream n' key rest')
          | EmptyString => EmptyString
          end
      end
  end.

Definition bcrypt_key (password : string) : string :=
  let key := String.append password (String zero EmptyString) in
  key_stream 72 key key.

Inductive Digest :=
| Bcrypt (salt : string) (key : string).

Definition bcrypt_hash (salt password : string) : Digest :=
  Bcrypt salt (bcrypt_key password).

Definition bcrypt_compare (password : string) (d : Digest) : bool :=
  match d with
  | Bcrypt _ key => String.eqb (bcrypt_key password) key
  end.

(** A JSON Web Token as [jsonwebtoken] sees it: a string that does not
    parse, or a payload with its issue and expiry times (seconds) and the key
    under which it was signed.  A signature verifies under the signing key
    and under no other. *)
Module Jwt.

Record Payload := {
  id : Z;
  email : string;
  userType : string;
  section : option string
}.

Record Decoded := {
  claims : Payload;
  iat : Z;
  exp : Z
}.

Inductive Token :=
| Malformed (raw : string)
| Signed (d : Decoded) (key : string).

(** [jwt.sign(payload, secret, { expiresIn: '1h' })] at time [now]. *)
Definition sign (payload : Payload) (secret : string) (now : Z) : Token :=
  Signed {| claims := payload; iat := now; exp := now + 3600 |} secret.

(** [jwt.verify(token, secret)] at time [now]; [None] when it throws. *)
Definition verify (token : Token) (secret : string) (now : Z)
  : option Decoded :=
  match token with
  | Malformed _ => None
  | Signed d key =>
      if String.eqb key secret && negb (exp d <=? now) then Some d else None
  end.

End Jwt.

(** The elements of the six collections, with the fields the handlers give
    them: users.json, attendance.json, routines.json, documents.json,
    policies.json and marks.json. *)
Module User.
Record t := {
  id : Z;
  email : string;
  password : Digest;
  userType : string;
  section : option string
}.
End User.

Module AttendanceRecord.
Record t := {
  userId : JsVal;
  name : string;
  userType : string;
  attendance : JsVal
}.
End AttendanceRecord.

Module RoutineRecord.
Record t := {
  id : Z;
  section : JsVal;
  day : JsVal;
  time : JsVal;
  subject : JsVal;
  teacherId : JsVal
}.
End RoutineRecord.

Module DocumentRecord.
Record t := {
  id : Z;
  fileName : string;
  uploadedBy : Z;
  uploadDate : string;
  description : string
}.
End DocumentRecord.

Module PolicyRecord.
Record t := {
  id : Z;
  fileName : string;
  uploadedBy : Z;
  uploadDate : string;
  description : string
}.
End PolicyRecord.

(** [userId] is [parseInt(userId)]: an integer or, as [None], the [null]
    that [JSON.stringify] writes for [NaN] and for an infinity; [null] is
    [===] to no result of [parseInt]. *)
Module MarkEntry.
Record t := {
  userId : option Z;
  subject : JsVal;
  marks : Q;
  grade : string;
  updatedBy : Z;
  updatedAt : string
}.
End MarkEntry.

(** What a handler sends: [res.status(s).json(..)], [res.send(buffer)] or
    [res.download(path)]. *)
Inductive Content :=
| Message (message : string)
| TokenOf (token : Jwt.Token)
| ARoutine (r : RoutineRecord.t)
| RoutineList (l : list RoutineRecord.t)
| ADocument (d : DocumentRecord.t)
| DocumentList (l : list DocumentRecord.t)
| APolicy (p : PolicyRecord.t)
| PolicyList (l : list PolicyRecord.t)
| AMark (m : MarkEntry.t)
| MarkList (l : list MarkEntry.t)
| AnAttendance (a : AttendanceRecord.t)
| Workbook (rows : list AttendanceRecord.t)
| FileAt (fileName : string).

Record Response := {
  status : Z;
  body : Content
}.

Definition reply (s : Z) (content : Content) : Response :=
  {| status := s; body := content |}.

Definition fail (s : Z) (message : string) : Response :=
  reply s (Message message).

(** What a handler leaves behind: its response and, when it called the
    write function of its collection, the array it wrote. *)
Definition Outcome (A : Type) : Type := (Response * option (list A))%type.

(** [return res.status(s).json(..)] before any write. *)
Definition stop {A : Type} (res : Response) : Outcome A := (res, None).

(** [await write(l); res.status(s).json(..)] *)
Definition save {A : Type} (res : Response) (l : list A) : Outcome A :=
  (res, Some l).

(** ** accounts.js *)

Module Accounts.

Definition VALID_USER_TYPES : list string := ["Admin"; "Teacher"; "Student"].

(** The fields read from the body of a signup or signin request.  [bcrypt]
    and [toLowerCase] need strings, so a field is a string or, as [None],
    absent or null. *)
Record Body := {
  email : option string;
  password : option string;
  userType : option string;
  section : option string
}.

(** [!field] *)
Definition absent (field : option string) : bool :=
  match field with
  | None => true
  | Some s => String.eqb s ""
  end.

Definition text (field : option string) : string :=
  match field with
  | Some s => s
  | None => ""
  end.

(** [user => user.email.toLowerCase() === email.toLowerCase()] *)
Definition same_email `{CaseMapping} (email : string) (user : User.t) : bool :=
  String.eqb (toLowerCase (User.email user)) (toLowerCase email).

(** [router.post('/signup')].  [now] and [salt] are the clock and the
    randomness the call consumes. *)
Definition signup `{CaseMapping} (secret : string) (now : Z) (salt : string)
    (req : Body) (users : list User.t) : Outcome User.t :=
  if absent (email req) || absent (password req) || absent (userType req)
  then stop (fail 400 "Email, password, and userType are required")
  else
    let email := text (email req) in
    let password := text (password req) in
    let userType := text (userType req) in
    if String.eqb userType "Student" && absent (section req)
    then stop (fail 400 "Section is required for Students")
    else if negb (includes VALID_USER_TYPES (JStr userType))
    then stop (fail 400 "Invalid userType. Must be Admin, Teacher, or Student")
    else
      match find (same_email email) users with
      | Some _ => stop (fail 400 "User already exists")
      | None =>
          let newUser :=
            {| User.id := len users + 1;
               User.email := email;
               User.password := bcrypt_hash salt password;
               User.userType := userType;
               User.section :=
                 if String.eqb userType "Student" then section req
                 else None |} in
          let users' := push users newUser in
          let tokenPayload :=
            {| Jwt.id := User.id newUser;
               Jwt.email := email;
               Jwt.userType := userType;
               Jwt.section :=
                 if String.eqb userType "Student" then section req
                 else None |} in
          save (reply 201 (TokenOf (Jwt.sign tokenPayload secret now))) users'
      end.

(** [router.post('/signin')] *)
Definition signin `{CaseMapping} (secret : string) (now : Z)
    (req : Body) (users : list User.t) : Response :=
  if absent (email req) || absent (password req)
  then fail 400 "Email and password are required"
  else
    match find (same_email (text (email req))) users with
    | None => fail 401 "Invalid credentials"
    | Some user =>
        if negb (bcrypt_compare (text (password req)) (User.password user))
        then fail 401 "Invalid credentials"
        else
          reply 200
            (TokenOf
               (Jwt.sign
                  {| Jwt.id := User.id user;
                     Jwt.email := User.email user;
                     Jwt.userType := User.userType user;
                     Jwt.section := None |}
                  secret now))
    end.

End Accounts.

(** ** middleware.js *)

Module Middleware.

(** [authenticate]: the token is the second word of the Authorization
    header, [None] when there is none.  On success [req.user] is the stored
    user whose id is the token's. *)
Definition authenticate (secret : string) (now : Z)
    (token : option Jwt.Token) (users : list User.t) : Response + User.t :=
  match token with
  | None => inl (fail 401 "No token provided")
  | Some token =>
      match Jwt.verify token secret now with
      | None => inl (fail 401 "Invalid token")
      | Some decoded =>
          match
            find (fun u => User.id u =? Jwt.id (Jwt.claims decoded)) users
          with
          | None => inl (fail 401 "Invalid token")
          | Some user => inr user
          end
      end
  end.

End Middleware.

(** ** attendance.js *)

Module Attendance.

(** The router's own [authenticate]: [req.user] is the decoded token. *)
Definition authenticate (secret : string) (now : Z)
    (token : option Jwt.Token) : Response + Jwt.Decoded :=
  match token with
  | None => inl (fail 401 "No token provided")
  | Some token =>
      match Jwt.verify token secret now with
      | None => inl (fail 401 "Invalid token")
      | Some decoded => inr decoded
      end
  end.

Definition validDays : list string :=
  ["Monday"; "Tuesday"; "Wednesday"; "Thursday"; "Friday"; "Saturday";
   "Sunday"].

(** The test of the validation loop for one key of the attendance object. *)
Definition invalid_day (attendance : JsVal) (day : string) : bool :=
  negb (includes validDays (JStr day))
  || negb (String.eqb (typeof (property attendance day)) "boolean").

Definition with_attendance (attendance : JsVal) (r : AttendanceRecord.t)
  : AttendanceRecord.t :=
  {| AttendanceRecord.userId := AttendanceRecord.userId r;
     AttendanceRecord.name := AttendanceRecord.name r;
     AttendanceRecord.userType := AttendanceRecord.userType r;
     AttendanceRecord.attendance := attendance |}.

(** [router.post('/')]: the response carries the workbook built from all
    records. *)
Definition post (user : Jwt.Decoded) (userId attendance : JsVal)
    (users : list User.t) (attendanceRecords : list AttendanceRecord.t)
  : Outcome AttendanceRecord.t :=
  let role := Jwt.userType (Jwt.claims user) in
  if negb (String.eqb role "Admin") && negb (String.eqb role "Teacher")
  then stop (fail 403 "Only Admins or Teachers can modify attendance")
  else if negb (truthy userId) || negb (truthy attendance)
          || negb (String.eqb (typeof attendance) "object")
  then stop (fail 400 "userId and attendance object are required")
  else if existsb (invalid_day attendance) (keys attendance)
  then stop (fail 400 "Attendance must contain valid days with boolean values")
  else
    match find (fun u => strict_eq (num (User.id u)) userId) users with
    | None =>
        stop (fail 400 "Invalid userId or user is not a Teacher/Student")
    | Some target =>
        if negb (String.eqb (User.userType target) "Teacher")
           && negb (String.eqb (User.userType target) "Student")
        then stop (fail 400 "Invalid userId or user is not a Teacher/Student")
        else
          let saved :=
            match
              update_first
                (fun record =>
                   strict_eq (AttendanceRecord.userId record) userId)
                (with_attendance attendance) attendanceRecords
            with
            | Some updated => updated
            | None =>
                push attendanceRecords
                  {| AttendanceRecord.userId := userId;
                     AttendanceRecord.name := User.email target;
                     AttendanceRecord.userType := User.userType target;
                     AttendanceRecord.attendance := attendance |}
            end in
          save (reply 201 (Workbook saved)) saved
    end.

(** [r.userId === parseInt(userId)] *)
Definition is_parsed (v : JsVal) (p : option Z) : bool :=
  match p with
  | Some n => strict_eq v (num n)
  | None => false
  end.

(** [router.get('/:userId')] *)
Definition get (user : Jwt.Decoded) (userId : string)
    (attendanceRecords : list AttendanceRecord.t) : Response :=
  let role := Jwt.userType (Jwt.claims user) in
  if negb (String.eqb role "Admin") && negb (String.eqb role "Teacher")
     && negb (eq_parsed (Jwt.id (Jwt.claims user)) (parseInt (JStr userId)))
  then fail 403 "Access denied"
  else
    match
      find (fun r => is_parsed (AttendanceRecord.userId r)
                       (parseInt (JStr userId)))
        attendanceRecords
    with
    | None => fail 404 "Attendance not found"
    | Some record => reply 200 (AnAttendance record)
    end.

End Attendance.

(** ** routine.js *)

Module Routine.

Record Body := {
  section : JsVal;
  day : JsVal;
  time : JsVal;
  subject : JsVal;
  teacherId : JsVal
}.

Definition incomplete (req : Body) : bool :=
  negb (truthy (section req)) || negb (truthy (day req))
  || negb (truthy (time req)) || negb (truthy (subject req))
  || negb (truthy (teacherId req)).

(** [u => u.id === teacherId && u.userType === 'Teacher'] *)
Definition is_teacher (teacherId : JsVal) (u : User.t) : bool :=
  strict_eq (num (User.id u)) teacherId
  && String.eqb (User.userType u) "Teacher".

Definition record (id : Z) (req : Body) : RoutineRecord.t :=
  {| RoutineRecord.id := id;
     RoutineRecord.section := section req;
     RoutineRecord.day := day req;
     RoutineRecord.time := time req;
     RoutineRecord.subject := subject req;
     RoutineRecord.teacherId := teacherId req |}.

(** [router.post('/')] *)
Definition post (user : User.t) (req : Body)
    (users : list User.t) (routines : list RoutineRecord.t)
  : Outcome RoutineRecord.t :=
  if negb (String.eqb (User.userType user) "Admin")
  then stop (fail 403 "Only Admins can create routines")
  else if incomplete req
  then stop (fail 400 "All fields are required")
  else
    match find (is_teacher (teacherId req)) users with
    | None => stop (fail 400 "Invalid teacherId")
    | Some _ =>
        let newRoutine := record (len routines + 1) req in
        save (reply 201 (ARoutine newRoutine)) (push routines newRoutine)
    end.

(** [router.put('/:id')].  When [parseInt(id)] is [NaN] or an infinity no
    [r.id] is equal to it and [findIndex] gives -1. *)
Definition put (user : User.t) (id : string) (req : Body)
    (users : list User.t) (routines : list RoutineRecord.t)
  : Outcome RoutineRecord.t :=
  if negb (String.eqb (User.userType user) "Admin")
  then stop (fail 403 "Only Admins can update routines")
  else if incomplete req
  then stop (fail 400 "All fields are required")
  else
    match find (is_teacher (teacherId req)) users with
    | None => stop (fail 400 "Invalid teacherId")
    | Some _ =>
        match parseInt (JStr id) with
        | None => stop (fail 404 "Routine not found")
        | Some n =>
            match findIndex (fun r => RoutineRecord.id r =? n) routines with
            | None => stop (fail 404 "Routine not found")
            | Some index =>
                save (reply 200 (ARoutine (record n req)))
                  (assign index (record n req) routines)
            end
        end
    end.

(** [router.delete('/:id')] *)
Definition delete (user : User.t) (id : string)
    (routines : list RoutineRecord.t) : Outcome RoutineRecord.t :=
  if negb (String.eqb (User.userType user) "Admin")
  then stop (fail 403 "Only Admins can delete routines")
  else
    match
      findIndex (fun r => eq_parsed (RoutineRecord.id r) (parseInt (JStr id)))
        routines
    with
    | None => stop (fail 404 "Routine not found")
    | Some index =>
        save (reply 200 (Message "Routine deleted")) (splice index routines)
    end.

(** [router.get('/')] *)
Definition get (user : User.t) (routines : list RoutineRecord.t)
  : Response :=
  if String.eqb (User.userType user) "Admin"
  then reply 200 (RoutineList routines)
  else if String.eqb (User.userType user) "Teacher"
  then
    reply 200
      (RoutineList
         (filter
            (fun r => strict_eq (RoutineRecord.teacherId r)
                        (num (User.id user)))
            routines))
  else if String.eqb (User.userType user) "Student"
  then
    match User.section user with
    | None => fail 400 "Student section not found"
    | Some own =>
        if String.eqb own ""
        then fail 400 "Student section not found"
        else
          reply 200
            (RoutineList
               (filter
                  (fun r => strict_eq (RoutineRecord.section r) (JStr own))
                  routines))
    end
  else fail 403 "Invalid user type".

End Routine.

(** ** docs.js and policy.js *)

(** A file of a multipart request, as multer's disk storage sees it:
    [extname] is [path.extname(file.originalname)] and [uuid] the fresh
    [uuidv4()] of the stored name.  The bytes multer writes to the uploads
    directory are outside the six collections and are not modelled. *)
Record Upload := {
  extname : string;
  uuid : string
}.

Module Docs.

(** [file.filename], from the [filename] callback of the storage. *)
Definition filename (file : Upload) : string :=
  String.append (uuid file) (extname file).

(** [description || ''] *)
Definition or_empty (description : option string) : string :=
  match description with
  | Some s => s
  | None => ""
  end.

(** [router.post('/')]; [timestamp] is [new Date().toISOString()]. *)
Definition post (user : User.t) (description : option string)
    (file : option Upload) (timestamp : string)
    (documents : list DocumentRecord.t)
  : Outcome DocumentRecord.t :=
  if negb (String.eqb (User.userType user) "Teacher")
  then stop (fail 403 "Only Teachers can upload documents")
  else
    match file with
    | None => stop (fail 400 "No file uploaded")
    | Some file =>
        let newDocument :=
          {| DocumentRecord.id := len documents + 1;
             DocumentRecord.fileName := filename file;
             DocumentRecord.uploadedBy := User.id user;
             DocumentRecord.uploadDate := timestamp;
             DocumentRecord.description := or_empty description |} in
        save (reply 201 (ADocument newDocument)) (push documents newDocument)
    end.

(** [router.get('/')] *)
Definition list_all (documents : list DocumentRecord.t) : Response :=
  reply 200 (DocumentList documents).

(** [router.get('/:id')]; [on_disk] tells whether [fs.access] finds the
    file in the uploads directory. *)
Definition download (id : string) (on_disk : string -> bool)
    (documents : list DocumentRecord.t) : Response :=
  match
    find (fun d => eq_parsed (DocumentRecord.id d) (parseInt (JStr id)))
      documents
  with
  | None => fail 404 "Document not found"
  | Some document =>
      if on_disk (DocumentRecord.fileName document)
      then reply 200 (FileAt (DocumentRecord.fileName document))
      else fail 404 "File not found"
  end.

End Docs.

Module Policy.

Definition filename `{CaseMapping} (file : Upload) : string :=
  String.append (uuid file) (toLowerCase (extname file)).

Definition fileFilter `{CaseMapping} (file : Upload) : bool :=
  let ext := toLowerCase (extname file) in
  String.eqb ext ".pdf" || String.eqb ext ".docx".

(** [upload.single('file')] followed by [handleMulterError]: a file the
    filter refuses ends the request. *)
Definition upload `{CaseMapping} (file : option Upload)
  : Response + option Upload :=
  match file with
  | None => inr None
  | Some f =>
      if fileFilter f then inr (Some f)
      else inl (fail 400 "Only PDF and DOCX files are allowed")
  end.

(** [router.post('/')], after the middlewares. *)
Definition post `{CaseMapping} (user : User.t) (description : option string)
    (file : option Upload) (timestamp : string)
    (policies : list PolicyRecord.t)
  : Outcome PolicyRecord.t :=
  if negb (String.eqb (User.userType user) "Admin")
  then stop (fail 403 "Only Admins can upload policies")
  else
    match file with
    | None => stop (fail 400 "No file uploaded")
    | Some file =>
        let newPolicy :=
          {| PolicyRecord.id := len policies + 1;
             PolicyRecord.fileName := filename file;
             PolicyRecord.uploadedBy := User.id user;
             PolicyRecord.uploadDate := timestamp;
             PolicyRecord.description := Docs.or_empty description |} in
        save (reply 201 (APolicy newPolicy)) (push policies newPolicy)
    end.

Definition list_all (policies : list PolicyRecord.t) : Response :=
  reply 200 (PolicyList policies).

Definition download (id : string) (on_disk : string -> bool)
    (policies : list PolicyRecord.t) : Response :=
  match
    find (fun p => eq_parsed (PolicyRecord.id p) (parseInt (JStr id)))
      policies
  with
  | None => fail 404 "Policy not found"
  | Some policy =>
      if on_disk (PolicyRecord.fileName policy)
      then reply 200 (FileAt (PolicyRecord.fileName policy))
      else fail 404 "File not found"
  end.

End Policy.

(** ** marks.js *)

Module Marks.

Definition calculateGrade (marks : Q) : string :=
  if Qle_bool 90 marks then "A"
  else if Qle_bool 80 marks then "B"
  else if Qle_bool 70 marks then "C"
  else if Qle_bool 60 marks then "D"
  else "F".

Definition validSubjects : list string := ["Math"; "Science"; "English"].

(** [a === b] between two results of [parseInt] *)
Definition same_number (a b : option Z) : bool :=
  match a, b with
  | Some x, Some y => Z.eqb x y
  | _, _ => false
  end.

(** [m => m.userId === parseInt(userId) && m.subject === subject] *)
Definition same_key (userId : option Z) (subject : JsVal) (m : MarkEntry.t)
  : bool :=
  same_number (MarkEntry.userId m) userId
  && strict_eq (MarkEntry.subject m) subject.

(** [router.post('/')]; [timestamp] is [new Date().toISOString()]. *)
Definition post (user : User.t) (userId subject marks : JsVal)
    (timestamp : string) (allMarks : list MarkEntry.t)
  : Outcome MarkEntry.t :=
  if negb (String.eqb (User.userType user) "Admin")
     && negb (String.eqb (User.userType user) "Teacher")
  then stop (fail 403 "Only Admins or Teachers can update marks")
  else if negb (truthy userId) || negb (truthy subject)
          || strict_eq marks JUndefined
  then stop (fail 400 "userId, subject, and marks are required")
  else
    match marks with
    | JNum m =>
        if negb (Qle_bool 0 m) || negb (Qle_bool m 100)
        then stop (fail 400 "Marks must be a number between 0 and 100")
        else if negb (includes validSubjects subject)
        then stop (fail 400 "Subject must be one of: Math, Science, English")
        else
          let existingMarkIndex :=
            findIndex (same_key (parseInt userId) subject) allMarks in
          let markEntry :=
            {| MarkEntry.userId := parseInt userId;
               MarkEntry.subject := subject;
               MarkEntry.marks := m;
               MarkEntry.grade := calculateGrade m;
               MarkEntry.updatedBy := User.id user;
               MarkEntry.updatedAt := timestamp |} in
          save (reply 201 (AMark markEntry))
            match existingMarkIndex with
            | Some index => assign index markEntry allMarks
            | None => push allMarks markEntry
            end
    | _ => stop (fail 400 "Marks must be a number between 0 and 100")
    end.

(** [router.get('/:userId')] *)
Definition get (user : User.t) (userId : string)
    (allMarks : list MarkEntry.t) : Response :=
  if negb (String.eqb (User.userType user) "Admin")
     && negb (String.eqb (User.userType user) "Teacher")
     && negb (eq_parsed (User.id user) (parseInt (JStr userId)))
  then fail 403 "Unauthorized to view these marks"
  else
    reply 200
      (MarkList
         (filter
            (fun m => same_number (MarkEntry.userId m)
                        (parseInt (JStr userId)))
            allMarks)).

End Marks.

(** ** app.js: the mounted routes over the six collections *)

Module App.

Record Store := {
  users : list User.t;
  attendance : list AttendanceRecord.t;
  routines : list RoutineRecord.t;
  documents : list DocumentRecord.t;
  policies : list PolicyRecord.t;
  marks : list MarkEntry.t
}.

Definition empty : Store :=
  {| users := []; attendance := []; routines := []; documents := [];
     policies := []; marks := [] |}.

Definition set_users (st : Store) (l : list User.t) : Store :=
  {| users := l; attendance := attendance st; routines := routines st;
     documents := documents st; policies := policies st; marks := marks st |}.

Definition set_attendance (st : Store) (l : list AttendanceRecord.t)
  : Store :=
  {| users := users st; attendance := l; routines := routines st;
     documents := documents st; policies := policies st; marks := marks st |}.

Definition set_routines (st : Store) (l : list RoutineRecord.t) : Store :=
  {| users := users st; attendance := attendance st; routines := l;
     documents := documents st; policies := policies st; marks := marks st |}.

Definition set_documents (st : Store) (l : list DocumentRecord.t) : Store :=
  {| users := users st; attendance := attendance st; routines := routines st;
     documents := l; policies := policies st; marks := marks st |}.

Definition set_policies (st : Store) (l : list PolicyRecord.t) : Store :=
  {| users := users st; attendance := attendance st; routines := routines st;
     documents := documents st; policies := l; marks := marks st |}.

Definition set_marks (st : Store) (l : list MarkEntry.t) : Store :=
  {| users := users st; attendance := attendance st; routines := routines st;
     documents := documents st; policies := policies st; marks := l |}.

(** What a request finds outside the collections: the signing secret, the
    clock in seconds, the timestamp [new Date().toISOString()], the salt
    [bcrypt] draws and the content of the uploads directory. *)
Record Env := {
  JWT_SECRET : string;
  now : Z;
  timestamp : string;
  salt : string;
  on_disk : string -> bool
}.

(** One request to a mounted route, with what the route reads from it. *)
Inductive Request :=
| AuthSignup (req : Accounts.Body)
| AuthSignin (req : Accounts.Body)
| AttendancePost (token : option Jwt.Token) (userId attendance : JsVal)
| AttendanceGet (token : option Jwt.Token) (userId : string)
| RoutinesPost (token : option Jwt.Token) (req : Routine.Body)
| RoutinesPut (token : option Jwt.Token) (id : string) (req : Routine.Body)
| RoutinesDelete (token : option Jwt.Token) (id : string)
| RoutinesGet (token : option Jwt.Token)
| DocumentsPost (token : option Jwt.Token) (description : option string)
    (file : option Upload)
| DocumentsGet
| DocumentsGetId (id : string)
| PoliciesPost (token : option Jwt.Token) (description : option string)
    (file : option Upload)
| PoliciesGet
| PoliciesGetId (id : string)
| MarksPost (token : option Jwt.Token) (userId subject marks : JsVal)
| MarksGet (token : option Jwt.Token) (userId : string).

(** The file of a collection after a handler: the array written, or what
    was there when nothing was written. *)
Definition persisted {A : Type} (before : list A) (out : Outcome A)
  : list A :=
  match snd out with
  | Some written => written
  | None => before
  end.

(** A route behind the shared [authenticate] middleware. *)
Definition authenticated (env : Env) (token : option Jwt.Token) (st : Store)
    (next : User.t -> Response * Store) : Response * Store :=
  match Middleware.authenticate (JWT_SECRET env) (now env) token (users st)
  with
  | inl denied => (denied, st)
  | inr user => next user
  end.

(** The application: one request served over the persisted collections. *)
Definition handle `{CaseMapping} (env : Env) (request : Request) (st : Store)
  : Response * Store :=
  match request with
  | AuthSignup req =>
      let out :=
        Accounts.signup (JWT_SECRET env) (now env) (salt env) req (users st)
      in (fst out, set_users st (persisted (users st) out))
  | AuthSignin req =>
      (Accounts.signin (JWT_SECRET env) (now env) req (users st), st)
  | AttendancePost token userId attendance0 =>
      match Attendance.authenticate (JWT_SECRET env) (now env) token with
      | inl denied => (denied, st)
      | inr user =>
          let out :=
            Attendance.post user userId attendance0 (users st) (attendance st)
          in (fst out, set_attendance st (persisted (attendance st) out))
      end
  | AttendanceGet token userId =>
      match Attendance.authenticate (JWT_SECRET env) (now env) token with
      | inl denied => (denied, st)
      | inr user => (Attendance.get user userId (attendance st), st)
      end
  | RoutinesPost token req =>
      authenticated env token st (fun user =>
        let out := Routine.post user req (users st) (routines st) in
        (fst out, set_routines st (persisted (routines st) out)))
  | RoutinesPut token id req =>
      authenticated env token st (fun user =>
        let out := Routine.put user id req (users st) (routines st) in
        (fst out, set_routines st (persisted (routines st) out)))
  | RoutinesDelete token id =>
      authenticated env token st (fun user =>
        let out := Routine.delete user id (routines st) in
        (fst out, set_routines st (persisted (routines st) out)))
  | RoutinesGet token =>
      authenticated env token st (fun user =>
        (Routine.get user (routines st), st))
  | DocumentsPost token description file =>
      authenticated env token st (fun user =>
        let out :=
          Docs.post user description file (timestamp env) (documents st) in
        (fst out, set_documents st (persisted (documents st) out)))
  | DocumentsGet => (Docs.list_all (documents st), st)
  | DocumentsGetId id => (Docs.download id (on_disk env) (documents st), st)
  | PoliciesPost token description file =>
      authenticated env token st (fun user =>
        match Policy.upload file with
        | inl refused => (refused, st)
        | inr file =>
            let out :=
              Policy.post user description file (timestamp env) (policies st)
            in (fst out, set_policies st (persisted (policies st) out))
        end)
  | PoliciesGet => (Policy.list_all (policies st), st)
  | PoliciesGetId id => (Policy.download id (on_disk env) (policies st), st)
  | MarksPost token userId subject marks0 =>
      authenticated env token st (fun user =>
        let out :=
          Marks.post user userId subject marks0 (timestamp env) (marks st) in
        (fst out, set_marks st (persisted (marks st) out)))
  | MarksGet token userId =>
      authenticated env token st (fun user =>
        (Marks.get user userId (marks st), st))
  end.

(** A run of the server: requests served one after the other, each in its
    own environment. *)
Fixpoint run `{CaseMapping} (requests : list (Env * Request)) (st : Store)
  : Store :=
  match requests with
  | [] => st
  | (env, request) :: rest => run rest (snd (handle env request st))
  end.

End App.

(** ** The rules of the specification *)

(** The policy table of section 4.4 and the grade thresholds, as the
    specification words them; the handlers are compared with them below. *)
Module Table.

Inductive Role := Admin | Teacher | Student.

Definition name (r : Role) : string :=
  match r with
  | Admin => "Admin"
  | Teacher => "Teacher"
  | Student => "Student"
  end.

Inductive Resource :=
| ResAttendance | ResRoutines | ResDocuments | ResPolicies | ResMarks.

(** Column Create/Modify. *)
Definition may_modify (res : Resource) (r : Role) : bool :=
  match res, r with
  | ResAttendance, (Admin | Teacher) => true
  | ResRoutines, Admin => true
  | ResDocuments, Teacher => true
  | ResPolicies, Admin => true
  | ResMarks, (Admin | Teacher) => true
  | _, _ => false
  end.

(** Column Read: all records, or the caller's own only. *)
Inductive Reach := Everything | OwnOnly.

Definition may_read (res : Resource) (r : Role) : Reach :=
  match res, r with
  | (ResDocuments | ResPolicies), _ => Everything
  | _, Admin => Everything
  | (ResAttendance | ResMarks), Teacher => Everything
  | ResRoutines, Teacher => OwnOnly
  | _, Student => OwnOnly
  end.

(** Row Routines, column Read: a Teacher's own routines are those whose
    teacherId is the Teacher's id, a Student's own those of the Student's
    section. *)
Definition own_routine (r : Role) (user : User.t) (routine : RoutineRecord.t)
  : bool :=
  match r with
  | Admin => true
  | Teacher =>
      strict_eq (RoutineRecord.teacherId routine) (num (User.id user))
  | Student =>
      match User.section user with
      | Some own => strict_eq (RoutineRecord.section routine) (JStr own)
      | None => false
      end
  end.


End Table.

(** A handler that answers 403 and writes nothing. *)
Definition forbidden {A : Type} (out : Outcome A) : Prop :=
  status (fst out) = 403 /\ snd out = None.


(** A subject of the enumerated set. *)
Definition valid_subject (subject : JsVal) : Prop :=
  exists s, subject = JStr s /\ In s Marks.validSubjects.

(** The caller passes the role gate of the marks handler. *)
Definition may_grade (user : User.t) : Prop :=
  User.userType user = "Admin" \/ User.userType user = "Teacher".

(** The record the marks handler builds once the role gate, the presence
    test and the two validations are passed, and the array it writes. *)
Definition mark_entry (user : User.t) (userId : JsVal) (s : string) (m : Q)
    (timestamp : string) : MarkEntry.t :=
  {| MarkEntry.userId := parseInt userId;
     MarkEntry.subject := JStr s;
     MarkEntry.marks := m;
     MarkEntry.grade := Marks.calculateGrade m;
     MarkEntry.updatedBy := User.id user;
     MarkEntry.updatedAt := timestamp |}.

Definition upsert (entry : MarkEntry.t) (allMarks : list MarkEntry.t)
  : list MarkEntry.t :=
  match
    findIndex
      (Marks.same_key (MarkEntry.userId entry) (MarkEntry.subject entry))
      allMarks
  with
  | Some index => assign index entry allMarks
  | None => push allMarks entry
  end.

(** The records of the marks collection kept under a pair (userId,
    subject), and the invariant of the collection: no pair has two. *)
Definition stored_under (userId : Z) (subject : string)
    (l : list MarkEntry.t) : list MarkEntry.t :=
  filter (Marks.same_key (Some userId) (JStr subject)) l.

Definition one_per_pair (l : list MarkEntry.t) : Prop :=
  forall userId subject,
    (List.length (stored_under userId subject l) <= 1)%nat.

(** The marks of the identity with id [n], in the order of the collection. *)
Definition marks_of (n : Z) (l : list MarkEntry.t) : list MarkEntry.t :=
  filter (fun m => Marks.same_number (MarkEntry.userId m) (Some n)) l.

(** The identifiers 1, 2, .., n, in this order. *)
Definition numbered (ids : list Z) : Prop :=
  ids = map Z.of_nat (seq 1 (List.length ids)).

(** The requests that remove a record: [DELETE /routines/:id]. *)
Definition deletes (request : App.Request) : bool :=
  match request with
  | App.RoutinesDelete _ _ => true
  | _ => false
  end.

(** No routine was deleted in the run: every [DELETE /routines/:id] of the
    run, served in its turn, left the routines collection as it was. *)
Fixpoint nothing_deleted `{CaseMapping}
    (requests : list (App.Env * App.Request)) (st : App.Store) : Prop :=
  match requests with
  | [] => True
  | (env, request) :: rest =>
      (deletes request = true ->
       App.routines (snd (App.handle env request st)) = App.routines st) /\
      nothing_deleted rest (snd (App.handle env request st))
  end.

(** A response that reports a failed check: validation (400),
    authentication (401), authorization (403) or a record that is not there
    (404). *)
Definition failure (res : Response) : Prop :=
  status res = 400 \/ status res = 401 \/ status res = 403
  \/ status res = 404.

(** Sample data for the examples: the identities the first three signups
    create, and the environment of a request. *)
Module Sample.

#[local] Existing Instance latin1_mapping.

Definition admin : User.t :=
  {| User.id := 1; User.email := "admin@example.com";
     User.password := bcrypt_hash "s1" "password123";
     User.userType := "Admin"; User.section := None |}.

Definition teacher : User.t :=
  {| User.id := 2; User.email := "teacher@example.com";
     User.password := bcrypt_hash "s2" "password123";
     User.userType := "Teacher"; User.section := None |}.

Definition student : User.t :=
  {| User.id := 3; User.email := "student@example.com";
     User.password := bcrypt_hash "s3" "password123";
     User.userType := "Student"; User.section := Some "A" |}.

Definition users : list User.t := [admin; teacher; student].

Definition stamp : string := "2025-01-01T00:00:00.000Z".

Definition env : App.Env :=
  {| App.JWT_SECRET := "secret"; App.now := 100; App.timestamp := stamp;
     App.salt := "s4"; App.on_disk := fun _ => true |}.

(** The token a signup at time 0 hands to an identity. *)
Definition token (u : User.t) : Jwt.Token :=
  Jwt.sign
    {| Jwt.id := User.id u; Jwt.email := User.email u;
       Jwt.userType := User.userType u; Jwt.section := User.section u |}
    "secret" 0.

(** What [jwt.verify] reads back from that token. *)
Definition decoded (u : User.t) : Jwt.Decoded :=
  {| Jwt.claims :=
       {| Jwt.id := User.id u; Jwt.email := User.email u;
          Jwt.userType := User.userType u; Jwt.section := User.section u |};
     Jwt.iat := 0; Jwt.exp := 3600 |}.

Definition signs_up (salt email userType : string) (section : option string)
  : App.Env * App.Request :=
  ({| App.JWT_SECRET := "secret"; App.now := 0; App.timestamp := stamp;
      App.salt := salt; App.on_disk := fun _ => true |},
   App.AuthSignup
     {| Accounts.email := Some email;
        Accounts.password := Some "password123";
        Accounts.userType := Some userType;
        Accounts.section := section |}).

(** The store after the three signups: its users are [users]. *)
Definition store : App.Store :=
  App.run
    [signs_up "s1" "admin@example.com" "Admin" None;
     signs_up "s2" "teacher@example.com" "Teacher" None;
     signs_up "s3" "student@example.com" "Student" (Some "A")]
    App.empty.

Definition routine (section : string) (teacherId : Z) : Routine.Body :=
  {| Routine.section := JStr section; Routine.day := JStr "Monday";
     Routine.time := JStr "10:00"; Routine.subject := JStr "Math";
     Routine.teacherId := num teacherId |}.

End Sample.

(** The supplied teacherId is the id of a stored identity whose role is
    Teacher. *)
Definition refers_to_teacher (teacherId : JsVal) (users : list User.t)
  : Prop :=
  exists u,
    In u users /\ strict_eq (num (User.id u)) teacherId = true /\
    User.userType u = "Teacher".

(** The emails of the stored identities, as [toLowerCase] folds them, and
    the invariant of the users collection. *)
Definition folded_emails `{CaseMapping} (users : list User.t) : list string :=
  map (fun u => toLowerCase (User.email u)) users.

Definition emails_unique `{CaseMapping} (users : list User.t) : Prop :=
  NoDup (folded_emails users).

(** A Student identity has a non-empty section and no other identity
    carries one. *)
Definition sectioned (u : User.t) : Prop :=
  (User.userType u = "Student" ->
   exists own, User.section u = Some own /\ own <> "") /\
  (User.userType u <> "Student" -> User.section u = None).

(** A signup request that passes the three tests made before the users are
    read: the fields are there, a Student names a section, the role is one
    of the three. *)
Definition well_formed (req : Accounts.Body) : Prop :=
  Accounts.absent (Accounts.email req) = false /\
  Accounts.absent (Accounts.password req) = false /\
  Accounts.absent (Accounts.userType req) = false /\
  (Accounts.text (Accounts.userType req) = "Student" ->
   Accounts.absent (Accounts.section req) = false) /\
  In (Accounts.text (Accounts.userType req)) Accounts.VALID_USER_TYPES.

(** ** Notions for the further properties *)

(** The identity a signup stores for a request, in a collection of the
    given length. *)
Definition new_user (salt : string) (req : Accounts.Body)
    (users : list User.t) : User.t :=
  {| User.id := len users + 1;
     User.email := Accounts.text (Accounts.email req);
     User.password :=
       bcrypt_hash salt (Accounts.text (Accounts.password req));
     User.userType := Accounts.text (Accounts.userType req);
     User.section :=
       if String.eqb (Accounts.text (Accounts.userType req)) "Student"
       then Accounts.section req else None |}.

(** The email is, once folded, the email of no stored identity. *)
Definition fresh_email `{CaseMapping} (req : Accounts.Body)
    (users : list User.t) : Prop :=
  ~ In (toLowerCase (Accounts.text (Accounts.email req)))
       (folded_emails users).

(** The attendance records kept for the identity with id [n], and the
    invariant of the attendance collection: no identity has two. *)
Definition attendance_of (n : Z) (l : list AttendanceRecord.t)
  : list AttendanceRecord.t :=
  filter (fun r => strict_eq (AttendanceRecord.userId r) (num n)) l.

Definition one_per_user (l : list AttendanceRecord.t) : Prop :=
  forall n, (List.length (attendance_of n l) <= 1)%nat.

(** An attendance object the handler takes: every key is a day of the week
    and every value a boolean. *)
Definition days_with_booleans (attendance : JsVal) : Prop :=
  exists fields,
    attendance = JObj fields /\
    forall day, In day (keys attendance) ->
      In day Attendance.validDays /\
      exists b, property attendance day = JBool b.

(** An identity with the given id and one of the given roles is stored. *)
Definition stored_as (roles : list string) (id : Z) (users : list User.t)
  : Prop :=
  exists u, In u users /\ User.id u = id /\ In (User.userType u) roles.

(** The order of the grades, from F to A. *)
Definition rank (grade : string) : nat :=
  if String.eqb grade "A" then 4
  else if String.eqb grade "B" then 3
  else if String.eqb grade "C" then 2
  else if String.eqb grade "D" then 1
  else 0.

(** A stored name that ends in one of the two extensions of a policy. *)
Definition policy_name (fileName : string) : Prop :=
  exists stem,
    fileName = String.append stem ".pdf" \/
    fileName = String.append stem ".docx".

(** The routes that only read: the GET routes and the signin. *)
Definition reads_only (request : App.Request) : bool :=
  match request with
  | App.AuthSignin _ | App.AttendanceGet _ _ | App.RoutinesGet _
  | App.DocumentsGet | App.DocumentsGetId _ | App.PoliciesGet
  | App.PoliciesGetId _ | App.MarksGet _ _ => true
  | _ => false
  end.

(** The token a route behind an authenticate middleware reads, if any. *)
Definition bearer (request : App.Request) : option (option Jwt.Token) :=
  match request with
  | App.AttendancePost t _ _ | App.AttendanceGet t _
  | App.RoutinesPost t _ | App.RoutinesPut t _ _ | App.RoutinesDelete t _
  | App.RoutinesGet t | App.DocumentsPost t _ _ | App.PoliciesPost t _ _
  | App.MarksPost t _ _ _ | App.MarksGet t _ => Some t
  | _ => None
  end.

(** The identity an attendance record names is stored, under the id, the
    email and the role the record carries, and is a Teacher or a Student. *)
Definition attendance_target (r : AttendanceRecord.t) (users : list User.t)
  : Prop :=
  exists u,
    In u users /\
    strict_eq (num (User.id u)) (AttendanceRecord.userId r) = true /\
    AttendanceRecord.name r = User.email u /\
    AttendanceRecord.userType r = User.userType u /\
    In (User.userType u) ["Teacher"; "Student"].

(** Every stored record names a stored identity of the role its route asks
    for: the uploader of a document, the uploader of a policy, the grader of
    a mark, the teacher of a routine, the subject of an attendance record. *)
Definition references_kept (st : App.Store) : Prop :=
  (forall d, In d (App.documents st) ->
     stored_as ["Teacher"] (DocumentRecord.uploadedBy d) (App.users st)) /\
  (forall p, In p (App.policies st) ->
     stored_as ["Admin"] (PolicyRecord.uploadedBy p) (App.users st)) /\
  (forall m, In m (App.marks st) ->
     stored_as ["Admin"; "Teacher"] (MarkEntry.updatedBy m) (App.users st)) /\
  (forall r, In r (App.routines st) ->
     refers_to_teacher (RoutineRecord.teacherId r) (App.users st)) /\
  (forall a, In a (App.attendance st) ->
     attendance_target a (App.users st)).

(** The invariants of the marks and of the attendance collections: one
    record per pair and per identity; every mark within 0..100, under a
    subject of the enumerated set and with the grade of its marks; every
    attendance object made of days with boolean values. *)
Definition records_valid (st : App.Store) : Prop :=
  one_per_pair (App.marks st) /\
  one_per_user (App.attendance st) /\
  (forall m, In m (App.marks st) ->
     (0 <= MarkEntry.marks m <= 100)%Q /\
     MarkEntry.grade m = Marks.calculateGrade (MarkEntry.marks m) /\
     valid_subject (MarkEntry.subject m)) /\
  (forall a, In a (App.attendance st) ->
     days_with_booleans (AttendanceRecord.attendance a)).

(** ** Proof automation *)

(** [route] opens the middlewares of a route, [branches] the tests of a
    handler; [no_write] and [never_403] close the cases of a handler by its
    answers. *)
Ltac route :=
  unfold App.authenticated;
  repeat match goal with
    | |- context [Middleware.authenticate ?s ?n ?t ?u] =>
        destruct (Middleware.authenticate s n t u)
    | |- context [Attendance.authenticate ?s ?n ?t] =>
        destruct (Attendance.authenticate s n t)
    | |- context [Policy.upload ?f] => destruct (Policy.upload f)
    end.

Ltac branches :=
  unfold stop, save;
  repeat match goal with
    | |- context [if ?c then _ else _] => destruct c
    | |- context [match ?x with _ => _ end] => destruct x
    end.

Ltac no_write :=
  branches; simpl; unfold failure; simpl;
  try reflexivity; intros; repeat intuition discriminate.

Ltac open_gate H :=
  match type of H with
  | negb _ = true => apply negb_true_iff in H; apply String.eqb_neq in H
  | negb _ = false => apply negb_false_iff in H; apply String.eqb_eq in H
  end.

Ltac never_403 :=
  let Hs := fresh in
  intros [Hs _]; revert Hs; branches; simpl; discriminate.

(** * Properties of the handlers *)

Section Properties.
Context {mapping : CaseMapping}.

(** ** Facts about the JavaScript operations *)

Lemma strict_eq_str_l (s : string) (v : JsVal) :
  strict_eq (JStr s) v = true <-> v = JStr s.
Proof.
  destruct v; simpl; split; intro H; try discriminate.
  - apply String.eqb_eq in H. now subst.
  - injection H as ->. apply String.eqb_refl.
Qed.

Lemma strict_eq_str_r (s : string) (v : JsVal) :
  strict_eq v (JStr s) = true <-> v = JStr s.
Proof.
  destruct v; simpl; split; intro H; try discriminate.
  - apply String.eqb_eq in H. now subst.
  - injection H as ->. apply String.eqb_refl.
Qed.

Lemma includes_spec (l : list string) (v : JsVal) :
  includes l v = true <-> exists s, v = JStr s /\ In s l.
Proof.
  unfold includes. rewrite existsb_exists. split.
  - intros (s & Hin & Heq). apply strict_eq_str_l in Heq. eauto.
  - intros (s & -> & Hin). exists s. split; [assumption|].
    now apply strict_eq_str_l.
Qed.

Lemma is_role (t r : string) : negb (String.eqb t r) = false <-> t = r.
Proof.
  rewrite negb_false_iff. apply String.eqb_eq.
Qed.

Lemma not_role (t r : string) : negb (String.eqb t r) = true <-> t <> r.
Proof.
  rewrite negb_true_iff. apply String.eqb_neq.
Qed.

(** The fuel of [leading] is enough: a positive quotient has a leading
    digit from 1 to 9. *)
Lemma leading_quotient (n d : Z) :
  0 < d -> d <= n -> n < 10 * d -> 1 <= n / d <= 9.
Proof.
  intros Hd Hlow Hhigh. split.
  - apply Z.div_le_lower_bound; lia.
  - assert (n / d < 10) by (apply Z.div_lt_upper_bound; lia). lia.
Qed.

Lemma leading_up (fuel : nat) (n d : Z) :
  0 < n -> 0 < d -> n < 10 * d -> d <= n * 2 ^ Z.of_nat fuel ->
  1 <= leading (S fuel) n d <= 9.
Proof.
  revert n. induction fuel as [|fuel IH]; intros n Hn Hd Hhigh Hfuel.
  - change (2 ^ Z.of_nat 0) with 1 in Hfuel. cbn [leading].
    destruct (Z.ltb_spec n d); [lia|].
    destruct (Z.leb_spec (10 * d) n); [lia|].
    now apply leading_quotient.
  - cbn [leading]. destruct (Z.ltb_spec n d) as [Hlt|Hge].
    + apply IH; try lia.
      rewrite Nat2Z.inj_succ, Z.pow_succ_r in Hfuel by lia. nia.
    + destruct (Z.leb_spec (10 * d) n); [lia|].
      now apply leading_quotient.
Qed.

Lemma leading_down (fuel : nat) (n d : Z) :
  0 < n -> 0 < d -> d <= n -> n < d * 2 ^ Z.of_nat fuel ->
  1 <= leading (S fuel) n d <= 9.
Proof.
  revert d. induction fuel as [|fuel IH]; intros d Hn Hd Hlow Hfuel.
  - change (2 ^ Z.of_nat 0) with 1 in Hfuel. lia.
  - cbn [leading]. destruct (Z.ltb_spec n d) as [Hlt|Hge]; [lia|].
    destruct (Z.leb_spec (10 * d) n) as [Hbig|Hsmall].
    + apply IH; try lia.
      rewrite Nat2Z.inj_succ, Z.pow_succ_r in Hfuel by lia. nia.
    + now apply leading_quotient.
Qed.

Lemma leading_digit (n d : Z) :
  0 < n -> 0 < d ->
  1 <= leading (Z.to_nat (Z.log2 n + Z.log2 d + 2)) n d <= 9.
Proof.
  intros Hn Hd.
  pose proof (Z.log2_nonneg n) as Hln. pose proof (Z.log2_nonneg d) as Hld.
  destruct (Z.log2_spec n Hn) as [_ Hnb].
  destruct (Z.log2_spec d Hd) as [_ Hdb].
  replace (Z.to_nat (Z.log2 n + Z.log2 d + 2))
    with (S (Z.to_nat (Z.log2 n + Z.log2 d + 1))) by lia.
  assert (Hpow : 2 ^ Z.succ (Z.log2 n) <= 2 ^ (Z.log2 n + Z.log2 d + 1) /\
                 2 ^ Z.succ (Z.log2 d) <= 2 ^ (Z.log2 n + Z.log2 d + 1)).
  { split; apply Z.pow_le_mono_r; lia. }
  destruct (Z_lt_le_dec n d) as [Hlt|Hge].
  - apply leading_up; try lia. rewrite Z2Nat.id by lia. nia.
  - apply leading_down; try lia. rewrite Z2Nat.id by lia. nia.
Qed.

(** Up to 53 bits an integer is its own Number value. *)
Lemma to_double_safe (n : Z) : Z.abs n < 2 ^ 53 -> to_double n = Some n.
Proof.
  intros Hn. unfold to_double.
  assert (Hbits : Z.log2 (Z.abs n) + 1 <= 53).
  { destruct (Z.eq_dec (Z.abs n) 0) as [->|Hne]; [simpl; lia|].
    assert (Z.log2 (Z.abs n) < 53); [|lia].
    apply Z.log2_lt_pow2; lia. }
  apply Z.leb_le in Hbits. now rewrite Hbits.
Qed.

(** ** Facts about arrays *)

Section ArrayFacts.
Context {A : Type}.
Implicit Types (p : A -> bool) (l before after : list A) (old : A).

Lemma findIndex_None p l :
  findIndex p l = None <-> forall x, In x l -> p x = false.
Proof.
  induction l as [|y l IH]; simpl.
  - split; [intros _ x []|reflexivity].
  - destruct (p y) eqn:Hy.
    + split; [discriminate|]. intros H. specialize (H y (or_introl eq_refl)).
      congruence.
    + destruct (findIndex p l); simpl.
      * split; [discriminate|]. intros H.
        assert (Some n = None) by (apply IH; auto). discriminate.
      * split; [|reflexivity]. intros _ x [<-|Hx]; [assumption|].
        now apply IH.
Qed.

Lemma findIndex_Some p l i :
  findIndex p l = Some i ->
  exists before old after,
    l = before ++ old :: after /\ List.length before = i /\
    p old = true /\ (forall x, In x before -> p x = false).
Proof.
  revert i. induction l as [|y l IH]; simpl; intros i H; [discriminate|].
  destruct (p y) eqn:Hy.
  - injection H as <-. exists [], y, l. repeat split; auto.
    intros x [].
  - destruct (findIndex p l) as [j|]; [|discriminate].
    injection H as <-.
    destruct (IH j eq_refl) as (before & old & after & -> & <- & Hold & Hb).
    exists (y :: before), old, after. repeat split; auto.
    intros x [<-|Hx]; auto.
Qed.

Lemma findIndex_app p before old after :
  (forall x, In x before -> p x = false) -> p old = true ->
  findIndex p (before ++ old :: after) = Some (List.length before).
Proof.
  intros Hb Hold. induction before as [|y before IH]; simpl.
  - now rewrite Hold.
  - rewrite (Hb y (or_introl eq_refl)).
    rewrite IH; [reflexivity|]. intros x Hx. apply Hb. now right.
Qed.

Lemma assign_app before old after (x : A) :
  assign (List.length before) x (before ++ old :: after)
  = before ++ x :: after.
Proof.
  induction before as [|y before IH]; simpl; [reflexivity|].
  now rewrite IH.
Qed.

Lemma splice_app before old after :
  splice (List.length before) (before ++ old :: after) = before ++ after.
Proof.
  induction before as [|y before IH]; simpl; [reflexivity|].
  now rewrite IH.
Qed.

Lemma update_first_None p (f : A -> A) l :
  update_first p f l = None <-> forall x, In x l -> p x = false.
Proof.
  induction l as [|y l IH]; simpl.
  - split; [intros _ x []|reflexivity].
  - destruct (p y) eqn:Hy.
    + split; [discriminate|]. intros H. specialize (H y (or_introl eq_refl)).
      congruence.
    + destruct (update_first p f l); simpl.
      * split; [discriminate|]. intros H.
        assert (Some l0 = None) by (apply IH; auto). discriminate.
      * split; [|reflexivity]. intros _ x [<-|Hx]; [assumption|].
        now apply IH.
Qed.

Lemma update_first_Some p (f : A -> A) l l' :
  update_first p f l = Some l' ->
  exists before old after,
    l = before ++ old :: after /\ l' = before ++ f old :: after /\
    p old = true /\ (forall x, In x before -> p x = false).
Proof.
  revert l'. induction l as [|y l IH]; simpl; intros l' H; [discriminate|].
  destruct (p y) eqn:Hy.
  - injection H as <-. exists [], y, l. repeat split; auto.
    intros x [].
  - destruct (update_first p f l) as [l1|]; [|discriminate].
    injection H as <-.
    destruct (IH l1 eq_refl) as (before & old & after & -> & -> & Hold & Hb).
    exists (y :: before), old, after. repeat split; auto.
    intros x [<-|Hx]; auto.
Qed.

Lemma filter_none p l :
  (forall x, In x l -> p x = false) -> filter p l = [].
Proof.
  induction l as [|y l IH]; simpl; intros H; [reflexivity|].
  rewrite (H y (or_introl eq_refl)). apply IH. auto.
Qed.

Lemma find_head p l :
  find p l = match filter p l with x :: _ => Some x | [] => None end.
Proof.
  induction l as [|y l IH]; simpl; [reflexivity|].
  destruct (p y); [reflexivity|exact IH].
Qed.

End ArrayFacts.

(** ** marks.js: validation, grade and storage *)

Lemma marks_post_written user userId subject marks timestamp allMarks res l :
  Marks.post user userId subject marks timestamp allMarks = (res, Some l) ->
  exists m s,
    marks = JNum m /\ (0 <= m <= 100)%Q /\
    subject = JStr s /\ In s Marks.validSubjects /\
    truthy userId = true /\ may_grade user /\
    res = reply 201 (AMark (mark_entry user userId s m timestamp)) /\
    l = upsert (mark_entry user userId s m timestamp) allMarks.
Proof.
  unfold Marks.post, stop, save.
  destruct (negb (User.userType user =? "Admin")%string
            && negb (User.userType user =? "Teacher")%string) eqn:Hrole;
    [discriminate|].
  destruct (negb (truthy userId) || negb (truthy subject)
            || strict_eq marks JUndefined) eqn:Hpresent; [discriminate|].
  destruct marks as [| |b|m|s0|o]; try discriminate.
  destruct (negb (Qle_bool 0 m) || negb (Qle_bool m 100)) eqn:Hrange;
    [discriminate|].
  destruct (negb (includes Marks.validSubjects subject)) eqn:Hsubject;
    [discriminate|].
  intros H. injection H as <- <-.
  apply negb_false_iff, includes_spec in Hsubject.
  destruct Hsubject as (s & -> & Hin).
  apply orb_false_iff in Hrange. destruct Hrange as [H0 H100].
  apply negb_false_iff, Qle_bool_iff in H0, H100.
  apply orb_false_iff in Hpresent. destruct Hpresent as [Hpresent _].
  apply orb_false_iff in Hpresent. destruct Hpresent as [Hid _].
  apply negb_false_iff in Hid.
  apply andb_false_iff in Hrole.
  exists m, s. repeat split; try assumption.
  destruct Hrole as [H|H]; apply is_role in H; [left|right]; exact H.
Qed.



Lemma upsert_cases (entry : MarkEntry.t) (l : list MarkEntry.t) :
  let k := Marks.same_key (MarkEntry.userId entry) (MarkEntry.subject entry) in
  (exists before old after,
      l = before ++ old :: after /\ k old = true /\
      (forall x, In x before -> k x = false) /\
      upsert entry l = before ++ entry :: after) \/
  ((forall x, In x l -> k x = false) /\ upsert entry l = l ++ [entry]).
Proof.
  intros k. unfold upsert. fold k.
  destruct (findIndex k l) as [index|] eqn:Hfind.
  - left. apply findIndex_Some in Hfind.
    destruct Hfind as (before & old & after & -> & <- & Hold & Hb).
    exists before, old, after. rewrite assign_app. auto.
  - right. split; [|reflexivity]. now apply findIndex_None.
Qed.

Lemma upsert_In (entry : MarkEntry.t) (l : list MarkEntry.t) :
  In entry (upsert entry l).
Proof.
  destruct (upsert_cases entry l)
    as [(before & old & after & _ & _ & _ & ->)|[_ ->]];
    apply in_or_app; right; now left.
Qed.




(** ** marks.js: one record per (userId, subject) pair *)

Lemma same_key_spec (n : Z) (s : string) (e : MarkEntry.t) :
  Marks.same_key (Some n) (JStr s) e = true <->
  MarkEntry.userId e = Some n /\ MarkEntry.subject e = JStr s.
Proof.
  unfold Marks.same_key, Marks.same_number.
  rewrite andb_true_iff, strict_eq_str_r.
  destruct (MarkEntry.userId e) as [x|]; split.
  - intros [Hx Hs]. apply Z.eqb_eq in Hx. now subst.
  - intros [Hx Hs]. injection Hx as ->. split; [apply Z.eqb_refl|assumption].
  - intros [Hx _]. discriminate.
  - intros [Hx _]. discriminate.
Qed.

Lemma same_key_congr (k : option Z) (v : JsVal) (e e' : MarkEntry.t) :
  MarkEntry.userId e = MarkEntry.userId e' ->
  MarkEntry.subject e = MarkEntry.subject e' ->
  Marks.same_key k v e = Marks.same_key k v e'.
Proof.
  unfold Marks.same_key. now intros -> ->.
Qed.


Lemma upsert_one_per_pair (entry : MarkEntry.t) (l : list MarkEntry.t) n s :
  MarkEntry.userId entry = Some n -> MarkEntry.subject entry = JStr s ->
  one_per_pair l ->
  stored_under n s (upsert entry l) = [entry] /\
  one_per_pair (upsert entry l) /\
  ((exists before old after,
       l = before ++ old :: after /\ stored_under n s l = [old] /\
       upsert entry l = before ++ entry :: after) \/
   (stored_under n s l = [] /\ upsert entry l = l ++ [entry])).
Proof.
  intros Hid Hsubject Hinv.
  assert (Hentry : Marks.same_key (Some n) (JStr s) entry = true)
    by now apply same_key_spec.
  destruct (upsert_cases entry l)
    as [(before & old & after & -> & Hold & Hb & ->)|[Hnone ->]];
    rewrite Hid, Hsubject in *.
  - assert (Hbefore : stored_under n s before = [])
      by now apply filter_none.
    assert (Hafter : stored_under n s after = []).
    { specialize (Hinv n s). unfold stored_under in *.
      rewrite filter_app in Hinv. simpl in Hinv.
      rewrite Hold, Hbefore in Hinv. simpl in Hinv.
      destruct (filter _ after); [reflexivity|simpl in Hinv; lia]. }
    assert (Hhere : forall e, Marks.same_key (Some n) (JStr s) e = true ->
              stored_under n s (before ++ e :: after) = [e]).
    { intros e He. unfold stored_under in *. rewrite filter_app. simpl.
      now rewrite He, Hbefore, Hafter. }
    split; [now apply Hhere|]. split.
    + intros n' s'. specialize (Hinv n' s'). unfold stored_under in *.
      rewrite filter_app in *. simpl in *.
      apply same_key_spec in Hold. destruct Hold as [Ho1 Ho2].
      rewrite (same_key_congr _ _ entry old) by congruence.
      rewrite length_app in *.
      destruct (Marks.same_key (Some n') (JStr s') old); exact Hinv.
    + left. exists before, old, after. auto.
  - assert (Hl : stored_under n s l = []) by now apply filter_none.
    split; [|split].
    + unfold stored_under in *. rewrite filter_app, Hl. simpl.
      now rewrite Hentry.
    + intros n' s'. specialize (Hinv n' s'). unfold stored_under in *.
      rewrite filter_app. simpl.
      destruct (Marks.same_key (Some n') (JStr s') entry) eqn:He.
      * apply same_key_spec in He. destruct He as [He1 He2].
        assert (n' = n) by congruence. assert (s' = s) by congruence.
        subst. rewrite Hl. simpl. lia.
      * rewrite app_nil_r. exact Hinv.
    + right. auto.
Qed.

Lemma same_key_nan (k : option Z) (v : JsVal) (e : MarkEntry.t) :
  MarkEntry.userId e = None -> Marks.same_key k v e = false.
Proof.
  unfold Marks.same_key, Marks.same_number. now intros ->.
Qed.

Lemma same_key_of_nan (v : JsVal) (e : MarkEntry.t) :
  Marks.same_key None v e = false.
Proof.
  unfold Marks.same_key, Marks.same_number.
  now destruct (MarkEntry.userId e).
Qed.

Lemma marks_post_keeps_pairs
    user userId subject marks timestamp allMarks res written :
  one_per_pair allMarks ->
  Marks.post user userId subject marks timestamp allMarks
  = (res, Some written) ->
  one_per_pair written.
Proof.
  intros Hinv Hpost. apply marks_post_written in Hpost.
  destruct Hpost as (m & s & _ & _ & _ & _ & _ & _ & _ & ->).
  destruct (parseInt userId) as [n|] eqn:Hn.
  - now apply (upsert_one_per_pair (mark_entry user userId s m timestamp)
                 allMarks n s Hn eq_refl Hinv).
  - unfold upsert. simpl MarkEntry.userId. rewrite Hn.
    replace (findIndex _ allMarks) with (@None nat).
    2:{ symmetry. apply findIndex_None. intros x _.
        apply same_key_of_nan. }
    intros n' s'. unfold stored_under, push. rewrite filter_app. simpl.
    rewrite same_key_nan by exact Hn. rewrite app_nil_r. apply Hinv.
Qed.


(** ** routine.js: the teacher of a routine *)

Lemma find_is_teacher_Some teacherId users u :
  find (Routine.is_teacher teacherId) users = Some u ->
  refers_to_teacher teacherId users.
Proof.
  intros H. apply find_some in H. destruct H as [Hin Hu].
  unfold Routine.is_teacher in Hu. apply andb_true_iff in Hu.
  destruct Hu as [Hid Hrole]. apply String.eqb_eq in Hrole.
  exists u. auto.
Qed.

Lemma find_is_teacher_None teacherId users :
  find (Routine.is_teacher teacherId) users = None <->
  ~ refers_to_teacher teacherId users.
Proof.
  split.
  - intros Hnone (u & Hin & Hid & Hrole).
    apply (find_none _ _ Hnone) in Hin. unfold Routine.is_teacher in Hin.
    rewrite Hid, Hrole in Hin. discriminate.
  - intros Hno. destruct (find _ users) as [u|] eqn:Hfind; [|reflexivity].
    exfalso. apply Hno. now apply find_is_teacher_Some with u.
Qed.

(** C10.  Routine creation and routine update write nothing unless the
    supplied teacherId is the id of a stored identity whose role is Teacher:
    they answer 403 to a caller that is not an Admin, 400 otherwise, and
    that 400 is 'Invalid teacherId' when the caller is an Admin and the five
    fields are present.  Whenever one of them writes, the record it appends
    or puts in place carries the supplied teacherId, and that teacherId
    refers to a Teacher of the users collection read by the call. *)
Theorem routine_teacher_checked user id req users routines :
  let created := Routine.post user req users routines in
  let updated := Routine.put user id req users routines in
  (~ refers_to_teacher (Routine.teacherId req) users ->
   snd created = None /\ snd updated = None /\
   (User.userType user <> "Admin" ->
    status (fst created) = 403 /\ status (fst updated) = 403) /\
   (User.userType user = "Admin" ->
    status (fst created) = 400 /\ status (fst updated) = 400) /\
   (User.userType user = "Admin" -> Routine.incomplete req = false ->
    fst created = fail 400 "Invalid teacherId" /\
    fst updated = fail 400 "Invalid teacherId")) /\
  (forall l, snd created = Some l ->
     refers_to_teacher (Routine.teacherId req) users /\
     exists r, l = routines ++ [r] /\
               RoutineRecord.teacherId r = Routine.teacherId req) /\
  (forall l, snd updated = Some l ->
     refers_to_teacher (Routine.teacherId req) users /\
     exists before old after r,
       routines = before ++ old :: after /\ l = before ++ r :: after /\
       RoutineRecord.id r = RoutineRecord.id old /\
       RoutineRecord.teacherId r = Routine.teacherId req).
Proof.
  unfold Routine.post, Routine.put.
  destruct (negb (User.userType user =? "Admin")%string) eqn:Hrole;
    [apply not_role in Hrole|apply is_role in Hrole]; cbv zeta.
  { repeat split; try discriminate; try reflexivity; contradiction. }
  destruct (Routine.incomplete req) eqn:Hfields.
  { repeat split; try discriminate; try reflexivity; contradiction. }
  destruct (find (Routine.is_teacher (Routine.teacherId req)) users)
    as [teacher|] eqn:Hfind.
  - apply find_is_teacher_Some in Hfind. split; [contradiction|]. split.
    + intros l Hl. injection Hl as <-. split; [assumption|].
      eexists. split; reflexivity.
    + destruct (parseInt (JStr id)) as [n|]; [|discriminate].
      destruct (findIndex _ routines) as [index|] eqn:Hindex;
        [|discriminate].
      intros l Hl. injection Hl as <-. split; [assumption|].
      apply findIndex_Some in Hindex.
      destruct Hindex as (before & old & after & -> & <- & Hold & _).
      apply Z.eqb_eq in Hold.
      exists before, old, after, (Routine.record n req).
      rewrite assign_app. repeat split. simpl. congruence.
  - repeat split; try discriminate; try reflexivity; contradiction.
Qed.

(** ** accounts.js: one identity per folded email *)

Lemma find_same_email_None email users :
  find (Accounts.same_email email) users = None <->
  ~ In (toLowerCase email) (folded_emails users).
Proof.
  unfold folded_emails. induction users as [|u users IH]; simpl.
  - split; [intros _ []|reflexivity].
  - unfold Accounts.same_email at 1.
    destruct (String.eqb_spec (toLowerCase (User.email u))
                (toLowerCase email)) as [Heq|Hne].
    + split; [discriminate|]. intros H. exfalso. apply H. now left.
    + rewrite IH. split.
      * intros H [Hu|Hin]; [congruence|contradiction].
      * intros H Hin. apply H. now right.
Qed.

Lemma signup_written secret now salt req users res l :
  Accounts.signup secret now salt req users = (res, Some l) ->
  well_formed req /\
  ~ In (toLowerCase (Accounts.text (Accounts.email req)))
       (folded_emails users) /\
  status res = 201 /\
  exists u,
    l = users ++ [u] /\ User.id u = len users + 1 /\
    User.email u = Accounts.text (Accounts.email req).
Proof.
  unfold Accounts.signup, well_formed.
  destruct (Accounts.absent (Accounts.email req)); [discriminate|].
  destruct (Accounts.absent (Accounts.password req)); [discriminate|].
  destruct (Accounts.absent (Accounts.userType req)); [discriminate|].
  cbn [orb].
  destruct (String.eqb_spec (Accounts.text (Accounts.userType req))
              "Student") as [Hstudent|Hother]; cbn [andb].
  - destruct (Accounts.absent (Accounts.section req)); [discriminate|].
    destruct (includes _ _) eqn:Hvalid; [|discriminate]. cbn [negb].
    destruct (find _ users) eqn:Hfind; [discriminate|].
    intros H. injection H as <- <-.
    apply find_same_email_None in Hfind.
    apply includes_spec in Hvalid. destruct Hvalid as (s & Hs & Hin).
    injection Hs as <-.
    repeat split; auto. eexists. repeat split.
  - destruct (includes _ _) eqn:Hvalid; [|discriminate]. cbn [negb].
    destruct (find _ users) eqn:Hfind; [discriminate|].
    intros H. injection H as <- <-.
    apply find_same_email_None in Hfind.
    apply includes_spec in Hvalid. destruct Hvalid as (s & Hs & Hin).
    injection Hs as <-.
    repeat split; auto; try contradiction. eexists. repeat split.
Qed.

Lemma signup_keeps_unique secret now salt req users :
  emails_unique users ->
  emails_unique
    (App.persisted users (Accounts.signup secret now salt req users)).
Proof.
  intros Hinv. unfold App.persisted.
  destruct (Accounts.signup secret now salt req users) as [res [l|]] eqn:H;
    simpl; [|assumption].
  apply signup_written in H.
  destruct H as (_ & Hfresh & _ & u & -> & _ & Hemail).
  unfold emails_unique, folded_emails in *. rewrite map_app. simpl.
  rewrite Hemail. apply NoDup_rev in Hinv.
  rewrite <- (rev_involutive (map _ users ++ _)).
  apply NoDup_rev. rewrite rev_app_distr. simpl.
  constructor; [|assumption]. now rewrite <- in_rev.
Qed.

Lemma signup_taken secret now salt req users :
  In (toLowerCase (Accounts.text (Accounts.email req)))
     (folded_emails users) ->
  let out := Accounts.signup secret now salt req users in
  snd out = None /\ status (fst out) = 400 /\
  (well_formed req -> fst out = fail 400 "User already exists").
Proof.
  intros Htaken. unfold Accounts.signup, well_formed.
  destruct (find (Accounts.same_email _) users) as [u|] eqn:Hfind.
  2:{ apply find_same_email_None in Hfind. contradiction. }
  destruct (Accounts.absent (Accounts.email req)).
  { repeat split. intros (H & _). discriminate. }
  destruct (Accounts.absent (Accounts.password req)).
  { repeat split. intros (_ & H & _). discriminate. }
  destruct (Accounts.absent (Accounts.userType req)).
  { repeat split. intros (_ & _ & H & _). discriminate. }
  cbn [orb].
  destruct (String.eqb_spec (Accounts.text (Accounts.userType req))
              "Student") as [Hstudent|Hother]; cbn [andb].
  - destruct (Accounts.absent (Accounts.section req)).
    { repeat split. intros (_ & _ & _ & H & _).
      specialize (H Hstudent). discriminate. }
    destruct (includes _ _) eqn:Hvalid; cbn [negb]; repeat split.
    intros (_ & _ & _ & _ & H).
    assert (includes Accounts.VALID_USER_TYPES
              (JStr (Accounts.text (Accounts.userType req))) = true)
      by (apply includes_spec; eauto).
    congruence.
  - destruct (includes _ _) eqn:Hvalid; cbn [negb]; repeat split.
    intros (_ & _ & _ & _ & H).
    assert (includes Accounts.VALID_USER_TYPES
              (JStr (Accounts.text (Accounts.userType req))) = true)
      by (apply includes_spec; eauto).
    congruence.
Qed.

(** ** app.js: what a request may change *)

Lemma handle_users env request st :
  App.users (snd (App.handle env request st))
  = match request with
    | App.AuthSignup req =>
        App.persisted (App.users st)
          (Accounts.signup (App.JWT_SECRET env) (App.now env) (App.salt env)
             req (App.users st))
    | _ => App.users st
    end.
Proof.
  destruct request; simpl; route; reflexivity.
Qed.

Lemma run_invariant (P : App.Store -> Prop) :
  (forall env request st, P st -> P (snd (App.handle env request st))) ->
  forall requests st, P st -> P (App.run requests st).
Proof.
  intros Hstep requests.
  induction requests as [|[env request] requests IH]; simpl; intros st Hst.
  - assumption.
  - apply IH, Hstep, Hst.
Qed.

(** C4.  The folded email of an identity is what [toLowerCase] makes of
    its email, whatever the case mapping [toLowerCase] applies.  After any
    sequence of requests served from the empty store, no two stored
    identities share the same folded email; a signup keeps that so in any
    users collection where it holds.  A signup whose email is, once folded,
    the folded email of a stored identity writes nothing and answers 400,
    with 'User already exists' when the request is well formed (fields
    present, a section for a Student, a valid role).  So does, in
    particular, a signup whose email is made of ASCII characters and differs
    from the ASCII email of a stored identity in the case of letters only. *)
Theorem signup_emails_unique :
  (forall requests,
      emails_unique (App.users (App.run requests App.empty))) /\
  (forall secret now salt req users,
      emails_unique users ->
      emails_unique
        (App.persisted users (Accounts.signup secret now salt req users))) /\
  (forall secret now salt req users,
      In (toLowerCase (Accounts.text (Accounts.email req)))
         (folded_emails users) ->
      let out := Accounts.signup secret now salt req users in
      snd out = None /\ status (fst out) = 400 /\
      (well_formed req -> fst out = fail 400 "User already exists")) /\
  (forall secret now salt req users u,
      In u users ->
      ascii_only (User.email u) = true ->
      ascii_only (Accounts.text (Accounts.email req)) = true ->
      fold_ascii (User.email u)
      = fold_ascii (Accounts.text (Accounts.email req)) ->
      let out := Accounts.signup secret now salt req users in
      snd out = None /\ status (fst out) = 400 /\
      (well_formed req -> fst out = fail 400 "User already exists")).
Proof.
  split; [|split; [|split]].
  - intros requests.
    apply (run_invariant (fun st => emails_unique (App.users st))).
    + intros env request st Hst. rewrite handle_users.
      destruct request; try assumption. now apply signup_keeps_unique.
    + constructor.
  - exact signup_keeps_unique.
  - exact signup_taken.
  - intros secret now salt req users u Hin Hu Hreq Hsame.
    apply signup_taken. unfold folded_emails.
    rewrite (toLowerCase_ascii _ Hreq), <- Hsame, <- (toLowerCase_ascii _ Hu).
    exact (in_map (fun u => toLowerCase (User.email u)) users u Hin).
Qed.

Lemma signup_sectioned secret now salt req users l :
  snd (Accounts.signup secret now salt req users) = Some l ->
  exists u, l = users ++ [u] /\ sectioned u.
Proof.
  unfold Accounts.signup, sectioned.
  destruct (Accounts.absent (Accounts.email req)
            || Accounts.absent (Accounts.password req)
            || Accounts.absent (Accounts.userType req));
    [discriminate|].
  destruct (String.eqb_spec (Accounts.text (Accounts.userType req))
              "Student") as [Hstudent|Hother]; cbn [andb].
  - destruct (Accounts.section req) as [own|] eqn:Hsection;
      [|discriminate].
    simpl Accounts.absent.
    destruct (String.eqb_spec own "") as [Hown|Hown]; [discriminate|].
    destruct (negb (includes _ _)); [discriminate|].
    destruct (find _ users); [discriminate|].
    simpl. intros H. injection H as <-. eexists. split; [reflexivity|].
    simpl. split; [eauto|contradiction].
  - destruct (negb (includes _ _)); [discriminate|].
    destruct (find _ users); [discriminate|].
    simpl. intros H. injection H as <-. eexists. split; [reflexivity|].
    simpl. split; [contradiction|reflexivity].
Qed.

(** The identities of any run from the empty store are sectioned: the
    Student of the routine listing has a section to be matched. *)
Lemma students_have_a_section requests :
  Forall sectioned (App.users (App.run requests App.empty)).
Proof.
  apply (run_invariant (fun st => Forall sectioned (App.users st))).
  - intros env request st Hst. rewrite handle_users.
    destruct request; try assumption.
    unfold App.persisted.
    destruct (snd (Accounts.signup _ _ _ _ _)) as [l|] eqn:Hl;
      [|assumption].
    apply signup_sectioned in Hl. destruct Hl as (u & -> & Hu).
    apply Forall_app. split; [assumption|]. now constructor.
  - constructor.
Qed.

(** ** No write after a failed check *)

Lemma signup_no_write secret now salt req users :
  failure (fst (Accounts.signup secret now salt req users)) ->
  snd (Accounts.signup secret now salt req users) = None.
Proof. unfold Accounts.signup. no_write. Qed.

Lemma attendance_no_write user userId attendance0 users records :
  failure (fst (Attendance.post user userId attendance0 users records)) ->
  snd (Attendance.post user userId attendance0 users records) = None.
Proof. unfold Attendance.post. no_write. Qed.

Lemma routine_post_no_write user req users routines :
  failure (fst (Routine.post user req users routines)) ->
  snd (Routine.post user req users routines) = None.
Proof. unfold Routine.post. no_write. Qed.

Lemma routine_put_no_write user id req users routines :
  failure (fst (Routine.put user id req users routines)) ->
  snd (Routine.put user id req users routines) = None.
Proof. unfold Routine.put. no_write. Qed.

Lemma routine_delete_no_write user id routines :
  failure (fst (Routine.delete user id routines)) ->
  snd (Routine.delete user id routines) = None.
Proof. unfold Routine.delete. no_write. Qed.

Lemma docs_no_write user description file timestamp documents :
  failure (fst (Docs.post user description file timestamp documents)) ->
  snd (Docs.post user description file timestamp documents) = None.
Proof. unfold Docs.post. no_write. Qed.

Lemma policy_no_write user description file timestamp policies :
  failure (fst (Policy.post user description file timestamp policies)) ->
  snd (Policy.post user description file timestamp policies) = None.
Proof. unfold Policy.post. no_write. Qed.

Lemma marks_no_write user userId subject marks timestamp allMarks :
  failure (fst (Marks.post user userId subject marks timestamp allMarks)) ->
  snd (Marks.post user userId subject marks timestamp allMarks) = None.
Proof. unfold Marks.post. no_write. Qed.

Lemma persisted_None {A : Type} (before : list A) (out : Outcome A) :
  snd out = None -> App.persisted before out = before.
Proof.
  unfold App.persisted. now intros ->.
Qed.

Lemma store_eta (st : App.Store) :
  App.set_users st (App.users st) = st /\
  App.set_attendance st (App.attendance st) = st /\
  App.set_routines st (App.routines st) = st /\
  App.set_documents st (App.documents st) = st /\
  App.set_policies st (App.policies st) = st /\
  App.set_marks st (App.marks st) = st.
Proof.
  destruct st. repeat split.
Qed.

(** C7.  A request that is answered with a failed check, be it
    authorization (403), validation (400), authentication (401) or a
    missing record (404), leaves the six collections as they were; and each
    handler that can write (signup; attendance, routine, document, policy
    and marks creation; routine update and deletion) gives such an answer
    without having called the write function of its collection. *)
Theorem failed_requests_write_nothing :
  (forall env request st,
      failure (fst (App.handle env request st)) ->
      snd (App.handle env request st) = st) /\
  (forall secret now salt req users,
      failure (fst (Accounts.signup secret now salt req users)) ->
      snd (Accounts.signup secret now salt req users) = None) /\
  (forall user userId attendance0 users records,
      failure (fst (Attendance.post user userId attendance0 users records)) ->
      snd (Attendance.post user userId attendance0 users records) = None) /\
  (forall user req users routines,
      failure (fst (Routine.post user req users routines)) ->
      snd (Routine.post user req users routines) = None) /\
  (forall user id req users routines,
      failure (fst (Routine.put user id req users routines)) ->
      snd (Routine.put user id req users routines) = None) /\
  (forall user id routines,
      failure (fst (Routine.delete user id routines)) ->
      snd (Routine.delete user id routines) = None) /\
  (forall user description file timestamp documents,
      failure (fst (Docs.post user description file timestamp documents)) ->
      snd (Docs.post user description file timestamp documents) = None) /\
  (forall user description file timestamp policies,
      failure (fst (Policy.post user description file timestamp policies)) ->
      snd (Policy.post user description file timestamp policies) = None) /\
  (forall user userId subject marks timestamp allMarks,
      failure
        (fst (Marks.post user userId subject marks timestamp allMarks)) ->
      snd (Marks.post user userId subject marks timestamp allMarks) = None).
Proof.
  split.
  - intros env request st.
    destruct (store_eta st) as (Hu & Ha & Hr & Hd & Hp & Hm).
    destruct request; simpl; route; simpl; intros Hfail; try reflexivity.
    + rewrite persisted_None by now apply signup_no_write.
      exact Hu.
    + rewrite persisted_None by now apply attendance_no_write.
      exact Ha.
    + rewrite persisted_None by now apply routine_post_no_write.
      exact Hr.
    + rewrite persisted_None by now apply routine_put_no_write.
      exact Hr.
    + rewrite persisted_None by now apply routine_delete_no_write.
      exact Hr.
    + rewrite persisted_None by now apply docs_no_write.
      exact Hd.
    + rewrite persisted_None by now apply policy_no_write.
      exact Hp.
    + rewrite persisted_None by now apply marks_no_write.
      exact Hm.
  - repeat split; intros.
    + now apply signup_no_write.
    + now apply attendance_no_write.
    + now apply routine_post_no_write.
    + now apply routine_put_no_write.
    + now apply routine_delete_no_write.
    + now apply docs_no_write.
    + now apply policy_no_write.
    + now apply marks_no_write.
Qed.

(** ** The role gates *)

Lemma routine_post_gate user req users routines :
  forbidden (Routine.post user req users routines) <->
  User.userType user <> "Admin".
Proof.
  unfold Routine.post, forbidden.
  destruct (negb (User.userType user =? "Admin")%string) eqn:H; open_gate H.
  - split; [auto|]. intros _. split; reflexivity.
  - split; [never_403|contradiction].
Qed.

Lemma routine_put_gate user id req users routines :
  forbidden (Routine.put user id req users routines) <->
  User.userType user <> "Admin".
Proof.
  unfold Routine.put, forbidden.
  destruct (negb (User.userType user =? "Admin")%string) eqn:H; open_gate H.
  - split; [auto|]. intros _. split; reflexivity.
  - split; [never_403|contradiction].
Qed.

Lemma routine_delete_gate user id routines :
  forbidden (Routine.delete user id routines) <->
  User.userType user <> "Admin".
Proof.
  unfold Routine.delete, forbidden.
  destruct (negb (User.userType user =? "Admin")%string) eqn:H; open_gate H.
  - split; [auto|]. intros _. split; reflexivity.
  - split; [never_403|contradiction].
Qed.

Lemma docs_post_gate user description file timestamp documents :
  forbidden (Docs.post user description file timestamp documents) <->
  User.userType user <> "Teacher".
Proof.
  unfold Docs.post, forbidden.
  destruct (negb (User.userType user =? "Teacher")%string) eqn:H;
    open_gate H.
  - split; [auto|]. intros _. split; reflexivity.
  - split; [never_403|contradiction].
Qed.

Lemma policy_post_gate user description file timestamp policies :
  forbidden (Policy.post user description file timestamp policies) <->
  User.userType user <> "Admin".
Proof.
  unfold Policy.post, forbidden.
  destruct (negb (User.userType user =? "Admin")%string) eqn:H; open_gate H.
  - split; [auto|]. intros _. split; reflexivity.
  - split; [never_403|contradiction].
Qed.

Lemma marks_post_forbidden user userId subject marks timestamp allMarks :
  forbidden (Marks.post user userId subject marks timestamp allMarks) <->
  User.userType user <> "Admin" /\ User.userType user <> "Teacher".
Proof.
  unfold Marks.post, forbidden.
  destruct (negb (User.userType user =? "Admin")%string) eqn:Ha;
    destruct (negb (User.userType user =? "Teacher")%string) eqn:Ht;
    open_gate Ha; open_gate Ht; cbn [andb].
  - split; [auto|]. intros _. split; reflexivity.
  - split; [never_403|]. intros [_ H]. contradiction.
  - split; [never_403|]. intros [H _]. contradiction.
  - split; [never_403|]. intros [H _]. contradiction.
Qed.

Lemma attendance_post_gate who userId attendance0 users records :
  forbidden (Attendance.post who userId attendance0 users records) <->
  Jwt.userType (Jwt.claims who) <> "Admin" /\
  Jwt.userType (Jwt.claims who) <> "Teacher".
Proof.
  unfold Attendance.post, forbidden. cbv zeta.
  destruct (negb (Jwt.userType (Jwt.claims who) =? "Admin")%string) eqn:Ha;
    destruct (negb (Jwt.userType (Jwt.claims who) =? "Teacher")%string)
      eqn:Ht;
    open_gate Ha; open_gate Ht; cbn [andb].
  - split; [auto|]. intros _. split; reflexivity.
  - split; [never_403|]. intros [_ H]. contradiction.
  - split; [never_403|]. intros [H _]. contradiction.
  - split; [never_403|]. intros [H _]. contradiction.
Qed.

Lemma eq_parsed_false (x : Z) (p : option Z) :
  negb (eq_parsed x p) = true <-> p <> Some x.
Proof.
  rewrite negb_true_iff. destruct p as [n|]; simpl.
  - rewrite Z.eqb_neq. split; intros H; congruence.
  - split; [discriminate|reflexivity].
Qed.

Lemma attendance_get_gate who userId records :
  status (Attendance.get who userId records) = 403 <->
  Jwt.userType (Jwt.claims who) <> "Admin" /\
  Jwt.userType (Jwt.claims who) <> "Teacher" /\
  parseInt (JStr userId) <> Some (Jwt.id (Jwt.claims who)).
Proof.
  unfold Attendance.get. cbv zeta.
  rewrite <- !not_role, <- eq_parsed_false, <- !andb_true_iff, andb_assoc.
  destruct (_ && _ && _).
  - split; reflexivity.
  - destruct (find _ records); simpl; split; discriminate.
Qed.

Lemma marks_get_gate user userId allMarks :
  status (Marks.get user userId allMarks) = 403 <->
  User.userType user <> "Admin" /\ User.userType user <> "Teacher" /\
  parseInt (JStr userId) <> Some (User.id user).
Proof.
  unfold Marks.get.
  rewrite <- !not_role, <- eq_parsed_false, <- !andb_true_iff, andb_assoc.
  destruct (_ && _ && _); simpl; split; auto; discriminate.
Qed.

Lemma attendance_get_reads who userId records n :
  parseInt (JStr userId) = Some n ->
  Jwt.userType (Jwt.claims who) = "Admin"
  \/ Jwt.userType (Jwt.claims who) = "Teacher"
  \/ Jwt.id (Jwt.claims who) = n ->
  Attendance.get who userId records
  = match attendance_of n records with
    | r :: _ => reply 200 (AnAttendance r)
    | [] => fail 404 "Attendance not found"
    end.
Proof.
  intros Hn Hreader. unfold Attendance.get. cbv zeta. rewrite Hn.
  replace (negb (String.eqb (Jwt.userType (Jwt.claims who)) "Admin")
           && negb (String.eqb (Jwt.userType (Jwt.claims who)) "Teacher")
           && negb (eq_parsed (Jwt.id (Jwt.claims who)) (Some n)))
    with false.
  - cbn [Attendance.is_parsed]. rewrite find_head. unfold attendance_of.
    destruct (filter _ records); reflexivity.
  - symmetry. destruct Hreader as [Hrole|[Hrole|Hown]].
    + rewrite Hrole. reflexivity.
    + rewrite Hrole. apply andb_false_iff. left. apply andb_false_r.
    + simpl. rewrite (proj2 (Z.eqb_eq _ _) Hown). apply andb_false_r.
Qed.

Lemma marks_get_reads user userId allMarks n :
  parseInt (JStr userId) = Some n ->
  User.userType user = "Admin" \/ User.userType user = "Teacher"
  \/ User.id user = n ->
  Marks.get user userId allMarks
  = reply 200 (MarkList (marks_of n allMarks)).
Proof.
  intros Hn Hreader. unfold Marks.get. rewrite Hn.
  replace (negb (String.eqb (User.userType user) "Admin")
           && negb (String.eqb (User.userType user) "Teacher")
           && negb (eq_parsed (User.id user) (Some n)))
    with false; [reflexivity|].
  symmetry. destruct Hreader as [Hrole|[Hrole|Hown]].
  - rewrite Hrole. reflexivity.
  - rewrite Hrole. apply andb_false_iff. left. apply andb_false_r.
  - simpl. rewrite (proj2 (Z.eqb_eq _ _) Hown). apply andb_false_r.
Qed.

Lemma reads_everything (role : Table.Role) (res : Table.Resource) :
  res = Table.ResAttendance \/ res = Table.ResMarks ->
  Table.may_read res role = Table.Everything ->
  Table.name role = "Admin" \/ Table.name role = "Teacher".
Proof.
  intros [->| ->]; destruct role; simpl; auto; discriminate.
Qed.

Lemma name_not_admin (role : Table.Role) :
  Table.name role <> "Admin" <-> role <> Table.Admin.
Proof.
  destruct role; simpl; split; intros H; congruence.
Qed.

Lemma name_not_teacher (role : Table.Role) :
  Table.name role <> "Teacher" <-> role <> Table.Teacher.
Proof.
  destruct role; simpl; split; intros H; congruence.
Qed.

Lemma routine_get_scope (role : Table.Role) (user : User.t) routines :
  User.userType user = Table.name role ->
  (role = Table.Student ->
   exists own, User.section user = Some own /\ own <> "") ->
  Routine.get user routines
  = reply 200 (RoutineList (filter (Table.own_routine role user) routines)).
Proof.
  destruct user as [uid mail pw utype usection]. simpl.
  intros -> Hsection. unfold Routine.get.
  destruct role; simpl.
  - f_equal. f_equal. induction routines as [|r l IH]; simpl; congruence.
  - reflexivity.
  - destruct (Hsection eq_refl) as (own & -> & Hown).
    apply String.eqb_neq in Hown. rewrite Hown. reflexivity.
Qed.

Lemma filter_all {A : Type} (l : list A) : filter (fun _ => true) l = l.
Proof.
  induction l as [|x l IH]; simpl; congruence.
Qed.

(** C1.  For a caller of each of the three roles, every handler decides as
    the policy table of section 4.4 says.  Create/Modify: the handler
    answers 403 and writes nothing exactly when the table does not list the
    role for the resource; a Student creating a routine gets 'Only Admins
    can create routines', and anyone but a Teacher creating a document gets
    'Only Teachers can upload documents'.  Read: an Admin lists all
    routines, a Teacher those whose teacherId is the Teacher's id, a Student
    those whose section is the Student's (a Student with a section, as every
    identity stored by a signup is); attendance and
    marks of any user are read by an Admin or a Teacher, and by a Student
    only under the Student's own id: the answer is 403 exactly for a caller
    bound to the own record who asks for another id, and a caller who may
    read the id [n] is answered with the first attendance record of [n]
    (404 when there is none; [n] below 2^53, the range in which a stored
    number is the number it prints as) and with exactly the marks of [n],
    in their order; an Admin or a Teacher who asks for an id that reads as
    no number finds no attendance (404) and no marks (the empty list).
    Documents and policies are listed by a request that carries no
    identity.  A policy upload passes the file filter exactly when the
    extension of the file, in lower case, is .pdf or .docx. *)
Theorem authorization_matrix
    (role : Table.Role) (user : User.t) (who : Jwt.Decoded) :
  User.userType user = Table.name role ->
  Jwt.userType (Jwt.claims who) = Table.name role ->
  (forall userId attendance0 users records,
      forbidden (Attendance.post who userId attendance0 users records) <->
      Table.may_modify Table.ResAttendance role = false) /\
  (forall req users routines,
      forbidden (Routine.post user req users routines) <->
      Table.may_modify Table.ResRoutines role = false) /\
  (forall id req users routines,
      forbidden (Routine.put user id req users routines) <->
      Table.may_modify Table.ResRoutines role = false) /\
  (forall id routines,
      forbidden (Routine.delete user id routines) <->
      Table.may_modify Table.ResRoutines role = false) /\
  (forall description file timestamp documents,
      forbidden (Docs.post user description file timestamp documents) <->
      Table.may_modify Table.ResDocuments role = false) /\
  (forall description file timestamp policies,
      forbidden (Policy.post user description file timestamp policies) <->
      Table.may_modify Table.ResPolicies role = false) /\
  (forall userId subject marks timestamp allMarks,
      forbidden (Marks.post user userId subject marks timestamp allMarks) <->
      Table.may_modify Table.ResMarks role = false) /\
  (role = Table.Student ->
   forall req users routines,
     Routine.post user req users routines
     = stop (fail 403 "Only Admins can create routines")) /\
  (role <> Table.Teacher ->
   forall description file timestamp documents,
     Docs.post user description file timestamp documents
     = stop (fail 403 "Only Teachers can upload documents")) /\
  (forall routines,
      Table.may_read Table.ResRoutines role = Table.Everything ->
      Routine.get user routines = reply 200 (RoutineList routines)) /\
  (forall routines,
      Table.may_read Table.ResRoutines role = Table.OwnOnly ->
      sectioned user ->
      Routine.get user routines
      = reply 200
          (RoutineList (filter (Table.own_routine role user) routines))) /\
  (forall userId records,
      status (Attendance.get who userId records) = 403 <->
      Table.may_read Table.ResAttendance role = Table.OwnOnly /\
      parseInt (JStr userId) <> Some (Jwt.id (Jwt.claims who))) /\
  (forall userId allMarks,
      status (Marks.get user userId allMarks) = 403 <->
      Table.may_read Table.ResMarks role = Table.OwnOnly /\
      parseInt (JStr userId) <> Some (User.id user)) /\
  (forall userId records n,
      parseInt (JStr userId) = Some n -> Z.abs n < 2 ^ 53 ->
      Table.may_read Table.ResAttendance role = Table.Everything
      \/ Jwt.id (Jwt.claims who) = n ->
      Attendance.get who userId records
      = match attendance_of n records with
        | r :: _ => reply 200 (AnAttendance r)
        | [] => fail 404 "Attendance not found"
        end) /\
  (forall userId allMarks n,
      parseInt (JStr userId) = Some n ->
      Table.may_read Table.ResMarks role = Table.Everything
      \/ User.id user = n ->
      Marks.get user userId allMarks
      = reply 200 (MarkList (marks_of n allMarks))) /\
  (forall userId records allMarks,
      parseInt (JStr userId) = None ->
      Table.may_read Table.ResAttendance role = Table.Everything ->
      Attendance.get who userId records = fail 404 "Attendance not found" /\
      Marks.get user userId allMarks = reply 200 (MarkList [])) /\
  (forall env st,
      App.handle env App.DocumentsGet st
      = (reply 200 (DocumentList (App.documents st)), st)) /\
  (forall env st,
      App.handle env App.PoliciesGet st
      = (reply 200 (PolicyList (App.policies st)), st)) /\
  (forall file,
      Policy.upload (Some file) = inr (Some file) <->
      toLowerCase (extname file) = ".pdf" \/
      toLowerCase (extname file) = ".docx").
Proof.
  intros Huser Hwho.
  repeat match goal with |- _ /\ _ => split end.
  - intros. rewrite attendance_post_gate, Hwho.
    destruct role; simpl; split; intros H; try discriminate;
      try (destruct H; congruence); split; discriminate.
  - intros. rewrite routine_post_gate, Huser.
    destruct role; simpl; split; congruence.
  - intros. rewrite routine_put_gate, Huser.
    destruct role; simpl; split; congruence.
  - intros. rewrite routine_delete_gate, Huser.
    destruct role; simpl; split; congruence.
  - intros. rewrite docs_post_gate, Huser.
    destruct role; simpl; split; congruence.
  - intros. rewrite policy_post_gate, Huser.
    destruct role; simpl; split; congruence.
  - intros. rewrite marks_post_forbidden, Huser.
    destruct role; simpl; split; intros H; try discriminate;
      try (destruct H; congruence); split; discriminate.
  - intros -> req users routines. unfold Routine.post.
    rewrite Huser. reflexivity.
  - intros Hrole description file timestamp documents. unfold Docs.post.
    rewrite Huser. destruct role; try reflexivity. congruence.
  - intros routines Hall.
    rewrite (routine_get_scope role)
      by (try assumption; intros ->; discriminate).
    destruct role; try discriminate. simpl. now rewrite filter_all.
  - intros routines _ [Hsection _]. apply routine_get_scope; [assumption|].
    intros ->. now apply Hsection.
  - intros. rewrite attendance_get_gate, Hwho.
    destruct role; simpl; split; intros H; try tauto;
      repeat split; try discriminate; try tauto;
      destruct H as [H _]; congruence.
  - intros. rewrite marks_get_gate, Huser.
    destruct role; simpl; split; intros H; try tauto;
      repeat split; try discriminate; try tauto;
      destruct H as [H _]; congruence.
  - intros userId records n Hn _ Hreach.
    apply attendance_get_reads; [exact Hn|].
    rewrite Hwho. destruct Hreach as [Hall|Hown]; [|tauto].
    destruct (reads_everything role Table.ResAttendance) as [Hr|Hr]; auto.
  - intros userId allMarks n Hn Hreach. apply marks_get_reads; [exact Hn|].
    rewrite Huser. destruct Hreach as [Hall|Hown]; [|tauto].
    destruct (reads_everything role Table.ResMarks) as [Hr|Hr]; auto.
  - intros userId records allMarks Hn Hall.
    assert (Hgate : negb (String.eqb (Table.name role) "Admin")
                    && negb (String.eqb (Table.name role) "Teacher") = false)
      by (destruct role; try reflexivity; discriminate).
    unfold Attendance.get, Marks.get. cbv zeta.
    rewrite Hn, Hwho, Huser, Hgate. cbn [andb]. split.
    + induction records as [|r l IH]; [reflexivity|exact IH].
    + f_equal. f_equal. induction allMarks as [|m l IH]; [reflexivity|].
      simpl. destruct (MarkEntry.userId m); exact IH.
  - reflexivity.
  - reflexivity.
  - intros file. unfold Policy.upload, Policy.fileFilter.
    destruct (String.eqb_spec (toLowerCase (extname file)) ".pdf");
      destruct (String.eqb_spec (toLowerCase (extname file)) ".docx");
      simpl; split; auto; try discriminate; intros [H|H]; contradiction.
Qed.

(** ** Tokens: what authentication depends on *)

Lemma verify_spec token secret now d :
  Jwt.verify token secret now = Some d <->
  exists key, token = Jwt.Signed d key /\ key = secret /\ now < Jwt.exp d.
Proof.
  unfold Jwt.verify. destruct token as [raw|d0 key].
  - split; [discriminate|]. intros (key & H & _). discriminate.
  - destruct (String.eqb_spec key secret) as [->|Hkey]; simpl.
    + destruct (Z.leb_spec (Jwt.exp d0) now) as [Hexp|Hexp]; simpl.
      * split; [discriminate|]. intros (key & H & _ & Hlt).
        injection H as -> _. lia.
      * split.
        -- intros H. injection H as ->. exists secret. auto.
        -- intros (key & H & _ & _). injection H as -> _. reflexivity.
    + split; [discriminate|]. intros (key' & H & Hk & _).
      injection H as _ ->. contradiction.
Qed.

(** C6, as the code has it.  [jwt.verify] is binary: it yields the claims
    exactly when the token was signed under the configured secret and its
    expiry has not passed.  The authenticate of the attendance router
    succeeds exactly then, with the token's claims.  The shared authenticate
    middleware succeeds exactly when, in addition, the users collection
    holds an identity whose id is the token's, and it yields the first such
    stored identity.  Every presented token that does not authenticate gets
    the same answer, 401 'Invalid token'. *)
Theorem token_verification :
  (forall token secret now d,
      Jwt.verify token secret now = Some d <->
      exists key,
        token = Jwt.Signed d key /\ key = secret /\ now < Jwt.exp d) /\
  (forall secret now token d,
      Attendance.authenticate secret now (Some token) = inr d <->
      Jwt.verify token secret now = Some d) /\
  (forall secret now token users u,
      Middleware.authenticate secret now (Some token) users = inr u <->
      exists d,
        Jwt.verify token secret now = Some d /\
        find (fun u => User.id u =? Jwt.id (Jwt.claims d)) users = Some u) /\
  (forall secret now token res,
      Attendance.authenticate secret now (Some token) = inl res ->
      res = fail 401 "Invalid token") /\
  (forall secret now token users res,
      Middleware.authenticate secret now (Some token) users = inl res ->
      res = fail 401 "Invalid token").
Proof.
  split; [exact verify_spec|]. split; [|split; [|split]].
  - intros secret now token d. unfold Attendance.authenticate.
    destruct (Jwt.verify token secret now) as [d0|]; split; intros H;
      try discriminate; injection H as ->; reflexivity.
  - intros secret now token users u. unfold Middleware.authenticate.
    destruct (Jwt.verify token secret now) as [d0|].
    + destruct (find _ users) as [u0|] eqn:Hfind; split.
      * intros H. injection H as ->. exists d0. auto.
      * intros (d & Hd & Hu). injection Hd as <-. congruence.
      * discriminate.
      * intros (d & Hd & Hu). injection Hd as <-. congruence.
    + split; [discriminate|]. intros (d & Hd & _). discriminate.
  - intros secret now token res. unfold Attendance.authenticate.
    destruct (Jwt.verify token secret now); intros H;
      [discriminate|injection H as <-; reflexivity].
  - intros secret now token users res. unfold Middleware.authenticate.
    destruct (Jwt.verify token secret now);
      [destruct (find _ users)|]; intros H;
      try discriminate; injection H as <-; reflexivity.
Qed.

(** ** Tokens: the claims of a minted token *)

(** C9 fails at signin.  Every token of a signup carries id, email and
    userType, an expiry one hour after it was minted, and a section exactly
    when the role is Student; every token of a signin carries the id, email
    and userType of the stored identity and the same expiry, and never a
    section.  A Student who signs up with section A and then signs in gets
    a token without section. *)
Theorem signin_token_has_no_section :
  (forall secret now salt req users s token,
      fst (Accounts.signup secret now salt req users)
      = reply s (TokenOf token) ->
      exists payload,
        token = Jwt.Signed
                  {| Jwt.claims := payload; Jwt.iat := now;
                     Jwt.exp := now + 3600 |} secret /\
        Jwt.id payload = len users + 1 /\
        Jwt.email payload = Accounts.text (Accounts.email req) /\
        Jwt.userType payload = Accounts.text (Accounts.userType req) /\
        (Jwt.userType payload = "Student" ->
         Jwt.section payload = Accounts.section req /\
         Accounts.absent (Accounts.section req) = false) /\
        (Jwt.userType payload <> "Student" -> Jwt.section payload = None)) /\
  (forall secret now req users s token,
      Accounts.signin secret now req users = reply s (TokenOf token) ->
      exists user,
        In user users /\
        token = Jwt.Signed
                  {| Jwt.claims :=
                       {| Jwt.id := User.id user;
                          Jwt.email := User.email user;
                          Jwt.userType := User.userType user;
                          Jwt.section := None |};
                     Jwt.iat := now; Jwt.exp := now + 3600 |} secret) /\
  (let req :=
     {| Accounts.email := Some "student@example.com";
        Accounts.password := Some "password123";
        Accounts.userType := Some "Student";
        Accounts.section := Some "A" |} in
   let signed_up := Accounts.signup "secret" 0 "salt" req [] in
   fst signed_up
   = reply 201
       (TokenOf
          (Jwt.Signed
             {| Jwt.claims :=
                  {| Jwt.id := 1; Jwt.email := "student@example.com";
                     Jwt.userType := "Student"; Jwt.section := Some "A" |};
                Jwt.iat := 0; Jwt.exp := 3600 |} "secret")) /\
   Accounts.signin "secret" 10 req (App.persisted [] signed_up)
   = reply 200
       (TokenOf
          (Jwt.Signed
             {| Jwt.claims :=
                  {| Jwt.id := 1; Jwt.email := "student@example.com";
                     Jwt.userType := "Student"; Jwt.section := None |};
                Jwt.iat := 10; Jwt.exp := 3610 |} "secret"))).
Proof.
  split; [|split; [|split; [reflexivity|]]].
  3:{ cbn. unfold Accounts.same_email. cbn [User.email].
      rewrite String.eqb_refl. reflexivity. }
  - intros secret now salt req users s token. unfold Accounts.signup.
    destruct (Accounts.absent (Accounts.email req)
              || Accounts.absent (Accounts.password req)
              || Accounts.absent (Accounts.userType req));
      [discriminate|].
    destruct (String.eqb_spec (Accounts.text (Accounts.userType req))
                "Student") as [Hstudent|Hother]; cbn [andb].
    + destruct (Accounts.absent (Accounts.section req)) eqn:Hsection;
        [discriminate|].
      destruct (negb (includes _ _)); [discriminate|].
      destruct (find _ users); [discriminate|].
      intros H. injection H as _ <-. eexists. split; [reflexivity|].
      simpl. repeat split; auto. intros H. contradiction.
    + destruct (negb (includes _ _)); [discriminate|].
      destruct (find _ users); [discriminate|].
      intros H. injection H as _ <-. eexists. split; [reflexivity|].
      simpl. repeat split; auto; contradiction.
  - intros secret now req users s token. unfold Accounts.signin.
    destruct (Accounts.absent (Accounts.email req)
              || Accounts.absent (Accounts.password req));
      [discriminate|].
    destruct (find _ users) as [user|] eqn:Hfind; [|discriminate].
    destruct (negb (bcrypt_compare _ _)); [discriminate|].
    intros H. injection H as _ <-. exists user.
    apply find_some in Hfind. split; [apply Hfind|reflexivity].
Qed.

(** ** Identifiers *)

Lemma numbered_nil : numbered [].
Proof. reflexivity. Qed.

Lemma numbered_push (ids : list Z) :
  numbered ids -> numbered (ids ++ [len ids + 1]).
Proof.
  unfold numbered, len. intros H.
  rewrite length_app. simpl. rewrite Nat.add_1_r, seq_S, map_app, <- H.
  simpl. do 2 f_equal. lia.
Qed.

Lemma numbered_NoDup (ids : list Z) : numbered ids -> NoDup ids.
Proof.
  intros ->. apply NoDup_map_NoDup_ForallPairs.
  - intros x y _ _. apply Nat2Z.inj.
  - apply seq_NoDup.
Qed.

Lemma len_map {A B : Type} (f : A -> B) (l : list A) : len (map f l) = len l.
Proof.
  unfold len. now rewrite length_map.
Qed.

Lemma persisted_numbered {A : Type} (id : A -> Z) before (out : Outcome A) :
  numbered (map id before) ->
  (forall l, snd out = Some l ->
             exists r, l = before ++ [r] /\ id r = len before + 1) ->
  numbered (map id (App.persisted before out)).
Proof.
  intros Hinv Hout. unfold App.persisted.
  destruct (snd out) as [l|]; [|assumption].
  destruct (Hout l eq_refl) as (r & -> & Hr).
  rewrite map_app. simpl. rewrite Hr, <- (len_map id).
  now apply numbered_push.
Qed.

Lemma routine_post_written user req users routines l :
  snd (Routine.post user req users routines) = Some l ->
  exists r, l = routines ++ [r] /\ RoutineRecord.id r = len routines + 1.
Proof.
  unfold Routine.post. branches; simpl; intros H; try discriminate.
  injection H as <-. eexists. split; reflexivity.
Qed.

Lemma routine_put_written user id req users routines l :
  snd (Routine.put user id req users routines) = Some l ->
  map RoutineRecord.id l = map RoutineRecord.id routines.
Proof.
  unfold Routine.put.
  destruct (negb _); [discriminate|].
  destruct (Routine.incomplete req); [discriminate|].
  destruct (find _ users); [|discriminate].
  destruct (parseInt (JStr id)) as [n|]; [|discriminate].
  destruct (findIndex _ routines) as [index|] eqn:Hindex; [|discriminate].
  simpl. intros H. injection H as <-.
  apply findIndex_Some in Hindex.
  destruct Hindex as (before & old & after & -> & <- & Hold & _).
  apply Z.eqb_eq in Hold.
  rewrite assign_app, !map_app. simpl. now rewrite Hold.
Qed.

Lemma docs_post_written user description file timestamp documents l :
  snd (Docs.post user description file timestamp documents) = Some l ->
  exists d, l = documents ++ [d] /\ DocumentRecord.id d = len documents + 1.
Proof.
  unfold Docs.post. branches; simpl; intros H; try discriminate.
  injection H as <-. eexists. split; reflexivity.
Qed.

Lemma policy_post_written user description file timestamp policies l :
  snd (Policy.post user description file timestamp policies) = Some l ->
  exists p, l = policies ++ [p] /\ PolicyRecord.id p = len policies + 1.
Proof.
  unfold Policy.post. branches; simpl; intros H; try discriminate.
  injection H as <-. eexists. split; reflexivity.
Qed.

Lemma signup_appends secret now salt req users l :
  snd (Accounts.signup secret now salt req users) = Some l ->
  exists u, l = users ++ [u] /\ User.id u = len users + 1.
Proof.
  destruct (Accounts.signup secret now salt req users) as [res w] eqn:H.
  simpl. intros ->. apply signup_written in H.
  destruct H as (_ & _ & _ & u & Hl & Hid & _). eauto.
Qed.

Lemma attendance_post_written who userId attendance0 users records l :
  snd (Attendance.post who userId attendance0 users records) = Some l ->
  (exists before old after,
      records = before ++ old :: after /\
      l = before ++ Attendance.with_attendance attendance0 old :: after /\
      strict_eq (AttendanceRecord.userId old) userId = true) \/
  (exists r, l = records ++ [r] /\ AttendanceRecord.userId r = userId).
Proof.
  unfold Attendance.post. cbv zeta.
  destruct (negb _ && negb _); [discriminate|].
  destruct (negb (truthy userId) || _ || _); [discriminate|].
  destruct (existsb _ _); [discriminate|].
  destruct (find _ users) as [target|]; [|discriminate].
  destruct (negb _ && negb _); [discriminate|].
  destruct (update_first _ _ records) as [updated|] eqn:Hupdate;
    simpl; intros H; injection H as <-.
  - left. apply update_first_Some in Hupdate.
    destruct Hupdate as (before & old & after & -> & -> & Hold & _).
    exists before, old, after. auto.
  - right. eexists. split; reflexivity.
Qed.

Lemma routine_put_keeps_ids user id req users routines :
  map RoutineRecord.id
    (App.persisted routines (Routine.put user id req users routines))
  = map RoutineRecord.id routines.
Proof.
  unfold App.persisted.
  destruct (snd (Routine.put _ _ _ _ _)) as [l|] eqn:Hput; [|reflexivity].
  now apply routine_put_written in Hput.
Qed.

Lemma handle_keeps_numbered env request st :
  let st' := snd (App.handle env request st) in
  (numbered (map User.id (App.users st)) ->
   numbered (map User.id (App.users st'))) /\
  (numbered (map DocumentRecord.id (App.documents st)) ->
   numbered (map DocumentRecord.id (App.documents st'))) /\
  (numbered (map PolicyRecord.id (App.policies st)) ->
   numbered (map PolicyRecord.id (App.policies st'))) /\
  (deletes request = false ->
   numbered (map RoutineRecord.id (App.routines st)) ->
   numbered (map RoutineRecord.id (App.routines st'))).
Proof.
  destruct request; simpl; route; simpl; repeat split;
    try (intros; assumption); try discriminate; intros;
    try (rewrite routine_put_keeps_ids; assumption);
    (apply persisted_numbered; [assumption|]).
  - apply signup_appends.
  - apply routine_post_written.
  - apply docs_post_written.
  - apply policy_post_written.
Qed.

Lemma run_keeps_numbered requests st :
  (numbered (map User.id (App.users st)) ->
   numbered (map User.id (App.users (App.run requests st)))) /\
  (numbered (map DocumentRecord.id (App.documents st)) ->
   numbered (map DocumentRecord.id (App.documents (App.run requests st)))) /\
  (numbered (map PolicyRecord.id (App.policies st)) ->
   numbered (map PolicyRecord.id (App.policies (App.run requests st)))) /\
  (forallb (fun r => negb (deletes (snd r))) requests = true ->
   numbered (map RoutineRecord.id (App.routines st)) ->
   numbered (map RoutineRecord.id (App.routines (App.run requests st)))).
Proof.
  revert st. induction requests as [|[env request] requests IH]; intros st.
  - simpl. auto.
  - simpl.
    destruct (handle_keeps_numbered env request st) as (Hu & Hd & Hp & Hr).
    destruct (IH (snd (App.handle env request st)))
      as (IHu & IHd & IHp & IHr).
    repeat split; auto.
    intros Hno Hst. apply andb_true_iff in Hno. destruct Hno as [H1 H2].
    apply negb_true_iff in H1. auto.
Qed.

Lemma run_keeps_routine_ids requests st :
  nothing_deleted requests st ->
  numbered (map RoutineRecord.id (App.routines st)) ->
  numbered (map RoutineRecord.id (App.routines (App.run requests st))).
Proof.
  revert st. induction requests as [|[env request] requests IH]; intros st.
  - intros _ Hst. exact Hst.
  - intros [Hkept Hrest] Hst. simpl. apply IH; [exact Hrest|].
    destruct (deletes request) eqn:Hdeletes.
    + rewrite (Hkept eq_refl). exact Hst.
    + destruct (handle_keeps_numbered env request st) as (_ & _ & _ & Hr).
      now apply Hr.
Qed.

Lemma signup_succeeds secret now salt req users :
  well_formed req -> fresh_email req users ->
  Accounts.signup secret now salt req users
  = save
      (reply 201
         (TokenOf
            (Jwt.sign
               {| Jwt.id := len users + 1;
                  Jwt.email := Accounts.text (Accounts.email req);
                  Jwt.userType := Accounts.text (Accounts.userType req);
                  Jwt.section :=
                    if String.eqb (Accounts.text (Accounts.userType req))
                         "Student"
                    then Accounts.section req else None |}
               secret now)))
      (users ++ [new_user salt req users]).
Proof.
  intros (He & Hp & Ht & Hs & Hvalid) Hfresh. unfold Accounts.signup.
  rewrite He, Hp, Ht. cbn [orb].
  assert (Hin : includes Accounts.VALID_USER_TYPES
                  (JStr (Accounts.text (Accounts.userType req))) = true)
    by (apply includes_spec; eauto).
  apply find_same_email_None in Hfresh.
  rewrite Hin, Hfresh. cbn [negb].
  destruct (String.eqb_spec (Accounts.text (Accounts.userType req))
              "Student") as [Hstudent|Hother]; cbn [andb].
  - rewrite (Hs Hstudent). unfold new_user. rewrite Hstudent. reflexivity.
  - unfold new_user.
    apply String.eqb_neq in Hother. rewrite Hother. reflexivity.
Qed.

Lemma routine_post_creates user req users routines :
  User.userType user = "Admin" -> Routine.incomplete req = false ->
  refers_to_teacher (Routine.teacherId req) users ->
  Routine.post user req users routines
  = save (reply 201 (ARoutine (Routine.record (len routines + 1) req)))
      (routines ++ [Routine.record (len routines + 1) req]).
Proof.
  intros Hrole Hfields Hteacher. unfold Routine.post.
  apply is_role in Hrole. rewrite Hrole, Hfields.
  destruct (find _ users) eqn:Hfind; [reflexivity|].
  apply find_is_teacher_None in Hfind. contradiction.
Qed.

Lemma routine_put_replaces user id req users before old after n :
  User.userType user = "Admin" -> Routine.incomplete req = false ->
  refers_to_teacher (Routine.teacherId req) users ->
  parseInt (JStr id) = Some n -> RoutineRecord.id old = n ->
  (forall x, In x before -> RoutineRecord.id x <> n) ->
  Routine.put user id req users (before ++ old :: after)
  = save (reply 200 (ARoutine (Routine.record n req)))
      (before ++ Routine.record n req :: after).
Proof.
  intros Hrole Hfields Hteacher Hn Hold Hbefore. unfold Routine.put.
  apply is_role in Hrole. rewrite Hrole, Hfields, Hn.
  destruct (find _ users) eqn:Hfind.
  2:{ apply find_is_teacher_None in Hfind. contradiction. }
  rewrite (findIndex_app (fun r => RoutineRecord.id r =? n) before old after).
  - now rewrite assign_app.
  - intros x Hx. apply Z.eqb_neq. now apply Hbefore.
  - now apply Z.eqb_eq.
Qed.

(** C5, as the code has it.  A signup and the creation of a routine, a
    document or a policy append one record whose id is the length of the
    collection plus one.  Attendance and marks records have no id: an
    attendance submission updates the record of the submitted userId or
    appends one under that userId, a marks submission does the same under
    the pair of the parsed userId and the subject.  The four creations do
    take place: for a well-formed signup with a fresh email, for an Admin
    creating a routine with its five fields and the id of a Teacher, for a
    Teacher uploading a document and for an Admin uploading a policy.  In
    any run from the
    empty store the ids of the users, the documents and the policies are
    1, 2, .., n, and so are those of the routines when no routine was
    deleted in the run, whether the run holds no deletion request or only
    deletion requests that were refused; such ids are pairwise distinct. *)
Theorem identifiers_by_length :
  (forall secret now salt req users l,
      snd (Accounts.signup secret now salt req users) = Some l ->
      exists u, l = users ++ [u] /\ User.id u = len users + 1) /\
  (forall user req users routines l,
      snd (Routine.post user req users routines) = Some l ->
      exists r, l = routines ++ [r] /\
                RoutineRecord.id r = len routines + 1) /\
  (forall user description file timestamp documents l,
      snd (Docs.post user description file timestamp documents) = Some l ->
      exists d, l = documents ++ [d] /\
                DocumentRecord.id d = len documents + 1) /\
  (forall user description file timestamp policies l,
      snd (Policy.post user description file timestamp policies) = Some l ->
      exists p, l = policies ++ [p] /\
                PolicyRecord.id p = len policies + 1) /\
  (forall who userId attendance0 users records l,
      snd (Attendance.post who userId attendance0 users records) = Some l ->
      (exists before old after,
          records = before ++ old :: after /\
          l = before ++ Attendance.with_attendance attendance0 old :: after /\
          strict_eq (AttendanceRecord.userId old) userId = true) \/
      (exists r, l = records ++ [r] /\ AttendanceRecord.userId r = userId))
  /\
  (forall user userId subject marks timestamp allMarks l,
      snd (Marks.post user userId subject marks timestamp allMarks)
      = Some l ->
      exists entry,
        l = upsert entry allMarks /\
        MarkEntry.userId entry = parseInt userId /\
        MarkEntry.subject entry = subject) /\
  (forall requests,
      let st := App.run requests App.empty in
      numbered (map User.id (App.users st)) /\
      numbered (map DocumentRecord.id (App.documents st)) /\
      numbered (map PolicyRecord.id (App.policies st)) /\
      (nothing_deleted requests App.empty ->
       numbered (map RoutineRecord.id (App.routines st)))) /\
  (forall ids, numbered ids -> NoDup ids) /\
  (forall secret now salt req users,
      well_formed req -> fresh_email req users ->
      snd (Accounts.signup secret now salt req users)
      = Some (users ++ [new_user salt req users])) /\
  (forall user req users routines,
      User.userType user = "Admin" -> Routine.incomplete req = false ->
      refers_to_teacher (Routine.teacherId req) users ->
      snd (Routine.post user req users routines)
      = Some (routines ++ [Routine.record (len routines + 1) req])) /\
  (forall user description file timestamp documents,
      User.userType user = "Teacher" ->
      snd (Docs.post user description (Some file) timestamp documents)
      = Some
          (documents ++
           [{| DocumentRecord.id := len documents + 1;
               DocumentRecord.fileName := Docs.filename file;
               DocumentRecord.uploadedBy := User.id user;
               DocumentRecord.uploadDate := timestamp;
               DocumentRecord.description :=
                 Docs.or_empty description |}])) /\
  (forall user description file timestamp policies,
      User.userType user = "Admin" ->
      snd (Policy.post user description (Some file) timestamp policies)
      = Some
          (policies ++
           [{| PolicyRecord.id := len policies + 1;
               PolicyRecord.fileName := Policy.filename file;
               PolicyRecord.uploadedBy := User.id user;
               PolicyRecord.uploadDate := timestamp;
               PolicyRecord.description :=
                 Docs.or_empty description |}])).
Proof.
  split; [exact signup_appends|].
  split; [exact routine_post_written|].
  split; [exact docs_post_written|].
  split; [exact policy_post_written|].
  split; [exact attendance_post_written|].
  split; [|split; [|split; [exact numbered_NoDup|]]].
  3:{ split; [|split; [|split]].
      - intros secret now salt req users Hwf Hfresh.
        now rewrite signup_succeeds.
      - intros user req users routines Hrole Hfields Hteacher.
        now rewrite routine_post_creates.
      - intros user description file timestamp documents Hrole.
        unfold Docs.post. apply is_role in Hrole. now rewrite Hrole.
      - intros user description file timestamp policies Hrole.
        unfold Policy.post. apply is_role in Hrole. now rewrite Hrole. }
  - intros user userId subject marks timestamp allMarks l Hl.
    destruct (Marks.post user userId subject marks timestamp allMarks)
      as [res w] eqn:Hpost.
    simpl in Hl. subst w. apply marks_post_written in Hpost.
    destruct Hpost as (m & s & _ & _ & -> & _ & _ & _ & _ & ->).
    eexists. repeat split.
  - intros requests st.
    destruct (run_keeps_numbered requests App.empty) as (Hu & Hd & Hp & _).
    repeat split; [apply Hu|apply Hd|apply Hp|]; try exact numbered_nil.
    intros Hno. apply run_keeps_routine_ids; [exact Hno|exact numbered_nil].
Qed.

(** * Further properties of the handlers *)

(** ** accounts.js: the decision of a signup, and signing in afterwards *)

Lemma signup_stops_400 secret now salt req users :
  snd (Accounts.signup secret now salt req users) = None ->
  status (fst (Accounts.signup secret now salt req users)) = 400.
Proof.
  unfold Accounts.signup. branches; simpl; intros H;
    try reflexivity; discriminate.
Qed.

(** X1.  A signup writes exactly when the request is well formed (the three
    fields present, a section for a Student, a role among the three) and its
    folded email is the folded email of no stored identity.  It then answers
    201 and appends one identity, with the next id, the email and role as
    submitted, a section only for a Student, and a digest that
    [bcrypt.compare] accepts for the submitted password; in every other case
    it answers 400. *)
Theorem signup_decision secret now salt req users :
  let out := Accounts.signup secret now salt req users in
  (snd out <> None <-> well_formed req /\ fresh_email req users) /\
  (snd out = None -> status (fst out) = 400) /\
  (forall l, snd out = Some l ->
     status (fst out) = 201 /\
     l = users ++ [new_user salt req users] /\
     bcrypt_compare (Accounts.text (Accounts.password req))
       (User.password (new_user salt req users)) = true).
Proof.
  intros out. subst out.
  assert (Hsome : forall l,
    snd (Accounts.signup secret now salt req users) = Some l ->
    well_formed req /\ fresh_email req users).
  { intros l Hl.
    destruct (Accounts.signup secret now salt req users) as [res w] eqn:H.
    simpl in Hl. subst w. apply signup_written in H.
    destruct H as (Hwf & Hfresh & _). split; assumption. }
  split; [split|split].
  - intros Hne.
    destruct (snd (Accounts.signup secret now salt req users)) as [l|] eqn:Hl;
      [|congruence].
    now apply Hsome with l.
  - intros [Hwf Hfresh]. rewrite signup_succeeds by assumption. discriminate.
  - apply signup_stops_400.
  - intros l Hl. destruct (Hsome l Hl) as [Hwf Hfresh].
    rewrite signup_succeeds in * by assumption. simpl in Hl.
    injection Hl as <-. repeat split. simpl. apply String.eqb_refl.
Qed.

Lemma absent_text (field : option string) :
  Accounts.absent field = String.eqb (Accounts.text field) "".
Proof.
  destruct field; reflexivity.
Qed.

Lemma toLowerCase_empty (s : string) : toLowerCase s = "" -> s = "".
Proof.
  apply toLowerCase_nonempty.
Qed.

Lemma find_last {A : Type} (p : A -> bool) (l : list A) (x : A) :
  find p l = None -> p x = true -> find p (l ++ [x]) = Some x.
Proof.
  intros Hnone Hx. induction l as [|y l IH]; simpl in *.
  - now rewrite Hx.
  - destruct (p y); [discriminate|]. now apply IH.
Qed.

Lemma signin_finds_new_user secret now salt req users l email :
  snd (Accounts.signup secret now salt req users) = Some l ->
  toLowerCase email = toLowerCase (Accounts.text (Accounts.email req)) ->
  email <> "" /\
  find (Accounts.same_email email) l = Some (new_user salt req users).
Proof.
  intros Hl Hfold.
  destruct (Accounts.signup secret now salt req users) as [res w] eqn:H.
  simpl in Hl. subst w.
  destruct (signup_written _ _ _ _ _ _ _ H) as (Hwf & Hfresh & _).
  rewrite signup_succeeds in H by assumption. injection H as _ <-.
  destruct Hwf as (He & _). rewrite absent_text in He.
  apply String.eqb_neq in He. split.
  - intros ->. rewrite (toLowerCase_ascii "" eq_refl) in Hfold.
    symmetry in Hfold. apply toLowerCase_empty in Hfold. contradiction.
  - apply find_last.
    + apply find_same_email_None. now rewrite Hfold.
    + unfold Accounts.same_email, new_user. simpl. rewrite Hfold.
      apply String.eqb_refl.
Qed.

(** X2.  After a successful signup, a signin under the same email in any
    letter case and with the same password answers 200 with a token for the
    new identity (its id, its email as stored, its role, no section).  So
    does a signin with any password of the same [bcrypt] key, one that
    shares the first 72 bytes for instance; a password of another key is
    answered 401 'Invalid credentials'. *)
Theorem signin_after_signup
    secret now salt req users l secret' later again :
  snd (Accounts.signup secret now salt req users) = Some l ->
  toLowerCase (Accounts.text (Accounts.email again))
  = toLowerCase (Accounts.text (Accounts.email req)) ->
  let welcome :=
    reply 200
      (TokenOf
         (Jwt.sign
            {| Jwt.id := len users + 1;
               Jwt.email := Accounts.text (Accounts.email req);
               Jwt.userType := Accounts.text (Accounts.userType req);
               Jwt.section := None |}
            secret' later)) in
  (Accounts.text (Accounts.password again)
   = Accounts.text (Accounts.password req) ->
   Accounts.signin secret' later again l = welcome) /\
  (Accounts.absent (Accounts.password again) = false ->
   bcrypt_key (Accounts.text (Accounts.password again))
   = bcrypt_key (Accounts.text (Accounts.password req)) ->
   Accounts.signin secret' later again l = welcome) /\
  (Accounts.absent (Accounts.password again) = false ->
   bcrypt_key (Accounts.text (Accounts.password again))
   <> bcrypt_key (Accounts.text (Accounts.password req)) ->
   Accounts.signin secret' later again l = fail 401 "Invalid credentials").
Proof.
  intros Hl Hfold welcome. subst welcome.
  destruct (signin_finds_new_user _ _ _ _ _ _ _ Hl Hfold) as [Hemail Hfind].
  assert (He : Accounts.absent (Accounts.email again) = false).
  { rewrite absent_text. now apply String.eqb_neq. }
  assert (Hwf : Accounts.absent (Accounts.password req) = false).
  { destruct (Accounts.signup secret now salt req users) as [res w] eqn:H.
    simpl in Hl. subst w. apply signup_written in H.
    destruct H as ((_ & Hp & _) & _). exact Hp. }
  assert (Hkey : Accounts.absent (Accounts.password again) = false ->
                 bcrypt_key (Accounts.text (Accounts.password again))
                 = bcrypt_key (Accounts.text (Accounts.password req)) ->
                 Accounts.signin secret' later again l
                 = reply 200
                     (TokenOf
                        (Jwt.sign
                           {| Jwt.id := len users + 1;
                              Jwt.email := Accounts.text (Accounts.email req);
                              Jwt.userType :=
                                Accounts.text (Accounts.userType req);
                              Jwt.section := None |}
                           secret' later))).
  { intros Hp Hsame. unfold Accounts.signin. rewrite He, Hfind, Hp.
    cbn [orb]. unfold new_user at 1.
    cbn [User.password bcrypt_hash bcrypt_compare].
    rewrite Hsame, String.eqb_refl. reflexivity. }
  split; [|split].
  - intros Hsame. apply Hkey; [|now rewrite Hsame].
    rewrite absent_text, Hsame, <- absent_text. exact Hwf.
  - exact Hkey.
  - intros Hp Hwrong. unfold Accounts.signin. rewrite He, Hfind, Hp.
    cbn [orb]. unfold new_user.
    cbn [User.password bcrypt_hash bcrypt_compare].
    apply String.eqb_neq in Hwrong. rewrite Hwrong. reflexivity.
Qed.

Lemma NoDup_map_eq {A B : Type} (f : A -> B) (l : list A) (x y : A) :
  NoDup (map f l) -> In x l -> In y l -> f x = f y -> x = y.
Proof.
  induction l as [|z l IH]; simpl; intros Hnd Hx Hy Heq; [contradiction|].
  inversion Hnd as [|? ? Hnotin Hnd']; subst.
  destruct Hx as [->|Hx], Hy as [->|Hy]; auto.
  - exfalso. apply Hnotin. rewrite Heq. now apply in_map.
  - exfalso. apply Hnotin. rewrite <- Heq. now apply in_map.
Qed.

(** X3.  In a users collection without two identities of the same folded
    email, a signin with both fields present answers 200 exactly when some
    stored identity has the folded email of the request and a digest that
    accepts the password; every other such signin gets the one answer 401
    'Invalid credentials', for an unknown email as for a wrong password.  A
    signin with a field missing answers 400. *)
Theorem signin_decision secret now req users :
  emails_unique users ->
  let res := Accounts.signin secret now req users in
  (Accounts.absent (Accounts.email req)
   || Accounts.absent (Accounts.password req) = true ->
   res = fail 400 "Email and password are required") /\
  (Accounts.absent (Accounts.email req)
   || Accounts.absent (Accounts.password req) = false ->
   (status res = 200 <->
    exists u,
      In u users /\
      toLowerCase (User.email u)
      = toLowerCase (Accounts.text (Accounts.email req)) /\
      bcrypt_compare (Accounts.text (Accounts.password req))
        (User.password u) = true) /\
   (status res <> 200 -> res = fail 401 "Invalid credentials")).
Proof.
  intros Hunique res. subst res. unfold Accounts.signin.
  destruct (Accounts.absent (Accounts.email req)
            || Accounts.absent (Accounts.password req)).
  { split; [reflexivity|discriminate]. }
  split; [discriminate|]. intros _.
  destruct (find _ users) as [user|] eqn:Hfind.
  - destruct (find_some _ _ Hfind) as [Hin Hsame].
    unfold Accounts.same_email in Hsame. apply String.eqb_eq in Hsame.
    destruct (bcrypt_compare _ (User.password user)) eqn:Hpw; simpl.
    + split; [|congruence]. split; [|reflexivity].
      intros _. exists user. auto.
    + split; [|reflexivity]. split; [discriminate|].
      intros (u & Hu & Hfold & Hok).
      assert (u = user).
      { apply (NoDup_map_eq (fun u => toLowerCase (User.email u)) users);
          try assumption. congruence. }
      subst u. congruence.
  - simpl. split; [|reflexivity]. split; [discriminate|].
    intros (u & Hu & Hfold & _).
    apply (find_none _ _ Hfind) in Hu. unfold Accounts.same_email in Hu.
    rewrite Hfold, String.eqb_refl in Hu. discriminate.
Qed.

(** ** The token of a signup at the two authenticate middlewares *)

Lemma numbered_bound (ids : list Z) (x : Z) :
  numbered ids -> In x ids -> 1 <= x <= len ids.
Proof.
  unfold numbered, len. intros Hids Hx. rewrite Hids in Hx.
  apply in_map_iff in Hx. destruct Hx as (k & <- & Hk).
  apply in_seq in Hk. lia.
Qed.

Lemma find_new_user salt req users :
  numbered (map User.id users) ->
  find (fun u => User.id u =? len users + 1)
    (users ++ [new_user salt req users])
  = Some (new_user salt req users).
Proof.
  intros Hids. apply find_last.
  - destruct (find _ users) as [u|] eqn:Hfind; [|reflexivity].
    apply find_some in Hfind. destruct Hfind as [Hin Hid].
    apply Z.eqb_eq in Hid.
    assert (1 <= User.id u <= len (map User.id users))
      by (apply numbered_bound; [assumption|now apply in_map]).
    rewrite len_map in *. lia.
  - simpl. apply Z.eqb_refl.
Qed.

(** X4.  In a users collection whose ids are 1, 2, .., n, the token a
    successful signup returns authenticates, at any time less than one hour
    after it was minted and under the secret it was signed with, as the
    identity just stored (shared middleware) and with the claims of that
    identity (attendance router).  From one hour on, and under any other
    secret, both answer 401 'Invalid token'. *)
Theorem signup_token_authenticates
    secret now salt req users res l later other :
  numbered (map User.id users) ->
  Accounts.signup secret now salt req users = (res, Some l) ->
  exists token,
    res = reply 201 (TokenOf token) /\
    (later < now + 3600 ->
     Middleware.authenticate secret later (Some token) l
     = inr (new_user salt req users) /\
     exists d,
       Attendance.authenticate secret later (Some token) = inr d /\
       Jwt.id (Jwt.claims d) = User.id (new_user salt req users) /\
       Jwt.userType (Jwt.claims d)
       = User.userType (new_user salt req users)) /\
    (now + 3600 <= later ->
     Middleware.authenticate secret later (Some token) l
     = inl (fail 401 "Invalid token") /\
     Attendance.authenticate secret later (Some token)
     = inl (fail 401 "Invalid token")) /\
    (other <> secret ->
     Middleware.authenticate other later (Some token) l
     = inl (fail 401 "Invalid token") /\
     Attendance.authenticate other later (Some token)
     = inl (fail 401 "Invalid token")).
Proof.
  intros Hids Hsignup.
  destruct (signup_written _ _ _ _ _ _ _ Hsignup) as (Hwf & Hfresh & _).
  rewrite signup_succeeds in Hsignup by assumption.
  injection Hsignup as <- <-. eexists. split; [reflexivity|].
  unfold Middleware.authenticate, Attendance.authenticate, Jwt.sign,
    Jwt.verify.
  rewrite String.eqb_refl. cbn [andb Jwt.exp]. split; [|split].
  - intros Hlater.
    replace (now + 3600 <=? later) with false
      by (symmetry; apply Z.leb_gt; lia).
    cbn [negb Jwt.claims Jwt.id]. rewrite find_new_user by assumption.
    split; [reflexivity|]. eexists. split; [reflexivity|].
    split; reflexivity.
  - intros Hlater.
    replace (now + 3600 <=? later) with true
      by (symmetry; apply Z.leb_le; lia).
    split; reflexivity.
  - intros Hother. apply not_eq_sym, String.eqb_neq in Hother.
    rewrite Hother. split; reflexivity.
Qed.

(** ** attendance.js: what a submission needs, and one record per identity *)

Lemma strict_eq_num (n : Z) (v : JsVal) :
  strict_eq (num n) v = true ->
  forall w, strict_eq w v = strict_eq w (num n).
Proof.
  unfold num. destruct v; simpl; try discriminate. intros Hq w.
  destruct w; simpl; try reflexivity.
  apply Qeq_bool_iff in Hq. apply eq_true_iff_eq.
  rewrite !Qeq_bool_iff. rewrite Hq. reflexivity.
Qed.

Lemma strict_eq_num_l (n : Z) (v : JsVal) :
  strict_eq (num n) v = true ->
  forall w, strict_eq v w = strict_eq (num n) w.
Proof.
  unfold num. destruct v; simpl; try discriminate. intros Hq w.
  destruct w; simpl; try reflexivity.
  apply Qeq_bool_iff in Hq. apply eq_true_iff_eq.
  rewrite !Qeq_bool_iff. rewrite Hq. reflexivity.
Qed.

Lemma strict_eq_num_inj (n m : Z) :
  strict_eq (num n) (num m) = true -> n = m.
Proof.
  unfold num. simpl. intros H. apply Qeq_bool_iff in H.
  unfold Qeq in H. simpl in H. lia.
Qed.

Lemma typeof_boolean (v : JsVal) :
  String.eqb (typeof v) "boolean" = true -> exists b, v = JBool b.
Proof.
  destruct v; simpl; try discriminate. eauto.
Qed.

Lemma typeof_object (v : JsVal) :
  truthy v = true -> String.eqb (typeof v) "object" = true ->
  exists fields, v = JObj fields.
Proof.
  destruct v; simpl; try discriminate. eauto.
Qed.

Lemma valid_days (attendance : JsVal) :
  truthy attendance = true ->
  String.eqb (typeof attendance) "object" = true ->
  existsb (Attendance.invalid_day attendance) (keys attendance) = false ->
  days_with_booleans attendance.
Proof.
  intros Htruthy Hobject Hdays.
  destruct (typeof_object _ Htruthy Hobject) as (fields & ->).
  exists fields. split; [reflexivity|]. intros day Hday.
  assert (Hgood : Attendance.invalid_day (JObj fields) day = false).
  { destruct (Attendance.invalid_day (JObj fields) day) eqn:Hbad;
      [|reflexivity].
    assert (existsb (Attendance.invalid_day (JObj fields))
              (keys (JObj fields)) = true)
      by (apply existsb_exists; eauto).
    congruence. }
  unfold Attendance.invalid_day in Hgood.
  apply orb_false_iff in Hgood. destruct Hgood as [Hin Hbool].
  apply negb_false_iff in Hin, Hbool. split.
  - apply includes_spec in Hin. destruct Hin as (s & Hs & Hin).
    now injection Hs as <-.
  - now apply typeof_boolean.
Qed.

Lemma days_valid (attendance : JsVal) :
  days_with_booleans attendance ->
  truthy attendance = true /\
  String.eqb (typeof attendance) "object" = true /\
  existsb (Attendance.invalid_day attendance) (keys attendance) = false.
Proof.
  intros (fields & -> & Hdays). repeat split.
  destruct (existsb _ _) eqn:Hex; [|reflexivity].
  apply existsb_exists in Hex. destruct Hex as (day & Hin & Hbad).
  destruct (Hdays day Hin) as (Hvalid & b & Hb).
  unfold Attendance.invalid_day in Hbad. rewrite Hb in Hbad.
  assert (includes Attendance.validDays (JStr day) = true)
    by (apply includes_spec; eauto).
  rewrite H in Hbad. discriminate.
Qed.

(** The array an attendance submission writes for a target identity. *)
Lemma attendance_post_success who userId attendance0 users records l :
  snd (Attendance.post who userId attendance0 users records) = Some l ->
  exists target,
    find (fun u => strict_eq (num (User.id u)) userId) users = Some target
    /\ (User.userType target = "Teacher"
        \/ User.userType target = "Student") /\
    (Jwt.userType (Jwt.claims who) = "Admin"
     \/ Jwt.userType (Jwt.claims who) = "Teacher") /\
    truthy userId = true /\ days_with_booleans attendance0 /\
    fst (Attendance.post who userId attendance0 users records)
    = reply 201 (Workbook l) /\
    l = match
          update_first
            (fun record => strict_eq (AttendanceRecord.userId record) userId)
            (Attendance.with_attendance attendance0) records
        with
        | Some updated => updated
        | None =>
            push records
              {| AttendanceRecord.userId := userId;
                 AttendanceRecord.name := User.email target;
                 AttendanceRecord.userType := User.userType target;
                 AttendanceRecord.attendance := attendance0 |}
        end.
Proof.
  unfold Attendance.post. cbv zeta.
  destruct (negb (Jwt.userType (Jwt.claims who) =? "Admin")%string
            && negb (Jwt.userType (Jwt.claims who) =? "Teacher")%string)
    eqn:Hrole; [discriminate|].
  destruct (truthy userId) eqn:Hid; [|discriminate].
  destruct (truthy attendance0) eqn:Htruthy; [|discriminate].
  destruct (String.eqb (typeof attendance0) "object") eqn:Hobject;
    [|discriminate].
  cbn [negb orb].
  destruct (existsb _ (keys attendance0)) eqn:Hdays; [discriminate|].
  destruct (find _ users) as [target|] eqn:Hfind; [|discriminate].
  destruct (negb (User.userType target =? "Teacher")%string
            && negb (User.userType target =? "Student")%string)
    eqn:Htarget; [discriminate|].
  simpl. intros H. injection H as <-. exists target.
  apply andb_false_iff in Hrole, Htarget.
  repeat split; try reflexivity.
  - destruct Htarget as [H|H]; apply is_role in H; auto.
  - destruct Hrole as [H|H]; apply is_role in H; auto.
  - now apply valid_days.
Qed.

(** X5.  An attendance submission writes exactly when the caller's token
    says Admin or Teacher, the userId is truthy, the attendance is an object
    whose keys are days of the week with boolean values, and the first
    stored identity with that id is a Teacher or a Student.  It then answers
    201 with the workbook of all records written; in every other case it
    writes nothing. *)
Theorem attendance_post_decision who userId attendance0 users records :
  let out := Attendance.post who userId attendance0 users records in
  (snd out <> None <->
   (Jwt.userType (Jwt.claims who) = "Admin"
    \/ Jwt.userType (Jwt.claims who) = "Teacher") /\
   truthy userId = true /\ days_with_booleans attendance0 /\
   exists target,
     find (fun u => strict_eq (num (User.id u)) userId) users = Some target
     /\ (User.userType target = "Teacher"
         \/ User.userType target = "Student")) /\
  (forall l, snd out = Some l -> fst out = reply 201 (Workbook l)).
Proof.
  intros out. subst out. split; [split|].
  - intros Hne.
    destruct (snd (Attendance.post who userId attendance0 users records))
      as [l|] eqn:Hl; [|congruence].
    apply attendance_post_success in Hl.
    destruct Hl as (target & Hfind & Htarget & Hrole & Hid & Hdays & _).
    eauto 8.
  - intros (Hrole & Hid & Hdays & target & Hfind & Htarget).
    destruct (days_valid _ Hdays) as (Htruthy & Hobject & Hkeys).
    unfold Attendance.post. cbv zeta.
    replace (negb (Jwt.userType (Jwt.claims who) =? "Admin")%string
             && negb (Jwt.userType (Jwt.claims who) =? "Teacher")%string)
      with false.
    2:{ symmetry. apply andb_false_iff.
        destruct Hrole as [H|H]; [left|right]; now apply is_role. }
    rewrite Hid, Htruthy, Hobject, Hkeys, Hfind. cbn [negb orb].
    replace (negb (User.userType target =? "Teacher")%string
             && negb (User.userType target =? "Student")%string)
      with false.
    2:{ symmetry. apply andb_false_iff.
        destruct Htarget as [H|H]; [left|right]; now apply is_role. }
    discriminate.
  - intros l Hl. apply attendance_post_success in Hl.
    now destruct Hl as (target & _ & _ & _ & _ & _ & Hres & _).
Qed.

Lemma find_of_filter {A : Type} (p : A -> bool) (l : list A) x rest :
  filter p l = x :: rest -> find p l = Some x.
Proof.
  induction l as [|y l IH]; simpl; [discriminate|].
  destruct (p y); [|assumption]. intros H. now injection H as ->.
Qed.

Lemma attendance_upsert who userId attendance0 users records l :
  one_per_user records ->
  snd (Attendance.post who userId attendance0 users records) = Some l ->
  exists target r,
    find (fun u => strict_eq (num (User.id u)) userId) users = Some target
    /\ attendance_of (User.id target) l = [r] /\
    AttendanceRecord.attendance r = attendance0 /\
    one_per_user l /\
    ((exists before old after,
         records = before ++ old :: after /\
         attendance_of (User.id target) records = [old] /\
         l = before ++ r :: after /\
         AttendanceRecord.userId r = AttendanceRecord.userId old /\
         AttendanceRecord.name r = AttendanceRecord.name old /\
         AttendanceRecord.userType r = AttendanceRecord.userType old) \/
     (attendance_of (User.id target) records = [] /\
      l = records ++ [r] /\
      AttendanceRecord.userId r = userId /\
      AttendanceRecord.name r = User.email target /\
      AttendanceRecord.userType r = User.userType target)).
Proof.
  intros Hinv Hl. apply attendance_post_success in Hl.
  destruct Hl as (target & Hfind & _ & _ & _ & _ & _ & ->).
  exists target.
  destruct (find_some _ _ Hfind) as [_ Hid].
  pose proof (strict_eq_num _ _ Hid) as Hvia.
  set (n := User.id target) in *.
  assert (Hfilter : forall records,
    filter (fun r => strict_eq (AttendanceRecord.userId r) userId) records
    = attendance_of n records).
  { intros rs. apply filter_ext. intros r. apply Hvia. }
  destruct (update_first _ _ records) as [updated|] eqn:Hupdate.
  - apply update_first_Some in Hupdate.
    destruct Hupdate as (before & old & after & -> & -> & Hold & Hb).
    rewrite Hvia in Hold.
    assert (Hbefore : attendance_of n before = []).
    { apply filter_none. intros x Hx. rewrite <- Hvia. now apply Hb. }
    assert (Hafter : attendance_of n after = []).
    { specialize (Hinv n). unfold attendance_of in *.
      rewrite filter_app in Hinv. simpl in Hinv.
      rewrite Hold, Hbefore in Hinv. simpl in Hinv.
      destruct (filter _ after); [reflexivity|simpl in Hinv; lia]. }
    exists (Attendance.with_attendance attendance0 old).
    split; [assumption|]. split; [|split; [reflexivity|split]].
    + unfold attendance_of in *. rewrite filter_app. simpl.
      now rewrite Hold, Hbefore, Hafter.
    + intros m. specialize (Hinv m). unfold attendance_of in *.
      rewrite filter_app, length_app in *. simpl in *.
      destruct (strict_eq (AttendanceRecord.userId old) (num m));
        exact Hinv.
    + left. exists before, old, after. repeat split.
      unfold attendance_of in *. rewrite filter_app. simpl.
      now rewrite Hold, Hbefore, Hafter.
  - pose proof (proj1 (update_first_None _ _ _) Hupdate) as Hmiss.
    clear Hupdate. rename Hmiss into Hupdate.
    assert (Hnone : attendance_of n records = []).
    { apply filter_none. intros x Hx. rewrite <- Hvia. now apply Hupdate. }
    exists {| AttendanceRecord.userId := userId;
              AttendanceRecord.name := User.email target;
              AttendanceRecord.userType := User.userType target;
              AttendanceRecord.attendance := attendance0 |}.
    split; [assumption|]. split; [|split; [reflexivity|split]].
    + unfold attendance_of, push in *. rewrite filter_app, Hnone.
      cbn [filter AttendanceRecord.userId app].
      rewrite (strict_eq_num_l _ _ Hid). unfold num. simpl.
      now rewrite Qeq_bool_refl.
    + intros m. specialize (Hinv m). unfold attendance_of, push in *.
      rewrite filter_app. cbn [filter AttendanceRecord.userId].
      rewrite (strict_eq_num_l _ _ Hid).
      destruct (strict_eq (num n) (num m)) eqn:Hm.
      * apply strict_eq_num_inj in Hm. subst m. rewrite Hnone. simpl. lia.
      * rewrite app_nil_r. exact Hinv.
    + right. repeat split. exact Hnone.
Qed.

(** X6.  In an attendance collection with at most one record per identity,
    the empty collection being one, a successful submission leaves exactly
    one record for the target identity, carrying the submitted attendance
    object as a whole, and at most one record for every identity.  The
    record replaces, where it stands, the previous record of the identity
    and keeps its userId, name and userType; or it is appended, named after
    the email of the identity, when there was none. *)
Theorem attendance_one_record_per_user :
  one_per_user [] /\
  (forall who userId attendance0 users records l,
      one_per_user records ->
      snd (Attendance.post who userId attendance0 users records) = Some l ->
      exists target r,
        find (fun u => strict_eq (num (User.id u)) userId) users
        = Some target /\
        attendance_of (User.id target) l = [r] /\
        AttendanceRecord.attendance r = attendance0 /\
        one_per_user l /\
        ((exists before old after,
             records = before ++ old :: after /\
             attendance_of (User.id target) records = [old] /\
             l = before ++ r :: after /\
             AttendanceRecord.userId r = AttendanceRecord.userId old /\
             AttendanceRecord.name r = AttendanceRecord.name old /\
             AttendanceRecord.userType r = AttendanceRecord.userType old) \/
         (attendance_of (User.id target) records = [] /\
          l = records ++ [r] /\
          AttendanceRecord.userId r = userId /\
          AttendanceRecord.name r = User.email target /\
          AttendanceRecord.userType r = User.userType target))).
Proof.
  split.
  - intros n. simpl. lia.
  - exact attendance_upsert.
Qed.

(** X7.  After a successful submission into a collection with at most one
    record per identity, reading the attendance under the id of the target
    (a path parameter that [parseInt] maps to that id) answers 200 with a
    record that carries the submitted attendance object, for a reader whose
    token says Admin or Teacher or carries that id. *)
Theorem attendance_read_back
    who userId attendance0 users records l reader param n :
  one_per_user records ->
  snd (Attendance.post who userId attendance0 users records) = Some l ->
  parseInt (JStr param) = Some n -> strict_eq (num n) userId = true ->
  Jwt.userType (Jwt.claims reader) = "Admin"
  \/ Jwt.userType (Jwt.claims reader) = "Teacher"
  \/ Jwt.id (Jwt.claims reader) = n ->
  exists r,
    Attendance.get reader param l = reply 200 (AnAttendance r) /\
    AttendanceRecord.attendance r = attendance0 /\
    strict_eq (AttendanceRecord.userId r) userId = true.
Proof.
  intros Hinv Hl Hparam Hn Hreader.
  destruct (attendance_upsert _ _ _ _ _ _ Hinv Hl)
    as (target & r & Hfind & Hone & Hatt & _).
  destruct (find_some _ _ Hfind) as [_ Hid].
  assert (n = User.id target).
  { apply strict_eq_num_inj. now rewrite <- (strict_eq_num _ _ Hid). }
  subst n. exists r.
  assert (Hr : strict_eq (AttendanceRecord.userId r) (num (User.id target))
               = true).
  { assert (In r (attendance_of (User.id target) l))
      by (rewrite Hone; now left).
    unfold attendance_of in H. apply filter_In in H. apply H. }
  split; [|split; [assumption|now rewrite (strict_eq_num _ _ Hid)]].
  unfold Attendance.get. cbv zeta. rewrite Hparam.
  replace (negb (Jwt.userType (Jwt.claims reader) =? "Admin")%string
           && negb (Jwt.userType (Jwt.claims reader) =? "Teacher")%string
           && negb (eq_parsed (Jwt.id (Jwt.claims reader))
                      (Some (User.id target)))) with false.
  2:{ symmetry. rewrite !andb_false_iff.
      destruct Hreader as [H|[H|H]].
      - left. left. now apply is_role.
      - left. right. now apply is_role.
      - right. simpl. rewrite H, Z.eqb_refl. reflexivity. }
  unfold Attendance.is_parsed.
  now rewrite (find_of_filter _ _ _ _ Hone).
Qed.

(** ** routine.js: update and deletion by id, and listing after creation *)

Lemma findIndex_id_Some (n : Z) routines index :
  findIndex (fun r => RoutineRecord.id r =? n) routines = Some index ->
  exists before old after,
    routines = before ++ old :: after /\ List.length before = index /\
    RoutineRecord.id old = n /\
    (forall x, In x before -> RoutineRecord.id x <> n).
Proof.
  intros H. apply findIndex_Some in H.
  destruct H as (before & old & after & -> & <- & Hold & Hb).
  exists before, old, after. repeat split.
  - now apply Z.eqb_eq.
  - intros x Hx. apply Z.eqb_neq. now apply Hb.
Qed.

Lemma findIndex_id_None (p : option Z) routines :
  findIndex (fun r => eq_parsed (RoutineRecord.id r) p) routines = None <->
  forall n, p = Some n -> forall x, In x routines -> RoutineRecord.id x <> n.
Proof.
  rewrite findIndex_None. split.
  - intros H n -> x Hx. apply Z.eqb_neq. now apply (H x Hx).
  - intros H x Hx. destruct p as [n|]; simpl; [|reflexivity].
    apply Z.eqb_neq. now apply (H n eq_refl).
Qed.

(** X8.  A routine update that writes puts the record built from the body,
    under the id parsed from the path, in the place of the first routine
    with that id, leaves every other routine where it was, and answers 200
    with the new record; and an update by an Admin with a complete body, a
    valid teacherId and a path id that some routine has does write.  For an
    Admin with a complete body and a valid
    teacherId, a path id that [parseInt] maps to no finite number (NaN, or
    an infinity) or that no routine has gets 404 'Routine not found' and
    nothing is written. *)
Theorem routine_put_in_place user id req users routines :
  let out := Routine.put user id req users routines in
  (forall l, snd out = Some l ->
     exists n before old after,
       parseInt (JStr id) = Some n /\
       routines = before ++ old :: after /\
       RoutineRecord.id old = n /\
       (forall x, In x before -> RoutineRecord.id x <> n) /\
       l = before ++ Routine.record n req :: after /\
       fst out = reply 200 (ARoutine (Routine.record n req))) /\
  (User.userType user = "Admin" -> Routine.incomplete req = false ->
   refers_to_teacher (Routine.teacherId req) users ->
   (forall n, parseInt (JStr id) = Some n ->
              forall x, In x routines -> RoutineRecord.id x <> n) ->
   out = stop (fail 404 "Routine not found")) /\
  (forall n before old after,
      User.userType user = "Admin" -> Routine.incomplete req = false ->
      refers_to_teacher (Routine.teacherId req) users ->
      parseInt (JStr id) = Some n ->
      routines = before ++ old :: after -> RoutineRecord.id old = n ->
      (forall x, In x before -> RoutineRecord.id x <> n) ->
      out = save (reply 200 (ARoutine (Routine.record n req)))
              (before ++ Routine.record n req :: after)).
Proof.
  intros out. subst out.
  split; [|split].
  3:{ intros n before old after Hrole Hfields Hteacher Hn -> Hold Hbefore.
      now apply routine_put_replaces. }
  all: unfold Routine.put.
  - intros l.
    destruct (negb _); [discriminate|].
    destruct (Routine.incomplete req); [discriminate|].
    destruct (find _ users); [|discriminate].
    destruct (parseInt (JStr id)) as [n|]; [|discriminate].
    destruct (findIndex _ routines) as [index|] eqn:Hindex; [|discriminate].
    simpl. intros H. injection H as <-.
    apply findIndex_id_Some in Hindex.
    destruct Hindex as (before & old & after & -> & <- & Hold & Hb).
    exists n, before, old, after. rewrite assign_app. repeat split; auto.
  - intros Hrole Hfields Hteacher Hmissing.
    apply is_role in Hrole. rewrite Hrole, Hfields.
    destruct (find _ users) eqn:Hfind.
    2:{ apply find_is_teacher_None in Hfind. contradiction. }
    destruct (parseInt (JStr id)) as [n|]; [|reflexivity].
    replace (findIndex _ routines) with (@None nat); [reflexivity|].
    symmetry. apply findIndex_None. intros x Hx. apply Z.eqb_neq.
    now apply (Hmissing n eq_refl).
Qed.

Lemma routine_delete_written user id routines l :
  snd (Routine.delete user id routines) = Some l ->
  exists n before old after,
    parseInt (JStr id) = Some n /\
    routines = before ++ old :: after /\
    RoutineRecord.id old = n /\
    (forall x, In x before -> RoutineRecord.id x <> n) /\
    l = before ++ after /\
    fst (Routine.delete user id routines)
    = reply 200 (Message "Routine deleted").
Proof.
  unfold Routine.delete.
  destruct (negb _); [discriminate|].
  destruct (findIndex _ routines) as [index|] eqn:Hindex; [|discriminate].
  simpl. intros H. injection H as <-.
  apply findIndex_Some in Hindex.
  destruct Hindex as (before & old & after & -> & <- & Hold & Hb).
  destruct (parseInt (JStr id)) as [n|] eqn:Hn; [|discriminate].
  simpl in Hold. apply Z.eqb_eq in Hold.
  exists n, before, old, after. rewrite splice_app.
  split; [exact Hn|]. split; [reflexivity|]. split; [assumption|].
  split; [|split; reflexivity].
  intros x Hx. apply Z.eqb_neq. now apply (Hb x Hx).
Qed.

(** X9.  A routine deletion that writes removes the first routine whose id
    is the one parsed from the path and keeps every other routine, in
    order; it answers 200 'Routine deleted'.  When the ids of the collection
    are pairwise distinct no routine with that id is left, so that a second
    deletion under the same path answers 404 'Routine not found' and writes
    nothing. *)
Theorem routine_delete_removes_one user id routines l :
  snd (Routine.delete user id routines) = Some l ->
  exists n before old after,
    parseInt (JStr id) = Some n /\
    routines = before ++ old :: after /\
    RoutineRecord.id old = n /\
    (forall x, In x before -> RoutineRecord.id x <> n) /\
    l = before ++ after /\
    fst (Routine.delete user id routines)
    = reply 200 (Message "Routine deleted") /\
    (NoDup (map RoutineRecord.id routines) ->
     (forall x, In x l -> RoutineRecord.id x <> n) /\
     Routine.delete user id l = stop (fail 404 "Routine not found")).
Proof.
  intros Hl.
  assert (Hadmin : negb (User.userType user =? "Admin")%string = false).
  { revert Hl. unfold Routine.delete. destruct (negb _);
      [discriminate|reflexivity]. }
  destruct (routine_delete_written _ _ _ _ Hl)
    as (n & before & old & after & Hn & -> & Hold & Hb & -> & Hres).
  exists n, before, old, after.
  do 6 (split; [assumption || reflexivity|]).
  intros Hids.
  assert (Hgone : forall x, In x (before ++ after) ->
                            RoutineRecord.id x <> n).
  { intros x Hx. apply in_app_or in Hx. destruct Hx as [Hx|Hx].
    - now apply Hb.
    - rewrite map_app in Hids. apply NoDup_remove_2 in Hids.
      intros Heq. apply Hids. apply in_or_app. right.
      rewrite Hold, <- Heq. now apply in_map. }
  split; [exact Hgone|].
  unfold Routine.delete. rewrite Hadmin.
  replace (findIndex _ (before ++ after)) with (@None nat); [reflexivity|].
  symmetry. apply findIndex_id_None. intros m Hm x Hx.
  assert (m = n) by congruence. subst m. now apply Hgone.
Qed.

(** X10.  After a successful routine creation the new routine, with the id
    it was given, is the last of the listing of an Admin, of a Teacher
    whose id is the routine's teacherId, and of a Student (with a section)
    whose section is the routine's; the listing of any other Teacher or
    Student is what it was before the creation. *)
Theorem routine_listed_after_post user req users routines l reader :
  snd (Routine.post user req users routines) = Some l ->
  let r := Routine.record (len routines + 1) req in
  let mine :=
    if String.eqb (User.userType reader) "Teacher"
    then strict_eq (Routine.teacherId req) (num (User.id reader))
    else
      match User.section reader with
      | Some own => strict_eq (Routine.section req) (JStr own)
      | None => false
      end in
  l = routines ++ [r] /\
  (User.userType reader = "Admin" ->
   Routine.get reader l = reply 200 (RoutineList (routines ++ [r]))) /\
  (User.userType reader = "Teacher"
   \/ User.userType reader = "Student" /\ sectioned reader ->
   exists listed,
     Routine.get reader routines = reply 200 (RoutineList listed) /\
     Routine.get reader l
     = reply 200 (RoutineList (if mine then listed ++ [r] else listed))).
Proof.
  intros Hl r mine.
  assert (Hwritten : l = routines ++ [r]).
  { revert Hl. unfold Routine.post. branches; simpl; try discriminate.
    intros H. now injection H as <-. }
  split; [assumption|]. subst l. split.
  - intros Hadmin. unfold Routine.get. rewrite Hadmin. reflexivity.
  - intros [Hteacher|[Hstudent [Hsection _]]]; unfold Routine.get.
    + rewrite Hteacher. simpl String.eqb. cbv iota.
      eexists. split; [reflexivity|].
      rewrite filter_app. cbn [filter]. subst mine. rewrite Hteacher.
      simpl String.eqb. cbv iota.
      cbn [Routine.record RoutineRecord.teacherId r].
      destruct (strict_eq (Routine.teacherId req) (num (User.id reader)));
        try rewrite app_nil_r; reflexivity.
    + destruct (Hsection Hstudent) as (own & Hown & Hne).
      rewrite Hstudent, Hown. simpl String.eqb. cbv iota.
      apply String.eqb_neq in Hne. rewrite Hne.
      eexists. split; [reflexivity|].
      rewrite filter_app. cbn [filter]. subst mine.
      rewrite Hstudent, Hown. simpl String.eqb. cbv iota.
      cbn [Routine.record RoutineRecord.section r].
      destruct (strict_eq (Routine.section req) (JStr own));
        try rewrite app_nil_r; reflexivity.
Qed.

(** ** docs.js and policy.js: finding a record by its id *)

Lemma find_by_id {A : Type} (id : A -> Z) (l : list A) (k : nat) (n : Z) :
  map id l = map Z.of_nat (seq k (List.length l)) ->
  find (fun d => id d =? n) l
  = if (Z.of_nat k <=? n) && (n <? Z.of_nat k + len l)
    then nth_error l (Z.to_nat (n - Z.of_nat k))
    else None.
Proof.
  unfold len. revert k. induction l as [|d l IH]; intros k Hids.
  - simpl. destruct (Z.of_nat k <=? n) eqn:Hk; simpl; [|reflexivity].
    replace (n <? Z.of_nat k + 0) with false; [reflexivity|].
    symmetry. apply Z.ltb_ge. apply Z.leb_le in Hk. lia.
  - simpl in Hids. injection Hids as Hd Hrest.
    cbn [find]. rewrite (IH (S k) Hrest), Hd.
    destruct (Z.eqb_spec (Z.of_nat k) n) as [<-|Hne].
    + rewrite Z.leb_refl. cbn [andb].
      replace (Z.of_nat k <? _) with true
        by (symmetry; apply Z.ltb_lt; simpl List.length; lia).
      now rewrite Z.sub_diag.
    + destruct (Z.leb_spec (Z.of_nat k) n) as [Hle|Hgt]; cbn [andb].
      * replace (Z.of_nat (S k) <=? n) with true
          by (symmetry; apply Z.leb_le; lia).
        replace (n <? Z.of_nat (S k) + Z.of_nat (List.length l))
          with (n <? Z.of_nat k + Z.of_nat (List.length (d :: l)))
          by (simpl List.length; f_equal; lia).
        cbn [andb]. destruct (n <? _); [|reflexivity].
        replace (Z.to_nat (n - Z.of_nat k))
          with (S (Z.to_nat (n - Z.of_nat (S k)))) by lia.
        reflexivity.
      * replace (Z.of_nat (S k) <=? n) with false
          by (symmetry; apply Z.leb_gt; lia).
        reflexivity.
Qed.

Lemma find_parsed {A : Type} (id : A -> Z) (l : list A) (p : option Z) :
  numbered (map id l) ->
  find (fun d => eq_parsed (id d) p) l
  = match p with
    | Some n =>
        if (1 <=? n) && (n <=? len l)
        then nth_error l (Z.to_nat (n - 1))
        else None
    | None => None
    end.
Proof.
  intros Hids. destruct p as [n|]; simpl.
  - unfold numbered in Hids. rewrite length_map in Hids.
    rewrite (find_by_id id l 1 n Hids).
    replace (n <? Z.of_nat 1 + len l) with (n <=? len l); [reflexivity|].
    apply eq_true_iff_eq. rewrite Z.leb_le, Z.ltb_lt. lia.
  - clear Hids. induction l as [|d l IH]; simpl; [reflexivity|exact IH].
Qed.

Lemma nth_numbered {A : Type} (id : A -> Z) (l : list A) (i : nat) (d : A) :
  numbered (map id l) -> nth_error l i = Some d -> id d = Z.of_nat i + 1.
Proof.
  unfold numbered. rewrite length_map. intros Hids Hd.
  assert (Hmap : nth_error (map id l) i = Some (id d))
    by now apply map_nth_error.
  rewrite Hids in Hmap.
  assert (Hi : (i < List.length l)%nat)
    by (apply nth_error_Some; congruence).
  assert (Hseq : nth_error (seq 1 (List.length l)) i = Some (S i)).
  { rewrite nth_error_nth' with (d := O) by now rewrite length_seq.
    now rewrite seq_nth. }
  rewrite (map_nth_error _ _ _ Hseq) in Hmap.
  injection Hmap as <-. lia.
Qed.

(** X11.  In a documents or policies collection whose ids are 1, 2, .., n,
    the download route answers 404 'Document not found' (or 'Policy not
    found') for a path id that [parseInt] maps to no finite number (NaN, or
    an infinity) or to a number outside 1..n; for a number k inside, it
    takes the k-th record, whose id is k, and
    sends its file when the uploads directory has it, and answers 404 'File
    not found' when it has not. *)
Theorem download_by_id id on_disk :
  (forall documents,
      numbered (map DocumentRecord.id documents) ->
      (forall k, parseInt (JStr id) = Some k -> k < 1 \/ len documents < k) ->
      Docs.download id on_disk documents = fail 404 "Document not found") /\
  (forall documents k d,
      numbered (map DocumentRecord.id documents) ->
      parseInt (JStr id) = Some k -> 1 <= k ->
      nth_error documents (Z.to_nat (k - 1)) = Some d ->
      DocumentRecord.id d = k /\
      Docs.download id on_disk documents
      = if on_disk (DocumentRecord.fileName d)
        then reply 200 (FileAt (DocumentRecord.fileName d))
        else fail 404 "File not found") /\
  (forall policies,
      numbered (map PolicyRecord.id policies) ->
      (forall k, parseInt (JStr id) = Some k -> k < 1 \/ len policies < k) ->
      Policy.download id on_disk policies = fail 404 "Policy not found") /\
  (forall policies k p,
      numbered (map PolicyRecord.id policies) ->
      parseInt (JStr id) = Some k -> 1 <= k ->
      nth_error policies (Z.to_nat (k - 1)) = Some p ->
      PolicyRecord.id p = k /\
      Policy.download id on_disk policies
      = if on_disk (PolicyRecord.fileName p)
        then reply 200 (FileAt (PolicyRecord.fileName p))
        else fail 404 "File not found").
Proof.
  assert (Hout : forall (A : Type) (l : list A) k,
    k < 1 \/ len l < k -> (1 <=? k) && (k <=? len l) = false).
  { intros A l k Hk. apply andb_false_iff.
    destruct Hk; [left; apply Z.leb_gt|right; apply Z.leb_gt]; lia. }
  assert (Hin : forall (A : Type) (l : list A) k (d : A),
    1 <= k -> nth_error l (Z.to_nat (k - 1)) = Some d ->
    (1 <=? k) && (k <=? len l) = true).
  { intros A l k d Hk Hd. apply andb_true_iff.
    assert (Z.to_nat (k - 1) < List.length l)%nat
      by (apply nth_error_Some; congruence).
    unfold len. split; apply Z.leb_le; lia. }
  repeat split.
  - intros documents Hids Hk. unfold Docs.download.
    rewrite (find_parsed DocumentRecord.id) by assumption.
    destruct (parseInt (JStr id)) as [k|]; [|reflexivity].
    now rewrite (Hout _ documents k (Hk k eq_refl)).
  - rewrite (nth_numbered DocumentRecord.id documents _ d H H2). lia.
  - unfold Docs.download.
    rewrite (find_parsed DocumentRecord.id) by assumption.
    rewrite H0, (Hin _ documents k d H1 H2), H2. reflexivity.
  - intros policies Hids Hk. unfold Policy.download.
    rewrite (find_parsed PolicyRecord.id) by assumption.
    destruct (parseInt (JStr id)) as [k|]; [|reflexivity].
    now rewrite (Hout _ policies k (Hk k eq_refl)).
  - rewrite (nth_numbered PolicyRecord.id policies _ p H H2). lia.
  - unfold Policy.download.
    rewrite (find_parsed PolicyRecord.id) by assumption.
    rewrite H0, (Hin _ policies k p H1 H2), H2. reflexivity.
Qed.

Lemma find_appended {A : Type} (id : A -> Z) (l : list A) (d : A) :
  numbered (map id l) -> id d = len l + 1 ->
  find (fun x => eq_parsed (id x) (Some (len l + 1))) (l ++ [d]) = Some d.
Proof.
  intros Hids Hd. apply find_last.
  - destruct (find _ l) as [x|] eqn:Hfind; [|reflexivity].
    apply find_some in Hfind. destruct Hfind as [Hin Hx].
    simpl in Hx. apply Z.eqb_eq in Hx.
    assert (1 <= id x <= len (map id l))
      by (apply numbered_bound; [assumption|now apply in_map]).
    rewrite len_map in *. lia.
  - simpl. rewrite Hd. apply Z.eqb_refl.
Qed.

(** X12.  In a documents (or policies) collection whose ids are
    1, 2, .., n, a successful upload answers 201 with the record it appends:
    the next id, the stored file name, the uploader's id, the timestamp and
    the description (the empty string when none was sent).  Downloading
    under that id afterwards sends the stored file when the uploads
    directory has it, and answers 404 'File not found' when it has not. *)
Theorem upload_then_download user description file timestamp id on_disk :
  (forall documents l,
      numbered (map DocumentRecord.id documents) ->
      snd (Docs.post user description file timestamp documents) = Some l ->
      parseInt (JStr id) = Some (len documents + 1) ->
      exists f,
        file = Some f /\
        l = documents ++
            [{| DocumentRecord.id := len documents + 1;
                DocumentRecord.fileName := Docs.filename f;
                DocumentRecord.uploadedBy := User.id user;
                DocumentRecord.uploadDate := timestamp;
                DocumentRecord.description := Docs.or_empty description |}]
        /\
        fst (Docs.post user description file timestamp documents)
        = reply 201
            (ADocument
               {| DocumentRecord.id := len documents + 1;
                  DocumentRecord.fileName := Docs.filename f;
                  DocumentRecord.uploadedBy := User.id user;
                  DocumentRecord.uploadDate := timestamp;
                  DocumentRecord.description :=
                    Docs.or_empty description |}) /\
        Docs.download id on_disk l
        = if on_disk (Docs.filename f)
          then reply 200 (FileAt (Docs.filename f))
          else fail 404 "File not found") /\
  (forall policies l,
      numbered (map PolicyRecord.id policies) ->
      snd (Policy.post user description file timestamp policies) = Some l ->
      parseInt (JStr id) = Some (len policies + 1) ->
      exists f,
        file = Some f /\
        l = policies ++
            [{| PolicyRecord.id := len policies + 1;
                PolicyRecord.fileName := Policy.filename f;
                PolicyRecord.uploadedBy := User.id user;
                PolicyRecord.uploadDate := timestamp;
                PolicyRecord.description := Docs.or_empty description |}]
        /\
        fst (Policy.post user description file timestamp policies)
        = reply 201
            (APolicy
               {| PolicyRecord.id := len policies + 1;
                  PolicyRecord.fileName := Policy.filename f;
                  PolicyRecord.uploadedBy := User.id user;
                  PolicyRecord.uploadDate := timestamp;
                  PolicyRecord.description :=
                    Docs.or_empty description |}) /\
        Policy.download id on_disk l
        = if on_disk (Policy.filename f)
          then reply 200 (FileAt (Policy.filename f))
          else fail 404 "File not found").
Proof.
  split.
  - intros documents l Hids Hl Hid. revert Hl. unfold Docs.post.
    destruct (negb _); [discriminate|].
    destruct file as [f|]; [|discriminate].
    simpl. intros H. injection H as <-. exists f.
    repeat split. unfold Docs.download, push. rewrite Hid.
    rewrite (find_appended DocumentRecord.id) by (assumption || reflexivity).
    reflexivity.
  - intros policies l Hids Hl Hid. revert Hl. unfold Policy.post.
    destruct (negb _); [discriminate|].
    destruct file as [f|]; [|discriminate].
    simpl. intros H. injection H as <-. exists f.
    repeat split. unfold Policy.download, push. rewrite Hid.
    rewrite (find_appended PolicyRecord.id) by (assumption || reflexivity).
    reflexivity.
Qed.

(** ** marks.js: reading the marks of a student *)

Lemma same_number_Some (a : option Z) (n : Z) :
  Marks.same_number a (Some n) = true <-> a = Some n.
Proof.
  destruct a as [x|]; simpl.
  - rewrite Z.eqb_eq. split; [now intros ->|congruence].
  - split; discriminate.
Qed.

Lemma marks_get_allowed reader id n allMarks :
  parseInt (JStr id) = Some n ->
  may_grade reader \/ User.id reader = n ->
  Marks.get reader id allMarks
  = reply 200
      (MarkList
         (filter (fun m => Marks.same_number (MarkEntry.userId m) (Some n))
            allMarks)).
Proof.
  intros Hid Hreader. unfold Marks.get. rewrite Hid.
  replace (negb (String.eqb (User.userType reader) "Admin")
           && negb (String.eqb (User.userType reader) "Teacher")
           && negb (eq_parsed (User.id reader) (Some n)))
    with false; [reflexivity|].
  symmetry. destruct Hreader as [[Hrole|Hrole]|Hown].
  - rewrite Hrole. reflexivity.
  - rewrite Hrole. reflexivity.
  - simpl. rewrite (proj2 (Z.eqb_eq _ _) Hown). simpl.
    apply andb_false_r.
Qed.

(** X13.  After a request to POST /marks was written for a userId that
    [parseInt] reads as the number n (a number is read in its printed form
    and a string of digits is rounded to a double), GET /marks/:userId under
    a path that reads as n, by an Admin, a Teacher or the identity n itself,
    answers 200 with the records of the written collection whose userId is
    n, the record just written among them; any other identity is answered
    403 'Unauthorized to view these marks', whatever is stored. *)
Theorem marks_read_back user userId subject marks timestamp allMarks l
    reader id n :
  snd (Marks.post user userId subject marks timestamp allMarks) = Some l ->
  parseInt userId = Some n ->
  parseInt (JStr id) = Some n ->
  (may_grade reader \/ User.id reader = n ->
   exists s m entries,
     subject = JStr s /\ marks = JNum m /\
     Marks.get reader id l = reply 200 (MarkList entries) /\
     In (mark_entry user userId s m timestamp) entries /\
     forall e, In e entries <-> In e l /\ MarkEntry.userId e = Some n) /\
  (~ may_grade reader -> User.id reader <> n ->
   forall stored,
     Marks.get reader id stored
     = fail 403 "Unauthorized to view these marks").
Proof.
  intros Hl Huser Hid. split.
  - intros Hreader.
    destruct (Marks.post user userId subject marks timestamp allMarks)
      as [res written] eqn:Hpost.
    simpl in Hl. subst written.
    destruct (marks_post_written _ _ _ _ _ _ _ _ Hpost)
      as (m & s & -> & _ & -> & _ & _ & _ & _ & ->).
    exists s, m. eexists. split; [reflexivity|]. split; [reflexivity|].
    split; [exact (marks_get_allowed reader id n _ Hid Hreader)|].
    split.
    + apply filter_In. split; [apply upsert_In|].
      apply same_number_Some. exact Huser.
    + intros e. rewrite filter_In, same_number_Some. reflexivity.
  - intros Hrole Hown stored. unfold Marks.get. rewrite Hid.
    assert (Hadmin : String.eqb (User.userType reader) "Admin" = false).
    { apply String.eqb_neq. intros Heq. apply Hrole. left. exact Heq. }
    assert (Hteacher : String.eqb (User.userType reader) "Teacher" = false).
    { apply String.eqb_neq. intros Heq. apply Hrole. right. exact Heq. }
    rewrite Hadmin, Hteacher. simpl.
    rewrite (proj2 (Z.eqb_neq _ _) Hown). reflexivity.
Qed.

(** ** app.js: the routes behind an authenticate middleware *)

(** X14.  On each of the ten routes mounted behind an authenticate
    middleware, authentication comes before the role gate and before any
    validation: a request without a token is answered 401 'No token
    provided', a request whose token does not verify is answered 401
    'Invalid token', and, away from the attendance router, so is a request
    whose verified token carries the id of no stored identity.  In the three
    cases every collection stays as it was. *)
Theorem routes_need_a_token env request st :
  (bearer request = Some None ->
   App.handle env request st = (fail 401 "No token provided", st)) /\
  (forall token,
      bearer request = Some (Some token) ->
      Jwt.verify token (App.JWT_SECRET env) (App.now env) = None ->
      App.handle env request st = (fail 401 "Invalid token", st)) /\
  (forall token d,
      bearer request = Some (Some token) ->
      Jwt.verify token (App.JWT_SECRET env) (App.now env) = Some d ->
      find (fun u => User.id u =? Jwt.id (Jwt.claims d)) (App.users st)
      = None ->
      (forall userId attendance0,
          request <> App.AttendancePost (Some token) userId attendance0) ->
      (forall userId, request <> App.AttendanceGet (Some token) userId) ->
      App.handle env request st = (fail 401 "Invalid token", st)).
Proof.
  split; [|split].
  - destruct request; simpl; try discriminate;
      intros H; injection H as ->; reflexivity.
  - intros token0 Hbearer Hverify.
    destruct request; simpl in Hbearer; try discriminate;
      injection Hbearer as ->; simpl;
      unfold App.authenticated, Middleware.authenticate,
        Attendance.authenticate;
      rewrite Hverify; reflexivity.
  - intros token0 d Hbearer Hverify Hfind Hpost Hget.
    destruct request; simpl in Hbearer; try discriminate;
      injection Hbearer as ->;
      try (exfalso; eapply Hpost; reflexivity);
      try (exfalso; eapply Hget; reflexivity);
      simpl; unfold App.authenticated, Middleware.authenticate;
      rewrite Hverify, Hfind; reflexivity.
Qed.

(** ** app.js: which collection a request can change *)

(** X15.  A request changes at most the collection of its own router: the
    users collection changes only under a signup, the attendance collection
    only under POST /attendance, the routines collection only under POST,
    PUT or DELETE /routines, the documents, policies and marks collections
    only under POST /documents, POST /policies and POST /marks; the signin
    and the eight GET routes leave all six as they were. *)
Theorem handle_frame env request st :
  (reads_only request = true -> snd (App.handle env request st) = st) /\
  (App.users (snd (App.handle env request st)) <> App.users st ->
   exists req, request = App.AuthSignup req) /\
  (App.attendance (snd (App.handle env request st)) <> App.attendance st ->
   exists token userId attendance0,
     request = App.AttendancePost token userId attendance0) /\
  (App.routines (snd (App.handle env request st)) <> App.routines st ->
   (exists token req, request = App.RoutinesPost token req) \/
   (exists token id req, request = App.RoutinesPut token id req) \/
   (exists token id, request = App.RoutinesDelete token id)) /\
  (App.documents (snd (App.handle env request st)) <> App.documents st ->
   exists token description file,
     request = App.DocumentsPost token description file) /\
  (App.policies (snd (App.handle env request st)) <> App.policies st ->
   exists token description file,
     request = App.PoliciesPost token description file) /\
  (App.marks (snd (App.handle env request st)) <> App.marks st ->
   exists token userId subject marks0,
     request = App.MarksPost token userId subject marks0).
Proof.
  split.
  { destruct request; simpl; try discriminate; intros _; route;
      reflexivity. }
  repeat split; intros Hchanged;
    destruct request; simpl in Hchanged;
    try (now eauto 6);
    exfalso; apply Hchanged; route; reflexivity.
Qed.

(** ** The collections over a run of the server *)

Lemma persisted_appends {A : Type} (before : list A) (out : Outcome A) :
  (forall l, snd out = Some l -> exists r, l = before ++ [r]) ->
  exists added, App.persisted before out = before ++ added.
Proof.
  intros Hwritten. unfold App.persisted.
  destruct (snd out) as [l|].
  - destruct (Hwritten l eq_refl) as [r ->]. exists [r]. reflexivity.
  - exists []. symmetry. apply app_nil_r.
Qed.

Lemma appends_refl {A : Type} (l : list A) : exists added, l = l ++ added.
Proof.
  exists []. symmetry. apply app_nil_r.
Qed.

Lemma handle_appends env request st :
  (exists added,
      App.users (snd (App.handle env request st)) = App.users st ++ added) /\
  (exists added,
      App.documents (snd (App.handle env request st))
      = App.documents st ++ added) /\
  (exists added,
      App.policies (snd (App.handle env request st))
      = App.policies st ++ added).
Proof.
  split; [|split].
  - rewrite handle_users. destruct request; try apply appends_refl.
    apply persisted_appends. intros l Hl.
    destruct (signup_appends _ _ _ _ _ _ Hl) as (u & -> & _). now exists u.
  - destruct request; simpl; route; simpl; try apply appends_refl.
    apply persisted_appends. intros l Hl.
    destruct (docs_post_written _ _ _ _ _ _ Hl) as (d & -> & _).
    now exists d.
  - destruct request; simpl; route; simpl; try apply appends_refl.
    apply persisted_appends. intros l Hl.
    destruct (policy_post_written _ _ _ _ _ _ Hl) as (p & -> & _).
    now exists p.
Qed.

Lemma handle_never_shrinks env request st :
  (List.length (App.attendance st)
   <= List.length (App.attendance (snd (App.handle env request st))))%nat /\
  (List.length (App.marks st)
   <= List.length (App.marks (snd (App.handle env request st))))%nat.
Proof.
  split.
  - destruct request; simpl; route; simpl; try apply Nat.le_refl.
    unfold App.persisted.
    destruct (snd (Attendance.post _ _ _ _ _)) as [l|] eqn:Hl;
      [|apply Nat.le_refl].
    destruct (attendance_post_written _ _ _ _ _ _ Hl)
      as [(before & old & after & -> & -> & _)|(r & -> & _)];
      rewrite !length_app; simpl; lia.
  - destruct request; simpl; route; simpl; try apply Nat.le_refl.
    unfold App.persisted.
    destruct (Marks.post _ _ _ _ _ _) as [res [l|]] eqn:Hpost; simpl;
      [|apply Nat.le_refl].
    destruct (marks_post_written _ _ _ _ _ _ _ _ Hpost)
      as (m & s & _ & _ & _ & _ & _ & _ & _ & ->).
    match goal with
    | |- context [upsert ?entry ?l] =>
        destruct (upsert_cases entry l)
          as [(before & old & after & Heq & _ & _ & ->)|[_ ->]]
    end; [rewrite Heq|]; rewrite !length_app; simpl; lia.
Qed.

(** X16.  Over any run of the server, the users, the documents and the
    policies collections are append-only: what was stored before the run is
    still there afterwards, unchanged and at the same positions, followed by
    what the run added.  The attendance and the marks collections never get
    shorter.  (The routines collection does, under DELETE.) *)
Theorem run_append_only requests st :
  (exists added,
      App.users (App.run requests st) = App.users st ++ added) /\
  (exists added,
      App.documents (App.run requests st) = App.documents st ++ added) /\
  (exists added,
      App.policies (App.run requests st) = App.policies st ++ added) /\
  (List.length (App.attendance st)
   <= List.length (App.attendance (App.run requests st)))%nat /\
  (List.length (App.marks st)
   <= List.length (App.marks (App.run requests st)))%nat.
Proof.
  revert st. induction requests as [|[env request] rest IH]; intros st.
  - simpl. repeat split; try apply appends_refl; apply Nat.le_refl.
  - simpl.
    destruct (IH (snd (App.handle env request st)))
      as ([us Hus] & [ds Hds] & [ps Hps] & Hattendance & Hmarks).
    destruct (handle_appends env request st)
      as ([us0 Hus0] & [ds0 Hds0] & [ps0 Hps0]).
    destruct (handle_never_shrinks env request st) as [Ha0 Hm0].
    split; [|split; [|split; [|split]]].
    + exists (us0 ++ us). rewrite Hus, Hus0. symmetry. apply app_assoc.
    + exists (ds0 ++ ds). rewrite Hds, Hds0. symmetry. apply app_assoc.
    + exists (ps0 ++ ps). rewrite Hps, Hps0. symmetry. apply app_assoc.
    + eapply Nat.le_trans; eassumption.
    + eapply Nat.le_trans; eassumption.
Qed.

(** ** marks.js: the grade follows the marks *)

Lemma Qle_bool_false (x y : Q) : Qle_bool x y = false -> (y < x)%Q.
Proof.
  intros H. apply Qnot_le_lt. intros Hle.
  apply Qle_bool_iff in Hle. congruence.
Qed.

(** X17.  [calculateGrade] is monotone: more marks never give a lower
    grade, in the order F, D, C, B, A; and it gives one of these five
    letters on every number, also outside 0..100. *)
Theorem calculateGrade_monotone (m1 m2 : Q) :
  (m1 <= m2)%Q ->
  (rank (Marks.calculateGrade m1) <= rank (Marks.calculateGrade m2))%nat /\
  In (Marks.calculateGrade m1) ["A"; "B"; "C"; "D"; "F"].
Proof.
  intros Hle. unfold Marks.calculateGrade. split.
  - destruct (Qle_bool 90 m1) eqn:Ha1; destruct (Qle_bool 80 m1) eqn:Hb1;
      destruct (Qle_bool 70 m1) eqn:Hc1; destruct (Qle_bool 60 m1) eqn:Hd1;
      destruct (Qle_bool 90 m2) eqn:Ha2; destruct (Qle_bool 80 m2) eqn:Hb2;
      destruct (Qle_bool 70 m2) eqn:Hc2; destruct (Qle_bool 60 m2) eqn:Hd2;
      try (cbv; lia);
      exfalso;
      repeat match goal with
        | H : Qle_bool _ _ = true |- _ => apply Qle_bool_iff in H
        | H : Qle_bool _ _ = false |- _ => apply Qle_bool_false in H
        end;
      lra.
  - destruct (Qle_bool 90 m1); [simpl; tauto|].
    destruct (Qle_bool 80 m1); [simpl; tauto|].
    destruct (Qle_bool 70 m1); [simpl; tauto|].
    destruct (Qle_bool 60 m1); simpl; tauto.
Qed.

(** ** policy.js: the stored names of the policies *)

Lemma policy_route_written user description file accepted timestamp
    policies l :
  Policy.upload file = inr accepted ->
  snd (Policy.post user description accepted timestamp policies) = Some l ->
  exists p, l = policies ++ [p] /\ policy_name (PolicyRecord.fileName p).
Proof.
  unfold Policy.upload, Policy.post. intros Hupload.
  destruct (negb _); [discriminate|].
  destruct accepted as [f|]; [|discriminate].
  simpl. intros Hl. injection Hl as <-.
  eexists. split; [reflexivity|]. simpl.
  destruct file as [f0|]; [|discriminate].
  destruct (Policy.fileFilter f0) eqn:Hfilter; [|discriminate].
  injection Hupload as ->. unfold Policy.fileFilter in Hfilter.
  exists (uuid f). unfold Policy.filename.
  apply orb_true_iff in Hfilter. destruct Hfilter as [Hext|Hext];
    apply String.eqb_eq in Hext; rewrite Hext; [left|right]; reflexivity.
Qed.

Lemma handle_policy_names env request st :
  (forall p, In p (App.policies st) ->
             policy_name (PolicyRecord.fileName p)) ->
  forall p, In p (App.policies (snd (App.handle env request st))) ->
            policy_name (PolicyRecord.fileName p).
Proof.
  intros Hst.
  destruct request; simpl; try exact Hst;
    try (lazymatch goal with
         | |- context [Policy.upload _] => fail
         | _ => route; exact Hst
         end).
  unfold App.authenticated.
  destruct (Middleware.authenticate _ _ _ _) as [denied|user];
    [exact Hst|].
  destruct (Policy.upload file) as [refused|accepted] eqn:Hupload;
    [exact Hst|].
  simpl. unfold App.persisted.
  destruct (snd (Policy.post _ _ _ _ _)) as [l|] eqn:Hl; [|exact Hst].
  destruct (policy_route_written _ _ _ _ _ _ _ Hupload Hl)
    as (p0 & -> & Hname).
  intros p Hin. apply in_app_or in Hin.
  destruct Hin as [Hin|[<-|[]]]; [now apply Hst|exact Hname].
Qed.

(** X18.  Over any run of the server, every policy added to the policies
    collection is stored under a name that ends in '.pdf' or '.docx', in
    lower case, whatever the case of the extension sent: the file filter
    lets no other upload reach the handler. *)
Theorem policies_are_pdf_or_docx requests st :
  (forall p, In p (App.policies st) ->
             policy_name (PolicyRecord.fileName p)) ->
  forall p, In p (App.policies (App.run requests st)) ->
            policy_name (PolicyRecord.fileName p).
Proof.
  apply (run_invariant
           (fun st => forall p, In p (App.policies st) ->
                                policy_name (PolicyRecord.fileName p))).
  intros env request st0. apply handle_policy_names.
Qed.

(** ** The identities the stored records name *)

Lemma authenticate_stored secret now token users user :
  Middleware.authenticate secret now token users = inr user ->
  In user users.
Proof.
  unfold Middleware.authenticate.
  destruct token as [token|]; [|discriminate].
  destruct (Jwt.verify token secret now) as [d|]; [|discriminate].
  destruct (find _ users) as [u|] eqn:Hfind; [|discriminate].
  intros H. injection H as <-. apply find_some in Hfind. tauto.
Qed.

Lemma stored_as_app roles id users added :
  stored_as roles id users -> stored_as roles id (users ++ added).
Proof.
  intros (u & Hin & Hid & Hrole). exists u.
  split; [apply in_or_app; now left|]. now split.
Qed.

Lemma refers_to_teacher_app teacherId users added :
  refers_to_teacher teacherId users ->
  refers_to_teacher teacherId (users ++ added).
Proof.
  intros (u & Hin & Hid & Hrole). exists u.
  split; [apply in_or_app; now left|]. now split.
Qed.

Lemma attendance_target_app r users added :
  attendance_target r users -> attendance_target r (users ++ added).
Proof.
  intros (u & Hin & Hrest). exists u.
  split; [apply in_or_app; now left|exact Hrest].
Qed.

Lemma persisted_all {A : Type} (P : A -> Prop) before (out : Outcome A) :
  (forall x, In x before -> P x) ->
  (forall l, snd out = Some l -> forall x, In x l -> In x before \/ P x) ->
  forall x, In x (App.persisted before out) -> P x.
Proof.
  intros Hbefore Hwritten x. unfold App.persisted.
  destruct (snd out) as [l|]; [|apply Hbefore].
  intros Hin. destruct (Hwritten l eq_refl x Hin); auto.
Qed.

Lemma In_assign {A : Type} (i : nat) (y : A) (l : list A) (x : A) :
  In x (assign i y l) -> x = y \/ In x l.
Proof.
  revert i. induction l as [|z l IH]; intros [|i]; simpl; try tauto.
  - intros [<-|Hin]; auto.
  - intros [<-|Hin]; auto. destruct (IH i Hin); auto.
Qed.

Lemma In_splice {A : Type} (i : nat) (l : list A) (x : A) :
  In x (splice i l) -> In x l.
Proof.
  revert i. induction l as [|z l IH]; intros [|i]; simpl; try tauto.
  intros [<-|Hin]; eauto.
Qed.

Lemma docs_post_elements user description file timestamp documents l :
  snd (Docs.post user description file timestamp documents) = Some l ->
  forall x, In x l ->
    In x documents \/
    (DocumentRecord.uploadedBy x = User.id user /\
     User.userType user = "Teacher").
Proof.
  unfold Docs.post.
  destruct (negb _) eqn:Hrole; [discriminate|]. apply is_role in Hrole.
  destruct file as [f|]; [|discriminate].
  simpl. intros Hl. injection Hl as <-. intros x Hin.
  apply in_app_or in Hin. destruct Hin as [Hin|[<-|[]]]; auto.
Qed.

Lemma policy_post_elements user description file timestamp policies l :
  snd (Policy.post user description file timestamp policies) = Some l ->
  forall x, In x l ->
    In x policies \/
    (PolicyRecord.uploadedBy x = User.id user /\
     User.userType user = "Admin").
Proof.
  unfold Policy.post.
  destruct (negb _) eqn:Hrole; [discriminate|]. apply is_role in Hrole.
  destruct file as [f|]; [|discriminate].
  simpl. intros Hl. injection Hl as <-. intros x Hin.
  apply in_app_or in Hin. destruct Hin as [Hin|[<-|[]]]; auto.
Qed.

Lemma marks_post_elements user userId subject marks timestamp allMarks l :
  snd (Marks.post user userId subject marks timestamp allMarks) = Some l ->
  forall x, In x l ->
    In x allMarks \/ (MarkEntry.updatedBy x = User.id user /\ may_grade user).
Proof.
  intros Hl.
  destruct (Marks.post user userId subject marks timestamp allMarks)
    as [res written] eqn:Hpost.
  simpl in Hl. subst written.
  destruct (marks_post_written _ _ _ _ _ _ _ _ Hpost)
    as (m & s & _ & _ & _ & _ & _ & Hrole & _ & ->).
  intros x Hin. unfold upsert in Hin.
  destruct (findIndex _ allMarks) as [index|].
  - apply In_assign in Hin. destruct Hin as [->|Hin]; auto.
  - apply in_app_or in Hin. destruct Hin as [Hin|[<-|[]]]; auto.
Qed.

Lemma routine_post_elements user req users routines l :
  snd (Routine.post user req users routines) = Some l ->
  forall x, In x l ->
    In x routines \/ refers_to_teacher (RoutineRecord.teacherId x) users.
Proof.
  unfold Routine.post.
  destruct (negb _); [discriminate|].
  destruct (Routine.incomplete req); [discriminate|].
  destruct (find _ users) as [u|] eqn:Hfind; [|discriminate].
  simpl. intros Hl. injection Hl as <-. intros x Hin.
  apply in_app_or in Hin. destruct Hin as [Hin|[<-|[]]]; auto.
  right. exact (find_is_teacher_Some _ _ _ Hfind).
Qed.

Lemma routine_put_elements user id req users routines l :
  snd (Routine.put user id req users routines) = Some l ->
  forall x, In x l ->
    In x routines \/ refers_to_teacher (RoutineRecord.teacherId x) users.
Proof.
  unfold Routine.put.
  destruct (negb _); [discriminate|].
  destruct (Routine.incomplete req); [discriminate|].
  destruct (find _ users) as [u|] eqn:Hfind; [|discriminate].
  destruct (parseInt (JStr id)) as [n|]; [|discriminate].
  destruct (findIndex _ routines) as [index|]; [|discriminate].
  simpl. intros Hl. injection Hl as <-. intros x Hin.
  apply In_assign in Hin. destruct Hin as [->|Hin]; auto.
  right. exact (find_is_teacher_Some _ _ _ Hfind).
Qed.

Lemma routine_delete_elements user id routines l :
  snd (Routine.delete user id routines) = Some l ->
  forall x, In x l -> In x routines.
Proof.
  unfold Routine.delete.
  destruct (negb _); [discriminate|].
  destruct (findIndex _ routines) as [index|]; [|discriminate].
  simpl. intros Hl. injection Hl as <-. intros x. apply In_splice.
Qed.

Lemma attendance_post_elements who userId attendance0 users records l :
  (forall r, In r records -> attendance_target r users) ->
  snd (Attendance.post who userId attendance0 users records) = Some l ->
  forall x, In x l -> attendance_target x users.
Proof.
  intros Hrecords. unfold Attendance.post.
  destruct (_ && _); [discriminate|].
  destruct (_ || _); [discriminate|].
  destruct (existsb _ _); [discriminate|].
  destruct (find _ users) as [target|] eqn:Hfind; [|discriminate].
  destruct (negb (String.eqb (User.userType target) "Teacher")
            && negb (String.eqb (User.userType target) "Student"))
    eqn:Hrole; [discriminate|].
  simpl. intros Hl. injection Hl as <-.
  destruct (update_first _ _ records) as [updated|] eqn:Hupdate.
  - destruct (update_first_Some _ _ _ _ Hupdate)
      as (before & old & after & -> & -> & _ & _).
    intros x Hin. apply in_app_or in Hin.
    destruct Hin as [Hin|[<-|Hin]].
    + apply Hrecords, in_or_app. now left.
    + destruct (Hrecords old) as (u & Hu); [apply in_or_app; simpl; auto|].
      exists u. exact Hu.
    + apply Hrecords, in_or_app. simpl. auto.
  - intros x Hin. apply in_app_or in Hin.
    destruct Hin as [Hin|[<-|[]]]; [now apply Hrecords|].
    apply find_some in Hfind. destruct Hfind as [Hin Hid].
    exists target. simpl. repeat split; try assumption.
    apply andb_false_iff in Hrole.
    destruct Hrole as [Hrole|Hrole]; apply is_role in Hrole;
      rewrite Hrole; simpl; auto.
Qed.

Lemma handle_keeps_references env request st :
  references_kept st -> references_kept (snd (App.handle env request st)).
Proof.
  intros (Hd & Hp & Hm & Hr & Ha).
  destruct request; simpl; unfold App.authenticated;
    try (destruct (Middleware.authenticate _ _ _ (App.users st))
           as [denied|user] eqn:Hauth);
    try (destruct (Attendance.authenticate _ _ _) as [denied|who]);
    try match goal with
      | |- context [Policy.upload ?f] =>
          destruct (Policy.upload f) as [refused|accepted]
      end;
    simpl; try (repeat split; assumption).
  - (* signup *)
    destruct (persisted_appends (App.users st)
                (Accounts.signup (App.JWT_SECRET env) (App.now env)
                   (App.salt env) req (App.users st)))
      as [added ->].
    { intros l Hl. destruct (signup_appends _ _ _ _ _ _ Hl) as (u & -> & _).
      now exists u. }
    repeat split; intros x Hin.
    + now apply stored_as_app, Hd.
    + now apply stored_as_app, Hp.
    + now apply stored_as_app, Hm.
    + now apply refers_to_teacher_app, Hr.
    + now apply attendance_target_app, Ha.
  - (* POST /attendance *)
    repeat split; try assumption. unfold App.persisted.
    destruct (snd (Attendance.post _ _ _ _ _)) as [l|] eqn:Hl;
      [|assumption].
    exact (attendance_post_elements _ _ _ _ _ _ Ha Hl).
  - (* POST /routines *)
    repeat split; try assumption.
    apply persisted_all; [assumption|apply routine_post_elements].
  - (* PUT /routines/:id *)
    repeat split; try assumption.
    apply persisted_all; [assumption|apply routine_put_elements].
  - (* DELETE /routines/:id *)
    repeat split; try assumption.
    apply persisted_all; [assumption|].
    intros l Hl x Hin. left.
    exact (routine_delete_elements _ _ _ _ Hl x Hin).
  - (* POST /documents *)
    repeat split; try assumption.
    apply persisted_all; [assumption|].
    intros l Hl x Hin.
    destruct (docs_post_elements _ _ _ _ _ _ Hl x Hin) as [|[Hby Hrole]];
      [now left|right].
    exists user. split; [exact (authenticate_stored _ _ _ _ _ Hauth)|].
    split; [now symmetry|]. rewrite Hrole. simpl. auto.
  - (* POST /policies *)
    repeat split; try assumption.
    apply persisted_all; [assumption|].
    intros l Hl x Hin.
    destruct (policy_post_elements _ _ _ _ _ _ Hl x Hin) as [|[Hby Hrole]];
      [now left|right].
    exists user. split; [exact (authenticate_stored _ _ _ _ _ Hauth)|].
    split; [now symmetry|]. rewrite Hrole. simpl. auto.
  - (* POST /marks *)
    repeat split; try assumption.
    apply persisted_all; [assumption|].
    intros l Hl x Hin.
    destruct (marks_post_elements _ _ _ _ _ _ _ Hl x Hin) as [|[Hby Hrole]];
      [now left|right].
    exists user. split; [exact (authenticate_stored _ _ _ _ _ Hauth)|].
    split; [now symmetry|].
    destruct Hrole as [Hrole|Hrole]; rewrite Hrole; simpl; auto.
Qed.

(** X19.  Over any run of the server, every stored record names a stored
    identity of the role its route asks for: each document was uploaded by
    a stored Teacher and each policy by a stored Admin, each mark was last
    written by a stored Admin or Teacher, each routine names a stored
    Teacher, and each attendance record carries the id, the email and the
    role of a stored Teacher or Student. *)
Theorem run_keeps_references requests st :
  references_kept st -> references_kept (App.run requests st).
Proof.
  apply (run_invariant references_kept).
  intros env request st0. apply handle_keeps_references.
Qed.

(** ** The invariants of the marks and attendance collections over a run *)

Lemma marks_post_valid user userId subject marks timestamp allMarks l :
  snd (Marks.post user userId subject marks timestamp allMarks) = Some l ->
  forall x, In x l ->
    In x allMarks \/
    ((0 <= MarkEntry.marks x <= 100)%Q /\
     MarkEntry.grade x = Marks.calculateGrade (MarkEntry.marks x) /\
     valid_subject (MarkEntry.subject x)).
Proof.
  intros Hl.
  destruct (Marks.post user userId subject marks timestamp allMarks)
    as [res written] eqn:Hpost.
  simpl in Hl. subst written.
  destruct (marks_post_written _ _ _ _ _ _ _ _ Hpost)
    as (m & s & _ & Hrange & _ & Hsubject & _ & _ & _ & ->).
  assert (Hentry :
            (0 <= MarkEntry.marks (mark_entry user userId s m timestamp)
             <= 100)%Q /\
            MarkEntry.grade (mark_entry user userId s m timestamp)
            = Marks.calculateGrade
                (MarkEntry.marks (mark_entry user userId s m timestamp)) /\
            valid_subject
              (MarkEntry.subject (mark_entry user userId s m timestamp))).
  { simpl. split; [exact Hrange|]. split; [reflexivity|]. now exists s. }
  intros x Hin. unfold upsert in Hin.
  destruct (findIndex _ allMarks) as [index|].
  - apply In_assign in Hin. destruct Hin as [->|Hin]; auto.
  - apply in_app_or in Hin. destruct Hin as [Hin|[<-|[]]]; auto.
Qed.

Lemma attendance_post_valid who userId attendance0 users records l :
  (forall r, In r records ->
             days_with_booleans (AttendanceRecord.attendance r)) ->
  snd (Attendance.post who userId attendance0 users records) = Some l ->
  forall x, In x l -> days_with_booleans (AttendanceRecord.attendance x).
Proof.
  intros Hrecords Hl.
  destruct (attendance_post_success _ _ _ _ _ _ Hl)
    as (target & _ & _ & _ & _ & Hdays & _ & ->).
  destruct (update_first _ _ records) as [updated|] eqn:Hupdate.
  - destruct (update_first_Some _ _ _ _ Hupdate)
      as (before & old & after & -> & -> & _ & _).
    intros x Hin. apply in_app_or in Hin.
    destruct Hin as [Hin|[<-|Hin]].
    + apply Hrecords, in_or_app. now left.
    + exact Hdays.
    + apply Hrecords, in_or_app. simpl. auto.
  - intros x Hin. apply in_app_or in Hin.
    destruct Hin as [Hin|[<-|[]]]; [now apply Hrecords|exact Hdays].
Qed.

Lemma handle_keeps_records_valid env request st :
  records_valid st -> records_valid (snd (App.handle env request st)).
Proof.
  intros (Hpairs & Husers & Hmarks & Hdays).
  assert (Hst : records_valid st)
    by (repeat (split; [assumption|]); assumption).
  destruct request; simpl; route; simpl; try exact Hst.
  - (* POST /attendance *)
    unfold App.persisted.
    destruct (snd (Attendance.post _ _ _ _ _)) as [l|] eqn:Hl;
      [|exact Hst].
    destruct (attendance_upsert _ _ _ _ _ _ Husers Hl)
      as (target & r & _ & _ & _ & Hone & _).
    split; [assumption|]. split; [exact Hone|]. split; [assumption|].
    exact (attendance_post_valid _ _ _ _ _ _ Hdays Hl).
  - (* POST /marks *)
    unfold App.persisted.
    destruct (Marks.post _ _ _ _ _ _) as [res [l|]] eqn:Hpost; simpl;
      [|exact Hst].
    split; [exact (marks_post_keeps_pairs _ _ _ _ _ _ _ _ Hpairs Hpost)|].
    split; [assumption|]. split; [|assumption].
    intros x Hin.
    match type of Hpost with
    | ?written = _ =>
        assert (Hl : snd written = Some l) by now rewrite Hpost
    end.
    destruct (marks_post_valid _ _ _ _ _ _ _ Hl x Hin); auto.
Qed.

(** X20.  Over any run of the server the marks and the attendance
    collections keep their invariants: at most one mark per pair of a
    number and a subject (the marks stored with the userId [null], which a
    userId that reads as no number leaves, belong to no pair and are not
    counted) and one attendance record per identity; every stored mark lies
    within 0..100, carries the grade of its marks and a subject among Math,
    Science and English; every stored attendance object has only days of
    the week as keys and booleans as values. *)
Theorem run_keeps_records_valid requests st :
  records_valid st -> records_valid (App.run requests st).
Proof.
  apply (run_invariant records_valid).
  intros env request st0. apply handle_keeps_records_valid.
Qed.

(** ** policy.js: the order of the middlewares of POST /policies *)

(** X21.  For an authenticated caller of POST /policies the file filter
    comes before the role gate: a file whose extension is, in lower case,
    neither '.pdf' nor '.docx' is answered 400 'Only PDF and DOCX files are
    allowed' whatever the role of the caller; with any other request a
    caller who is not an Admin is answered 403, an Admin without a file 400
    'No file uploaded', and an Admin with a file 201 and the record that is
    appended to the policies collection.  Only the last case changes the
    store. *)
Theorem policies_post_route env token description file st user :
  Middleware.authenticate (App.JWT_SECRET env) (App.now env) token
    (App.users st) = inr user ->
  let served := App.handle env (App.PoliciesPost token description file) st in
  match file with
  | Some f =>
      if Policy.fileFilter f
      then
        if String.eqb (User.userType user) "Admin"
        then
          exists p,
            p = {| PolicyRecord.id := len (App.policies st) + 1;
                   PolicyRecord.fileName :=
                     String.append (uuid f) (toLowerCase (extname f));
                   PolicyRecord.uploadedBy := User.id user;
                   PolicyRecord.uploadDate := App.timestamp env;
                   PolicyRecord.description := Docs.or_empty description |}
            /\
            served
            = (reply 201 (APolicy p),
               App.set_policies st (App.policies st ++ [p]))
        else served = (fail 403 "Only Admins can upload policies", st)
      else served = (fail 400 "Only PDF and DOCX files are allowed", st)
  | None =>
      if String.eqb (User.userType user) "Admin"
      then served = (fail 400 "No file uploaded", st)
      else served = (fail 403 "Only Admins can upload policies", st)
  end.
Proof.
  intros Hauth served. subst served. simpl.
  unfold App.authenticated. rewrite Hauth.
  destruct (store_eta st) as (_ & _ & _ & _ & Hpolicies & _).
  destruct file as [f|]; simpl.
  - destruct (Policy.fileFilter f); [|reflexivity].
    unfold Policy.post.
    destruct (String.eqb (User.userType user) "Admin"); simpl.
    + eexists. split; reflexivity.
    + unfold App.persisted. simpl. now rewrite Hpolicies.
  - unfold Policy.post.
    destruct (String.eqb (User.userType user) "Admin"); simpl;
      unfold App.persisted; simpl; now rewrite Hpolicies.
Qed.

End Properties.

(** * The properties at sample requests *)

(** The strings of the sample requests are made of characters of Basic
    Latin and of the Latin-1 Supplement: they are evaluated with the case
    mapping of these two blocks. *)
#[local] Existing Instance latin1_mapping.

(** ** The sample store *)

Example sample_store_users : App.users Sample.store = Sample.users.
Proof. reflexivity. Qed.

Example sample_tokens :
  fst (App.handle (fst (Sample.signs_up "s3" "student@example.com" "Student"
                          (Some "A")))
         (snd (Sample.signs_up "s3" "student@example.com" "Student"
                 (Some "A")))
         (App.set_users App.empty [Sample.admin; Sample.teacher]))
  = reply 201 (TokenOf (Sample.token Sample.student)) /\
  Jwt.verify (Sample.token Sample.student) "secret" 100
  = Some (Sample.decoded Sample.student).
Proof. split; reflexivity. Qed.

(** ** The properties of the handlers *)





(** C10 at a teacherId that is the id of a Student. *)
Lemma routine_teacher_checked_witness :
  let req :=
    {| Routine.section := JStr "A"; Routine.day := JStr "Monday";
       Routine.time := JStr "10:00"; Routine.subject := JStr "Math";
       Routine.teacherId := num 3 |} in
  fst (Routine.post Sample.admin req Sample.users [])
  = fail 400 "Invalid teacherId" /\
  fst (Routine.put Sample.admin "1" req Sample.users [])
  = fail 400 "Invalid teacherId".
Proof.
  intros req.
  destruct (routine_teacher_checked Sample.admin "1" req Sample.users [])
    as [Hbad _].
  apply Hbad.
  - intros (u & Hin & Hid & Hrole). simpl in Hin.
    destruct Hin as [<-|[<-|[<-|[]]]]; discriminate.
  - reflexivity.
  - reflexivity.
Defined.

(** C4 at two signups whose email differs from a stored one by case only:
    in ASCII letters from the email of the sample Student, and in an
    accented letter from the email of an identity stored as 'É@x.com'. *)
Lemma signup_emails_unique_witness :
  let taken := fail 400 "User already exists" in
  let first :=
    Accounts.signup "secret" 0 "salt"
      {| Accounts.email := Some "Student@Example.com";
         Accounts.password := Some "password456";
         Accounts.userType := Some "Teacher";
         Accounts.section := None |}
      Sample.users in
  let second :=
    Accounts.signup "secret" 0 "salt"
      {| Accounts.email := Some "é@x.com";
         Accounts.password := Some "password456";
         Accounts.userType := Some "Teacher";
         Accounts.section := None |}
      [{| User.id := 1; User.email := "É@x.com";
          User.password := bcrypt_hash "s1" "password123";
          User.userType := "Admin"; User.section := None |}] in
  (snd first = None /\ fst first = taken) /\
  (snd second = None /\ fst second = taken).
Proof.
  intros taken first second.
  destruct (signup_emails_unique (mapping := latin1_mapping))
    as (_ & _ & Hfolded & Hascii).
  split.
  - destruct (Hascii "secret" 0 "salt"
                {| Accounts.email := Some "Student@Example.com";
                   Accounts.password := Some "password456";
                   Accounts.userType := Some "Teacher";
                   Accounts.section := None |}
                Sample.users Sample.student)
      as (Hnone & _ & Hmessage);
      [simpl; tauto|reflexivity|reflexivity|reflexivity|].
    split; [exact Hnone|]. apply Hmessage.
    repeat split; try discriminate. simpl. auto.
  - destruct (Hfolded "secret" 0 "salt"
                {| Accounts.email := Some "é@x.com";
                   Accounts.password := Some "password456";
                   Accounts.userType := Some "Teacher";
                   Accounts.section := None |}
                [{| User.id := 1; User.email := "É@x.com";
                    User.password := bcrypt_hash "s1" "password123";
                    User.userType := "Admin"; User.section := None |}])
      as (Hnone & _ & Hmessage); [left; reflexivity|].
    split; [exact Hnone|]. apply Hmessage.
    repeat split; try discriminate. simpl. auto.
Defined.

(** C7 at a routine creation by a Student. *)
Lemma failed_requests_write_nothing_witness :
  snd (App.handle Sample.env
         (App.RoutinesPost (Some (Sample.token Sample.student))
            (Sample.routine "A" 2))
         Sample.store)
  = Sample.store.
Proof.
  apply (proj1 (failed_requests_write_nothing (mapping := latin1_mapping))).
  right. right. left. reflexivity.
Defined.

(** C1 at a Student who creates a routine, and who reads the marks kept
    under the Student's own id, 3, written in the path after a no-break
    space (U+00A0, the bytes 194 and 160): of the two marks stored, the
    answer holds the one of the Student. *)
Lemma authorization_matrix_witness :
  let path := String (ascii_of_nat 194) (String (ascii_of_nat 160) "3") in
  let stored :=
    [mark_entry Sample.teacher (num 2) "Math" 70 Sample.stamp;
     mark_entry Sample.teacher (num 3) "Math" 85 Sample.stamp] in
  Routine.post Sample.student (Sample.routine "A" 2) Sample.users []
  = stop (fail 403 "Only Admins can create routines") /\
  Marks.get Sample.student path stored
  = reply 200
      (MarkList [mark_entry Sample.teacher (num 3) "Math" 85 Sample.stamp]).
Proof.
  intros path stored.
  destruct (authorization_matrix (mapping := latin1_mapping)
              Table.Student Sample.student
              (Sample.decoded Sample.student) eq_refl eq_refl)
    as (_ & _ & _ & _ & _ & _ & _ & Hstudent & _ & _ & _ & _ & _ & _
        & Hmarks & _).
  split; [now apply Hstudent|].
  exact (Hmarks path stored 3 eq_refl (or_intror eq_refl)).
Defined.

(** C6 at the token of a stored Student. *)
Lemma token_verification_witness :
  Middleware.authenticate "secret" 100 (Some (Sample.token Sample.student))
    Sample.users
  = inr Sample.student.
Proof.
  apply (proj1 (proj2 (proj2 token_verification))).
  exists (Sample.decoded Sample.student). split; reflexivity.
Defined.

(** C6 as stated fails on the shared middleware: a token signed under the
    configured secret and not yet expired is refused when the users
    collection holds no identity with its id, so the answer depends on the
    stored users; and on success the request carries the stored identity,
    whose role need not be the one the token claims. *)
Lemma authenticate_reads_users :
  let token := Sample.token Sample.student in
  let stale :=
    Jwt.sign
      {| Jwt.id := 3; Jwt.email := "old@example.com";
         Jwt.userType := "Admin"; Jwt.section := None |} "secret" 0 in
  Jwt.verify token "secret" 100 = Some (Sample.decoded Sample.student) /\
  Middleware.authenticate "secret" 100 (Some token) []
  = inl (fail 401 "Invalid token") /\
  Middleware.authenticate "secret" 100 (Some token) Sample.users
  = inr Sample.student /\
  Middleware.authenticate "secret" 100 (Some stale) Sample.users
  = inr Sample.student /\
  User.userType Sample.student = "Student".
Proof.
  repeat split.
Qed.

(** C9 at the signin of the stored Student. *)
Lemma signin_token_has_no_section_witness :
  exists user,
    In user Sample.users /\
    Jwt.sign
      {| Jwt.id := 3; Jwt.email := "student@example.com";
         Jwt.userType := "Student"; Jwt.section := None |} "secret" 10
    = Jwt.Signed
        {| Jwt.claims :=
             {| Jwt.id := User.id user;
                Jwt.email := User.email user;
                Jwt.userType := User.userType user;
                Jwt.section := None |};
           Jwt.iat := 10; Jwt.exp := 10 + 3600 |} "secret".
Proof.
  apply (proj1 (proj2
                  (signin_token_has_no_section (mapping := latin1_mapping)))
           "secret" 10
           {| Accounts.email := Some "Student@Example.com";
              Accounts.password := Some "password123";
              Accounts.userType := None;
              Accounts.section := None |}
           Sample.users 200).
  reflexivity.
Defined.

(** C5 at a run in which a Student asks for the deletion of routine 1 and
    is refused: the two routines of the run have the ids 1 and 2. *)
Lemma identifiers_by_length_witness :
  let admin := Some (Sample.token Sample.admin) in
  let student := Some (Sample.token Sample.student) in
  let requests :=
    [Sample.signs_up "s1" "admin@example.com" "Admin" None;
     Sample.signs_up "s2" "teacher@example.com" "Teacher" None;
     Sample.signs_up "s3" "student@example.com" "Student" (Some "A");
     (Sample.env, App.RoutinesPost admin (Sample.routine "A" 2));
     (Sample.env, App.RoutinesDelete student "1");
     (Sample.env, App.RoutinesPost admin (Sample.routine "B" 2))] in
  nothing_deleted requests App.empty /\
  map RoutineRecord.id (App.routines (App.run requests App.empty)) = [1; 2]
  /\
  numbered
    (map RoutineRecord.id (App.routines (App.run requests App.empty))).
Proof.
  intros admin student requests.
  assert (Hkept : nothing_deleted requests App.empty).
  { repeat split; try discriminate. }
  split; [exact Hkept|]. split; [reflexivity|].
  apply (proj1 (proj2 (proj2 (proj2 (proj2 (proj2 (proj2
           (identifiers_by_length (mapping := latin1_mapping))))))))
           requests).
  exact Hkept.
Defined.

(** C5 as stated fails twice.  Served from a store with three identities,
    two routine creations, the deletion of routine 1 and one more creation
    leave two routines with id 2.  And the records an attendance and a
    marks submission create have the fields shown and no id: the first
    record of each collection is kept under userId 3. *)
Lemma ids_reused_or_absent :
  let admin := Some (Sample.token Sample.admin) in
  let st :=
    App.run
      [(Sample.env, App.RoutinesPost admin (Sample.routine "A" 2));
       (Sample.env, App.RoutinesPost admin (Sample.routine "B" 2));
       (Sample.env, App.RoutinesDelete admin "1");
       (Sample.env, App.RoutinesPost admin (Sample.routine "C" 2))]
      Sample.store in
  map RoutineRecord.id (App.routines st) = [2; 2] /\
  ~ NoDup (map RoutineRecord.id (App.routines st)) /\
  App.attendance
    (snd (App.handle Sample.env
            (App.AttendancePost admin (num 3)
               (JObj [("Monday", JBool true)]))
            Sample.store))
  = [{| AttendanceRecord.userId := num 3;
        AttendanceRecord.name := "student@example.com";
        AttendanceRecord.userType := "Student";
        AttendanceRecord.attendance := JObj [("Monday", JBool true)] |}] /\
  App.marks
    (snd (App.handle Sample.env
            (App.MarksPost admin (num 3) (JStr "Math") (JNum 85))
            Sample.store))
  = [{| MarkEntry.userId := Some 3;
        MarkEntry.subject := JStr "Math";
        MarkEntry.marks := 85;
        MarkEntry.grade := "B";
        MarkEntry.updatedBy := 1;
        MarkEntry.updatedAt := Sample.stamp |}].
Proof.
  cbv zeta. split; [reflexivity|]. split; [|split; reflexivity].
  intros Hnodup.
  change (NoDup [2; 2]) in Hnodup.
  inversion Hnodup as [|x l Hin _]. apply Hin. now left.
Qed.

(** ** The further properties *)

(** X1 at the signup of a Student into the sample store. *)
Lemma signup_decision_witness :
  let req :=
    {| Accounts.email := Some "Second@Example.com";
       Accounts.password := Some "pw";
       Accounts.userType := Some "Student";
       Accounts.section := Some "B" |} in
  status (fst (Accounts.signup "secret" 0 "s4" req Sample.users)) = 201 /\
  Sample.users ++ [new_user "s4" req Sample.users]
  = Sample.users ++ [new_user "s4" req Sample.users] /\
  bcrypt_compare "pw" (User.password (new_user "s4" req Sample.users)) = true.
Proof.
  intros req.
  apply (proj2 (proj2 (signup_decision (mapping := latin1_mapping)
                         "secret" 0 "s4" req Sample.users))).
  reflexivity.
Defined.

(** X2 at the signup of an Admin into the empty collection, signed in with
    the email in capitals and a password that differs after 72 bytes. *)
Lemma signin_after_signup_witness :
  let long :=
    "aaaaaaaaaaaaaaaaaaaaaaaaaaaaaaaaaaaaaaaaaaaaaaaaaaaaaaaaaaaaaaaaaaaaaaaa"
  in
  let req :=
    {| Accounts.email := Some "admin@example.com";
       Accounts.password := Some (String.append long "b");
       Accounts.userType := Some "Admin";
       Accounts.section := None |} in
  let again :=
    {| Accounts.email := Some "ADMIN@EXAMPLE.COM";
       Accounts.password := Some (String.append long "c");
       Accounts.userType := None;
       Accounts.section := None |} in
  Accounts.signin "secret" 50 again [new_user "s1" req []]
  = reply 200
      (TokenOf
         (Jwt.sign
            {| Jwt.id := 1; Jwt.email := "admin@example.com";
               Jwt.userType := "Admin"; Jwt.section := None |}
            "secret" 50)).
Proof.
  intros long req again.
  refine (proj1 (proj2 (signin_after_signup (mapping := latin1_mapping)
                          "secret" 0 "s1" req [] [new_user "s1" req []]
                          "secret" 50 again _ _)) _ _);
    vm_compute; reflexivity.
Defined.

(** X3 at a signin with a wrong password into the sample store. *)
Lemma signin_decision_witness :
  Accounts.signin "secret" 50
    {| Accounts.email := Some "teacher@example.com";
       Accounts.password := Some "guess";
       Accounts.userType := None; Accounts.section := None |}
    Sample.users
  = fail 401 "Invalid credentials".
Proof.
  assert (Hunique : emails_unique Sample.users).
  { unfold emails_unique. simpl.
    repeat constructor; simpl; intuition discriminate. }
  apply (proj2 (signin_decision (mapping := latin1_mapping) "secret" 50
                  {| Accounts.email := Some "teacher@example.com";
                     Accounts.password := Some "guess";
                     Accounts.userType := None; Accounts.section := None |}
                  Sample.users Hunique)).
  - reflexivity.
  - discriminate.
Defined.

(** X4 at the signup of the sample Student, one second before and one
    second after the hour. *)
Lemma signup_token_authenticates_witness :
  Middleware.authenticate "secret" 3599
    (Some (Sample.token Sample.student)) Sample.users
  = inr Sample.student /\
  Middleware.authenticate "secret" 3601
    (Some (Sample.token Sample.student)) Sample.users
  = inl (fail 401 "Invalid token").
Proof.
  assert (Hids : numbered (map User.id [Sample.admin; Sample.teacher]))
    by reflexivity.
  pose (req :=
    {| Accounts.email := Some "student@example.com";
       Accounts.password := Some "password123";
       Accounts.userType := Some "Student";
       Accounts.section := Some "A" |}).
  split.
  - destruct (signup_token_authenticates (mapping := latin1_mapping)
                "secret" 0 "s3" req
                [Sample.admin; Sample.teacher] _ _ 3599 "other"
                Hids eq_refl) as (token & Hres & Hbefore & _).
    injection Hres as <-. apply Hbefore. reflexivity.
  - destruct (signup_token_authenticates (mapping := latin1_mapping)
                "secret" 0 "s3" req
                [Sample.admin; Sample.teacher] _ _ 3601 "other"
                Hids eq_refl) as (token & Hres & _ & Hafter & _).
    injection Hres as <-. apply Hafter. discriminate.
Defined.

(** X5 at the submission of one day for the sample Student by the Admin. *)
Lemma attendance_post_decision_witness :
  fst (Attendance.post (Sample.decoded Sample.admin) (num 3)
         (JObj [("Monday", JBool true)]) Sample.users [])
  = reply 201
      (Workbook
         [{| AttendanceRecord.userId := num 3;
             AttendanceRecord.name := "student@example.com";
             AttendanceRecord.userType := "Student";
             AttendanceRecord.attendance :=
               JObj [("Monday", JBool true)] |}]).
Proof.
  apply (proj2 (attendance_post_decision (Sample.decoded Sample.admin)
                  (num 3) (JObj [("Monday", JBool true)]) Sample.users [])).
  reflexivity.
Defined.

(** X6 at a second submission for the sample Student. *)
Lemma attendance_one_record_per_user_witness :
  let first :=
    [{| AttendanceRecord.userId := num 3;
        AttendanceRecord.name := "student@example.com";
        AttendanceRecord.userType := "Student";
        AttendanceRecord.attendance := JObj [("Monday", JBool true)] |}] in
  exists target r,
    find (fun u => strict_eq (num (User.id u)) (num 3)) Sample.users
    = Some target /\
    attendance_of (User.id target)
      [Attendance.with_attendance (JObj [("Friday", JBool false)])
         {| AttendanceRecord.userId := num 3;
            AttendanceRecord.name := "student@example.com";
            AttendanceRecord.userType := "Student";
            AttendanceRecord.attendance :=
              JObj [("Monday", JBool true)] |}]
    = [r] /\
    AttendanceRecord.attendance r = JObj [("Friday", JBool false)].
Proof.
  intros first.
  destruct (proj2 attendance_one_record_per_user
              (Sample.decoded Sample.teacher) (num 3)
              (JObj [("Friday", JBool false)]) Sample.users first
              [Attendance.with_attendance (JObj [("Friday", JBool false)])
                 {| AttendanceRecord.userId := num 3;
                    AttendanceRecord.name := "student@example.com";
                    AttendanceRecord.userType := "Student";
                    AttendanceRecord.attendance :=
                      JObj [("Monday", JBool true)] |}])
    as (target & r & Hfind & Hone & Hatt & _).
  - intros n. unfold attendance_of, first. simpl.
    destruct (Qeq_bool _ _); simpl; lia.
  - reflexivity.
  - exists target, r. auto.
Defined.

(** X7 at the sample Student reading the record the Admin submitted. *)
Lemma attendance_read_back_witness :
  exists r,
    Attendance.get (Sample.decoded Sample.student) "3"
      [{| AttendanceRecord.userId := num 3;
          AttendanceRecord.name := "student@example.com";
          AttendanceRecord.userType := "Student";
          AttendanceRecord.attendance := JObj [("Monday", JBool true)] |}]
    = reply 200 (AnAttendance r) /\
    AttendanceRecord.attendance r = JObj [("Monday", JBool true)] /\
    strict_eq (AttendanceRecord.userId r) (num 3) = true.
Proof.
  apply (attendance_read_back (Sample.decoded Sample.admin) (num 3)
           (JObj [("Monday", JBool true)]) Sample.users []
           _ (Sample.decoded Sample.student) "3" 3).
  - intros n. simpl. lia.
  - reflexivity.
  - reflexivity.
  - reflexivity.
  - right. right. reflexivity.
Defined.

(** X8 at an update under an id that no routine has, and at an update of
    routine 1 under a path that writes the id after a no-break space
    (U+00A0, the bytes 194 and 160). *)
Lemma routine_put_in_place_witness :
  let path := String (ascii_of_nat 194) (String (ascii_of_nat 160) "1") in
  let routines := [Routine.record 1 (Sample.routine "A" 2)] in
  Routine.put Sample.admin "7" (Sample.routine "B" 2) Sample.users routines
  = stop (fail 404 "Routine not found") /\
  Routine.put Sample.admin path (Sample.routine "B" 2) Sample.users routines
  = save (reply 200 (ARoutine (Routine.record 1 (Sample.routine "B" 2))))
      [Routine.record 1 (Sample.routine "B" 2)].
Proof.
  intros path routines.
  assert (Hteacher : refers_to_teacher
                       (Routine.teacherId (Sample.routine "B" 2))
                       Sample.users).
  { exists Sample.teacher. repeat split. simpl. auto. }
  split.
  - apply (proj1 (proj2 (routine_put_in_place Sample.admin "7"
                           (Sample.routine "B" 2) Sample.users routines))).
    + reflexivity.
    + reflexivity.
    + exact Hteacher.
    + intros n Hn x [<-|[]]. injection Hn as <-. discriminate.
  - apply (proj2 (proj2 (routine_put_in_place Sample.admin path
                           (Sample.routine "B" 2) Sample.users routines))
             1 [] (Routine.record 1 (Sample.routine "A" 2)) []).
    + reflexivity.
    + reflexivity.
    + exact Hteacher.
    + reflexivity.
    + reflexivity.
    + reflexivity.
    + intros x [].
Defined.

(** X9 at the deletion of the first of two routines. *)
Lemma routine_delete_removes_one_witness :
  exists n before old after,
    parseInt (JStr "1") = Some n /\
    [Routine.record 1 (Sample.routine "A" 2);
     Routine.record 2 (Sample.routine "B" 2)]
    = before ++ old :: after /\
    RoutineRecord.id old = n /\
    (forall x, In x before -> RoutineRecord.id x <> n) /\
    [Routine.record 2 (Sample.routine "B" 2)] = before ++ after /\
    fst (Routine.delete Sample.admin "1"
           [Routine.record 1 (Sample.routine "A" 2);
            Routine.record 2 (Sample.routine "B" 2)])
    = reply 200 (Message "Routine deleted") /\
    (NoDup (map RoutineRecord.id
              [Routine.record 1 (Sample.routine "A" 2);
               Routine.record 2 (Sample.routine "B" 2)]) ->
     (forall x, In x [Routine.record 2 (Sample.routine "B" 2)] ->
                RoutineRecord.id x <> n) /\
     Routine.delete Sample.admin "1" [Routine.record 2 (Sample.routine "B" 2)]
     = stop (fail 404 "Routine not found")).
Proof.
  apply (routine_delete_removes_one Sample.admin "1"
           [Routine.record 1 (Sample.routine "A" 2);
            Routine.record 2 (Sample.routine "B" 2)]).
  reflexivity.
Defined.

(** X10 at the creation of a routine of section A taught by the sample
    Teacher, listed by the sample Student of section A. *)
Lemma routine_listed_after_post_witness :
  exists listed,
    Routine.get Sample.student [] = reply 200 (RoutineList listed) /\
    Routine.get Sample.student [Routine.record 1 (Sample.routine "A" 2)]
    = reply 200
        (RoutineList (listed ++ [Routine.record 1 (Sample.routine "A" 2)])).
Proof.
  apply (proj2 (proj2 (routine_listed_after_post Sample.admin
                         (Sample.routine "A" 2) Sample.users []
                         [Routine.record 1 (Sample.routine "A" 2)]
                         Sample.student eq_refl))).
  right. split; [reflexivity|]. split.
  - intros _. exists "A". split; [reflexivity|discriminate].
  - intros H. exfalso. now apply H.
Defined.

(** X11 at the download of a document that is not there, and of the
    document 1 under a path that writes the id after a no-break space
    (U+00A0, the bytes 194 and 160). *)
Lemma download_by_id_witness :
  let path := String (ascii_of_nat 194) (String (ascii_of_nat 160) "1") in
  let documents :=
    [{| DocumentRecord.id := 1; DocumentRecord.fileName := "u1.pdf";
        DocumentRecord.uploadedBy := 2;
        DocumentRecord.uploadDate := Sample.stamp;
        DocumentRecord.description := "" |}] in
  Docs.download "2" (fun _ => true) documents
  = fail 404 "Document not found" /\
  Docs.download path (fun _ => true) documents
  = reply 200 (FileAt "u1.pdf").
Proof.
  intros path documents. split.
  - apply (proj1 (download_by_id "2" (fun _ => true))).
    + reflexivity.
    + intros k Hk. injection Hk as <-. right. reflexivity.
  - refine (proj2 (proj1 (proj2 (download_by_id path (fun _ => true)))
                     documents 1 _ eq_refl eq_refl _ eq_refl)).
    lia.
Defined.

(** X12 at the first document of the sample Teacher. *)
Lemma upload_then_download_witness :
  exists f,
    Some {| extname := ".PDF"; uuid := "u1" |} = Some f /\
    Docs.download "1" (fun _ => true)
      [{| DocumentRecord.id := 1; DocumentRecord.fileName := "u1.PDF";
          DocumentRecord.uploadedBy := 2;
          DocumentRecord.uploadDate := Sample.stamp;
          DocumentRecord.description := "" |}]
    = reply 200 (FileAt (Docs.filename f)).
Proof.
  destruct (proj1 (upload_then_download (mapping := latin1_mapping)
                     Sample.teacher None
                     (Some {| extname := ".PDF"; uuid := "u1" |})
                     Sample.stamp "1" (fun _ => true))
              [] _ numbered_nil eq_refl eq_refl)
    as (f & Hf & _ & _ & Hdownload).
  exists f. split; [exact Hf|exact Hdownload].
Defined.

(** X13 at the sample Teacher grading under the userId 1e-7, a number that
    prints as [1e-7] and reads as 1: the mark is kept under 1 and is read
    back under the path [1]. *)
Lemma marks_read_back_witness :
  let entry :=
    mark_entry Sample.teacher (JNum (1 # 10000000)) "Math" 95 Sample.stamp in
  MarkEntry.userId entry = Some 1 /\
  exists entries,
    Marks.get Sample.admin "1" (upsert entry [])
    = reply 200 (MarkList entries) /\
    In entry entries.
Proof.
  intros entry. split; [reflexivity|].
  destruct (proj1 (marks_read_back Sample.teacher (JNum (1 # 10000000))
                     (JStr "Math") (JNum 95) Sample.stamp [] _
                     Sample.admin "1" 1 eq_refl eq_refl eq_refl)
              (or_introl (or_introl eq_refl)))
    as (s & m & entries & Hs & Hm & Hget & Hin & _).
  injection Hs as <-. injection Hm as <-.
  exists entries. split; [exact Hget|exact Hin].
Defined.

(** X14 at a request to delete a routine that carries no token. *)
Lemma routes_need_a_token_witness :
  App.handle Sample.env (App.RoutinesDelete None "1") Sample.store
  = (fail 401 "No token provided", Sample.store).
Proof.
  exact (proj1 (routes_need_a_token (mapping := latin1_mapping) Sample.env
                  (App.RoutinesDelete None "1") Sample.store)
           eq_refl).
Defined.

(** X15 at the listing of the documents over the sample store. *)
Lemma handle_frame_witness :
  snd (App.handle Sample.env App.DocumentsGet Sample.store) = Sample.store.
Proof.
  exact (proj1 (handle_frame (mapping := latin1_mapping)
                  Sample.env App.DocumentsGet Sample.store)
           eq_refl).
Defined.

(** X17 at 59.5 and 90, graded F and A. *)
Lemma calculateGrade_monotone_witness :
  (rank (Marks.calculateGrade (119 # 2)) <= rank (Marks.calculateGrade 90))%nat.
Proof.
  refine (proj1 (calculateGrade_monotone (119 # 2) 90 _)).
  unfold Qle. simpl. lia.
Defined.

(** X18 at an upload of the sample Admin with the extension '.PDF'. *)
Lemma policies_are_pdf_or_docx_witness : policy_name "u1.pdf".
Proof.
  refine (policies_are_pdf_or_docx (mapping := latin1_mapping)
            [(Sample.env,
              App.PoliciesPost (Some (Sample.token Sample.admin)) None
                (Some {| extname := ".PDF"; uuid := "u1" |}))]
            Sample.store _
            {| PolicyRecord.id := 1; PolicyRecord.fileName := "u1.pdf";
               PolicyRecord.uploadedBy := 1;
               PolicyRecord.uploadDate := Sample.stamp;
               PolicyRecord.description := "" |} _).
  - intros p H. vm_compute in H. destruct H.
  - vm_compute. left. reflexivity.
Defined.

(** X19 for a run that fills the five collections: after the three
    signups, a routine for the sample Teacher, a document of the Teacher, a
    policy of the Admin, a mark given by the Teacher and the attendance of
    the Student. *)
Lemma run_keeps_references_witness :
  let admin := Some (Sample.token Sample.admin) in
  let teacher := Some (Sample.token Sample.teacher) in
  let st :=
    App.run
      [Sample.signs_up "s1" "admin@example.com" "Admin" None;
       Sample.signs_up "s2" "teacher@example.com" "Teacher" None;
       Sample.signs_up "s3" "student@example.com" "Student" (Some "A");
       (Sample.env, App.RoutinesPost admin (Sample.routine "A" 2));
       (Sample.env,
        App.DocumentsPost teacher None
          (Some {| extname := ".txt"; uuid := "u1" |}));
       (Sample.env,
        App.PoliciesPost admin None
          (Some {| extname := ".pdf"; uuid := "u2" |}));
       (Sample.env, App.MarksPost teacher (num 3) (JStr "Math") (JNum 85));
       (Sample.env,
        App.AttendancePost admin (num 3) (JObj [("Monday", JBool true)]))]
      App.empty in
  (List.length (App.routines st), List.length (App.documents st),
   List.length (App.policies st), List.length (App.marks st),
   List.length (App.attendance st)) = (1, 1, 1, 1, 1)%nat /\
  references_kept st.
Proof.
  intros admin teacher st. split; [reflexivity|].
  apply (run_keeps_references (mapping := latin1_mapping)).
  repeat split; intros x [].
Defined.

(** X20 for the sample store followed by one mark of the sample Teacher. *)
Lemma run_keeps_records_valid_witness :
  records_valid
    (App.run
       [Sample.signs_up "s1" "admin@example.com" "Admin" None;
        Sample.signs_up "s2" "teacher@example.com" "Teacher" None;
        Sample.signs_up "s3" "student@example.com" "Student" (Some "A");
        (Sample.env,
         App.MarksPost (Some (Sample.token Sample.teacher)) (JStr "3")
           (JStr "Math") (JNum 95))]
       App.empty).
Proof.
  apply (run_keeps_records_valid (mapping := latin1_mapping)
           [Sample.signs_up "s1" "admin@example.com" "Admin" None;
            Sample.signs_up "s2" "teacher@example.com" "Teacher" None;
            Sample.signs_up "s3" "student@example.com" "Student" (Some "A");
            (Sample.env,
             App.MarksPost (Some (Sample.token Sample.teacher)) (JStr "3")
               (JStr "Math") (JNum 95))]
           App.empty).
  split; [intros n s; apply Nat.le_0_l|].
  split; [intros n; apply Nat.le_0_l|].
  split; intros x [].
Defined.

(** X21 at the sample Student sending a text file. *)
Lemma policies_post_route_witness :
  App.handle Sample.env
    (App.PoliciesPost (Some (Sample.token Sample.student)) None
       (Some {| extname := ".txt"; uuid := "u1" |}))
    Sample.store
  = (fail 400 "Only PDF and DOCX files are allowed", Sample.store).
Proof.
  exact (policies_post_route (mapping := latin1_mapping) Sample.env
           (Some (Sample.token Sample.student)) None
           (Some {| extname := ".txt"; uuid := "u1" |})
           Sample.store Sample.student eq_refl).
Defined.
